(** * Instax sales forecasting dashboard: data loading, views and shell

    A shallow embedding of [app.py].  The script is a thin orchestration
    layer over pandas, statsmodels and Streamlit; the operations of those
    libraries that the script calls are embedded here with the semantics
    they have on the values the script feeds them:

    - timestamps ([datetime64[ns]]) are nanoseconds since 1970-01-01 as [Z],
      a missing one ([NaT]) is [None];
    - calendar days are day ordinals since 1970-01-01, months are month
      ordinals [12 * year + (month - 1)] of the proleptic Gregorian calendar;
    - integer columns ([Qty], the two series, the rounded forecasts) hold
      64-bit integers: a value is a [Z] of the [int64] range, a sum wraps
      around as numpy's addition does, and the cast of a float to an
      integer is numpy's;
    - the finite values of a float column are rationals ([Q]), next to [NaN]
      and the two infinities;
    - a Streamlit run is the list of the elements it rendered, in order,
      together with its outcome (normal return or an uncaught exception). *)

From Stdlib Require Import ZArith List String Ascii Bool Lia QArith Qround Qabs.
From Stdlib Require Import Sorted Permutation.
Import ListNotations.

Local Open Scope Z_scope.

(** [lia] is used with quotients and remainders by constants throughout. *)
Ltac Zify.zify_post_hook ::= Z.div_mod_to_equations.

(* ------------------------------------------------------------------ *)
(** * Calendar *)
(* ------------------------------------------------------------------ *)

Module Calendar.

(** Nanoseconds in a day: the resolution of [datetime64[ns]]. *)
Definition ns_per_day : Z := 86400000000000.

(** Calendar day of a timestamp ([Timestamp.normalize], the bin of
    [resample('D')]); [Z.div] rounds towards minus infinity. *)
Definition day_of_timestamp (t : Z) : Z := t / ns_per_day.

(** Midnight of a day. *)
Definition timestamp_of_day (d : Z) : Z := d * ns_per_day.

(** Days in one 400-year cycle of the Gregorian calendar. *)
Definition days_per_era : Z := 146097.

(** Year of the cycle (years start on 1 March) of a day of the cycle. *)
Definition yoe_of_doe (doe : Z) : Z :=
  (doe - doe / 1460 + doe / 36524 - doe / 146096) / 365.

(** Day of the (March-based) year. *)
Definition doy_of_doe (doe : Z) : Z :=
  let yoe := yoe_of_doe doe in
  doe - (365 * yoe + yoe / 4 - yoe / 100).

(** March-based month (0 = March, ..., 11 = February) of a day of the year. *)
Definition mp_of_doy (doy : Z) : Z := (5 * doy + 2) / 153.

(** Months since the start of the cycle, for a day of the cycle. *)
Definition moe_of_doe (doe : Z) : Z :=
  12 * yoe_of_doe doe + mp_of_doy (doy_of_doe doe).

(** Month ordinal [12 * year + (month - 1)] of a day ordinal.  The cycles
    are anchored at 0000-03-01, which is day [-719468]; that day lies in
    month ordinal 2. *)
Definition month_of_day (d : Z) : Z :=
  let z := d + 719468 in
  let era := z / days_per_era in
  let doe := z mod days_per_era in
  4800 * era + moe_of_doe doe + 2.

(** (year, month, day) of a day ordinal. *)
Definition civil_from_days (d : Z) : Z * Z * Z :=
  let z := d + 719468 in
  let doe := z mod days_per_era in
  let doy := doy_of_doe doe in
  let mp := mp_of_doy doy in
  let mo := month_of_day d in
  (mo / 12, mo mod 12 + 1, doy - (153 * mp + 2) / 5 + 1).

(** Day of the cycle on which the March-based month [moe] starts. *)
Definition doe_of_moe (moe : Z) : Z :=
  let yoe := moe / 12 in
  let mp := moe mod 12 in
  yoe * 365 + yoe / 4 - yoe / 100 + (153 * mp + 2) / 5.

(** First day of a month ordinal ([Period.to_timestamp] on a monthly
    period, as a day ordinal). *)
Definition month_start (mo : Z) : Z :=
  let m := mo - 2 in
  let era := m / 4800 in
  let moe := m mod 4800 in
  era * days_per_era + doe_of_moe moe - 719468.

(** Day ordinal of a civil date. *)
Definition days_from_civil (y m d : Z) : Z :=
  month_start (12 * y + (m - 1)) + (d - 1).

(** Month ordinal of a timestamp (the bin of [resample('M')], the value of
    [to_period('M')] and of [strftime('%Y-%m')]). *)
Definition month_of_timestamp (t : Z) : Z := month_of_day (day_of_timestamp t).

End Calendar.

(* ------------------------------------------------------------------ *)
(** * Python values, exceptions and results *)
(* ------------------------------------------------------------------ *)

Module Python.

(** The exceptions the script can meet.  All of them are subclasses of
    [Exception]; the script tells [FileNotFoundError] from the rest. *)
Inductive exn :=
| FileNotFoundError (msg : string)
| AttributeError (msg : string)
| ValueError (msg : string)
| KeyError (msg : string)
| OtherException (kind msg : string).

(** [str(e)]. *)
Definition exn_text (e : exn) : string :=
  match e with
  | FileNotFoundError msg | AttributeError msg | ValueError msg
  | KeyError msg | OtherException _ msg => msg
  end.

(** Outcome of an expression: a value or a raised exception. *)
Inductive result (A : Type) :=
| Ok (a : A)
| Raise (e : exn).
Arguments Ok {A} a.
Arguments Raise {A} e.

Definition rbind {A B} (r : result A) (k : A -> result B) : result B :=
  match r with
  | Ok a => k a
  | Raise e => Raise e
  end.

(** A list of fallible steps, stopped by the first one that raises. *)
Fixpoint rmap {A B} (f : A -> result B) (l : list A) : result (list B) :=
  match l with
  | [] => Ok []
  | a :: l' =>
      rbind (f a) (fun b => rbind (rmap f l') (fun bs => Ok (b :: bs)))
  end.

(** A float: a finite value (every finite double is a rational), [NaN] or
    an infinity. *)
Inductive fval :=
| Finite (q : Q)
| NaN
| PosInf
| NegInf.

(** The values an attribute of a fitted model can hold. *)
Inductive pyval :=
| PyFloat (x : fval)
| PyInt (n : Z)
| PyStr (s : string)
| PyTuple (l : list Z)
| PyNone.

(** [isinstance(v, float)]. *)
Definition isinstance_float (v : pyval) : bool :=
  match v with
  | PyFloat _ => true
  | _ => false
  end.

(** The pieces of a formatted string, kept symbolic: literal text and the
    interpolated values with their format. *)
Inductive fragment :=
| Lit (s : string)
| Str (v : pyval)
| Fmt2f (x : fval)
| FmtThousands (n : Z)
| FmtInt (n : Z)
| ExnText (e : exn)
| YearMonth (mo : Z).

Definition text := list fragment.

(** Attribute access on a name that may hold [None]. *)
Definition getattr {O A} (name : string) (o : option O)
    (field : O -> result A) : result A :=
  match o with
  | None =>
      Raise (AttributeError
               ("'NoneType' object has no attribute '" ++ name ++ "'"))
  | Some obj => field obj
  end.

End Python.

(* ------------------------------------------------------------------ *)
(** * The pandas operations the script calls *)
(* ------------------------------------------------------------------ *)

Module Pandas.
Import Calendar Python.

(** ** 64-bit integers *)

(** The least and the greatest [int64]. *)
Definition int64_min : Z := -9223372036854775808.
Definition int64_max : Z := 9223372036854775807.

Definition in_int64 (z : Z) : Prop := int64_min <= z <= int64_max.

(** The [int64] an operation leaves when its exact result is [z]: numpy's
    integer arithmetic wraps around silently (two's complement, modulo
    [2^64]). *)
Definition wrap64 (z : Z) : Z :=
  (z + 9223372036854775808) mod 18446744073709551616 - 9223372036854775808.

(** [a + b] on two [int64]. *)
Definition int64_add (a b : Z) : Z := wrap64 (a + b).

(** ** The transaction file *)

(** A row of the transaction file as [read_csv] returns it.  The date cell
    is text, or missing when the cell is blank; the quantity is an
    integer; the other columns of the file are never read by the
    script. *)
Record csv_row := { Tanggal_text : option string; Qty_cell : Z }.

(** The frame [read_csv] returns: the names of its columns and its rows.
    The model covers the files whose [Tanggal] column is read as text (a
    blank cell missing) and whose [Qty] column is read as [int64]; the
    cells of a column the file does not have are never read. *)
Record csv_frame := { csv_columns : list string; csv_rows : list csv_row }.

(** [name in df.columns]. *)
Definition has_column (raw : csv_frame) (name : string) : bool :=
  existsb (String.eqb name) (csv_columns raw).

(** [df[name]]: the cells of a column; a [KeyError] when the frame has no
    column of that name. *)
Definition getitem {A} (raw : csv_frame) (name : string)
    (cell : csv_row -> A) : result (list A) :=
  if has_column raw name then Ok (map cell (csv_rows raw))
  else Raise (KeyError ("'" ++ name ++ "'")).

(** [df.groupby(...)[name]]: the same selection on the grouped frame. *)
Definition groupby_getitem {A} (raw : csv_frame) (name : string)
    (cell : csv_row -> A) : result (list A) :=
  if has_column raw name then Ok (map cell (csv_rows raw))
  else Raise (KeyError ("'Column not found: " ++ name ++ "'")).

(** A row of [df] once [Tanggal] has been converted (line 35): a timestamp,
    or [NaT] where the cell was blank. *)
Record row := { Tanggal : option Z; Qty : Z }.

Definition DataFrame := list row.

(** [df['Tanggal'] = stamps]: the frame with its date column replaced. *)
Definition assign_Tanggal (raw : csv_frame) (stamps : list (option Z))
  : DataFrame :=
  map (fun rt => {| Tanggal := snd rt; Qty := Qty_cell (fst rt) |})
      (combine (csv_rows raw) stamps).

(** The rows a grouping works on: the keys, each with the cell of the
    selected column. *)
Definition keyed (keys : list (option Z)) (values : list Z) : DataFrame :=
  map (fun kv => {| Tanggal := fst kv; Qty := snd kv |}) (combine keys values).

(** An integer series with a time-like index, in index order. *)
Definition series := list (Z * Z).

(** ** Reading dates *)

(** How [pd.to_datetime] reads a text: the format it infers from a text
    ([guess_datetime_format], nothing when it recognises none), the reading
    of a text in a given format ([strptime] with [exact=True]), and the
    reading of a text by itself ([dateutil]'s parser). *)
Record datetime_parser := {
  guess_datetime_format : string -> option string;
  strptime : string -> string -> option Z;
  dateutil_parse : string -> option Z
}.

(** The first cell of a column that is not missing. *)
Fixpoint first_non_null (col : list (option string)) : option string :=
  match col with
  | [] => None
  | Some s :: _ => Some s
  | None :: col' => first_non_null col'
  end.

(** The reader [pd.to_datetime] applies to every text of a column: when a
    format can be inferred from the first text of the column, every text
    is read in that format; otherwise every text is read by itself. *)
Definition column_reader (p : datetime_parser) (col : list (option string))
  : string -> option Z :=
  match first_non_null col with
  | Some first =>
      match guess_datetime_format p first with
      | Some fmt => strptime p fmt
      | None => dateutil_parse p
      end
  | None => dateutil_parse p
  end.

(** One cell under a reader: a blank cell becomes [NaT], a text is read,
    and a text that cannot be read raises a [ValueError]; the message of
    pandas, which quotes the text and the format, is abridged. *)
Definition read_cell (read : string -> option Z) (c : option string)
  : result (option Z) :=
  match c with
  | None => Ok None
  | Some s =>
      match read s with
      | Some t => Ok (Some t)
      | None =>
          Raise (ValueError
                   ("time data does not match the format, unable to parse: "
                    ++ s))
      end
  end.

(** [pd.to_datetime] on a text column. *)
Definition to_datetime (p : datetime_parser) (col : list (option string))
  : result (list (option Z)) :=
  rmap (read_cell (column_reader p col)) col.

(** ** Sums *)

(** [Series.sum()] on an [int64] series: the accumulator wraps around. *)
Definition total (s : series) : Z :=
  fold_left (fun acc kv => int64_add acc (snd kv)) s 0.

(** One more value for the group of key [k]: the groups stay in ascending
    key order, one entry per key, and the values of a group are added as
    [int64]. *)
Fixpoint add_to_group (k v : Z) (s : series) : series :=
  match s with
  | [] => [(k, v)]
  | (k', v') :: rest =>
      if k <? k' then (k, v) :: s
      else if k =? k' then (k', int64_add v' v) :: rest
      else (k', v') :: add_to_group k v rest
  end.

(** [df.groupby('Tanggal')['Qty'].sum()]: one entry per distinct timestamp,
    in ascending order; rows whose key is [NaT] belong to no group. *)
Definition group_step (acc : series) (r : row) : series :=
  match Tanggal r with
  | Some t => add_to_group t (Qty r) acc
  | None => acc
  end.

Definition groupby_sum (df : DataFrame) : series :=
  fold_left group_step df [].

(** The leading entries of a series that fall into the bin that ends with
    key [k]: their [int64] sum, and the entries left for the later bins. *)
Fixpoint take_bin (key : Z -> Z) (k : Z) (s : series) : Z * series :=
  match s with
  | [] => (0, [])
  | (t, v) :: rest =>
      if key t <=? k
      then let (acc, later) := take_bin key k rest in
           (int64_add v acc, later)
      else (0, s)
  end.

(** [n] consecutive bins starting at key [k], filled by one pass over the
    series. *)
Fixpoint bins (key : Z -> Z) (k : Z) (n : nat) (s : series) : series :=
  match n with
  | O => []
  | S n' =>
      let (v, later) := take_bin key k s in
      (k, v) :: bins key (k + 1) n' later
  end.

(** [s.resample(rule).sum()] on a series whose index is ascending: one bin
    per value of [key] from the bin of the first label to the bin of the
    last one, empty bins included with sum 0; an empty series stays
    empty.  Bins are labelled by their key. *)
Definition resample_sum (key : Z -> Z) (s : series) : series :=
  match s with
  | [] => []
  | (t0, _) :: _ =>
      let k0 := key t0 in
      let k1 := key (fst (last s (t0, 0))) in
      bins key k0 (Z.to_nat (k1 - k0 + 1)) s
  end.

(** [Series.min()] and [Series.max()] of a datetime column; [NaT] entries
    are skipped, and the result is [NaT] when nothing is left. *)
Definition opt_merge (f : Z -> Z -> Z) (a b : option Z) : option Z :=
  match a, b with
  | Some x, Some y => Some (f x y)
  | Some x, None => Some x
  | None, _ => b
  end.

Definition Tanggal_min (df : DataFrame) : option Z :=
  fold_right (fun r acc => opt_merge Z.min (Tanggal r) acc) None df.

Definition Tanggal_max (df : DataFrame) : option Z :=
  fold_right (fun r acc => opt_merge Z.max (Tanggal r) acc) None df.

(** [Timestamp.strftime('%Y-%m')]; [NaT] does not support it. *)
Definition strftime_Ym (t : option Z) : result Z :=
  match t with
  | Some ts => Ok (month_of_timestamp ts)
  | None => Raise (ValueError "NaTType does not support strftime")
  end.

(** Nearest integer of a rational, ties to the even neighbour
    ([numpy.round], which [Series.round(0)] calls). *)
Definition round_half_even (q : Q) : Z :=
  let n := Qnum q in
  let d := Zpos (Qden q) in
  let f := n / d in
  match 2 * (n mod d) ?= d with
  | Lt => f
  | Gt => f + 1
  | Eq => if Z.even f then f else f + 1
  end.

(** [x.round(0)] on one float: the result is still a float. *)
Definition round0 (x : fval) : fval :=
  match x with
  | Finite q => Finite (inject_Z (round_half_even q))
  | _ => x
  end.

(** The cast of an integral value to [int64]: the value itself inside the
    range; outside the range the cast does not raise and leaves the least
    [int64] (numpy on x86-64). *)
Definition cast_int64 (z : Z) : Z :=
  if (int64_min <=? z) && (z <=? int64_max) then z else int64_min.

(** [x.astype(int)] on one float: truncation towards zero, then the cast
    to [int64]; a missing or infinite value cannot be cast. *)
Definition astype_int (x : fval) : result Z :=
  match x with
  | Finite q => Ok (cast_int64 (Z.quot (Qnum q) (Zpos (Qden q))))
  | _ =>
      Raise (OtherException "IntCastingNaNError"
               "Cannot convert non-finite values (NA or inf) to integer")
  end.

(** [col.round(0).astype(int)] on a float column. *)
Definition round_to_int (col : list fval) : result (list Z) :=
  rmap (fun x => astype_int (round0 x)) col.

End Pandas.

(* ------------------------------------------------------------------ *)
(** * Time indexes and the fitted models *)
(* ------------------------------------------------------------------ *)

Module Statsmodels.
Import Calendar Python Pandas.

(** The two kinds of monthly index a fitted model can carry: periods
    (month ordinals) or timestamps. *)
Inductive index :=
| PeriodIdx (months : list Z)
| DatetimeIdx (stamps : list Z).

Inductive index_kind := PeriodIndex | DatetimeIndex.

(** A float series over a monthly index. *)
Record fseries := { idx : index; vals : list fval }.

(** [Period.to_timestamp()] of a month: midnight of its first day. *)
Definition month_stamp (mo : Z) : Z := timestamp_of_day (month_start mo).

Definition make_index (k : index_kind) (months : list Z) : index :=
  match k with
  | PeriodIndex => PeriodIdx months
  | DatetimeIndex => DatetimeIdx (map month_stamp months)
  end.

(** [index.to_timestamp()]: only a period index has the method. *)
Definition index_to_timestamp (i : index) : result (list Z) :=
  match i with
  | PeriodIdx months => Ok (map month_stamp months)
  | DatetimeIdx _ =>
      Raise (AttributeError
               "'DatetimeIndex' object has no attribute 'to_timestamp'")
  end.

(** [index.to_period('M')]: only a timestamp index has the method. *)
Definition index_to_period_M (i : index) : result index :=
  match i with
  | DatetimeIdx stamps => Ok (PeriodIdx (map month_of_timestamp stamps))
  | PeriodIdx _ =>
      Raise (AttributeError
               "'PeriodIndex' object has no attribute 'to_period'")
  end.

(** [pd.to_datetime(index.astype(str))]: a month prints as its year and
    month and is read back as the first of the month; a timestamp prints
    and is read back unchanged. *)
Definition to_datetime_of_str (i : index) : list Z :=
  match i with
  | PeriodIdx months => map month_stamp months
  | DatetimeIdx stamps => stamps
  end.

(** [stamps.strftime('%Y-%m')]: the month keys of a timestamp index. *)
Definition strftime_Ym_index (stamps : list Z) : list Z :=
  map month_of_timestamp stamps.

(** A model object as [pickle.load] returns it.  The scalar attributes may
    be absent or raise on access.  The model remembers the last month of
    the data it was fitted on; the values it predicts for the months after
    it do not depend on how many of them are asked for. *)
Record Model := {
  aic : result pyval;
  bic : result pyval;
  llf : result pyval;
  sse : result pyval;
  order : result pyval;
  seasonal_order : result pyval;
  model_seasonal : result pyval;
  index_kind_of : index_kind;
  train_end : Z;
  fitted : list fval;
  predict : nat -> fval;
  predict_lower : nat -> fval;
  predict_upper : nat -> fval;
  get_forecast_fault : Z -> option exn;
  forecast_fault : Z -> option exn
}.

(** The steps ahead [1, ..., steps]. *)
Definition horizon (steps : Z) : list nat := seq 1 (Z.to_nat steps).

(** The months a forecast of [steps] steps is about: the ones that follow
    the last fitted month. *)
Definition forecast_months (m : Model) (steps : Z) : list Z :=
  map (fun h => train_end m + Z.of_nat h) (horizon steps).

Definition forecast_index (m : Model) (steps : Z) : index :=
  make_index (index_kind_of m) (forecast_months m steps).

(** [model.fittedvalues]: one value per fitted month, up to the last. *)
Definition fittedvalues (m : Model) : fseries :=
  let n := Z.of_nat (List.length (fitted m)) in
  {| idx := make_index (index_kind_of m)
              (map (fun i => train_end m - n + 1 + Z.of_nat i)
                   (seq 0 (List.length (fitted m))));
     vals := fitted m |}.

(** The result of [get_forecast]: the predicted mean and the bounds of
    the confidence interval ([conf_int()], columns 0 and 1), over the same
    index. *)
Record PredictionResults := {
  predicted_mean : fseries;
  conf_int_index : index;
  conf_int_lower : list fval;
  conf_int_upper : list fval
}.

(** [model.get_forecast(steps=steps)]. *)
Definition get_forecast (m : Model) (steps : Z) : result PredictionResults :=
  match get_forecast_fault m steps with
  | Some e => Raise e
  | None =>
      Ok {| predicted_mean :=
              {| idx := forecast_index m steps;
                 vals := map (predict m) (horizon steps) |};
            conf_int_index := forecast_index m steps;
            conf_int_lower := map (predict_lower m) (horizon steps);
            conf_int_upper := map (predict_upper m) (horizon steps) |}
  end.

(** [model.forecast(steps=steps)]. *)
Definition forecast (m : Model) (steps : Z) : result fseries :=
  match forecast_fault m steps with
  | Some e => Raise e
  | None =>
      Ok {| idx := forecast_index m steps;
            vals := map (predict m) (horizon steps) |}
  end.

End Statsmodels.

(* ------------------------------------------------------------------ *)
(** * Streamlit: rendered elements and script runs *)
(* ------------------------------------------------------------------ *)

Module Streamlit.
Import Python.

(** One line of a chart: [ax.plot(xs, ys, label=...)]. *)
Record plot_line := { line_label : string; xs : list Z; ys : list fval }.

(** A shaded band: [ax.fill_between(xs, lower, upper, label=...)]. *)
Record plot_band := {
  band_label : string;
  band_xs : list Z;
  band_lower : list fval;
  band_upper : list fval
}.

Record figure := {
  fig_title : text;
  fig_xlabel : string;
  fig_ylabel : string;
  fig_lines : list plot_line;
  fig_bands : list plot_band
}.

(** A row of the combined forecast table: the month key, the three SARIMA
    columns and the Holt-Winters column, which is missing where the join
    found no partner. *)
Record forecast_row := {
  Bulan : Z;
  SARIMA_Prediksi : Z;
  SARIMA_Batas_Bawah : Z;
  SARIMA_Batas_Atas : Z;
  Holt_Winters_Prediksi : option Z
}.

(** Where an element is placed. *)
Inductive container := Main | Sidebar | Column (i : nat).

Inductive widget :=
| set_page_config (page_title layout initial_sidebar_state : string)
| title (t : text)
| markdown (t : text)
| header (t : text)
| subheader (t : text)
| caption (t : text)
| write (t : text)
| warning (t : text)
| error (t : text)
| metric (label : string) (value : text)
| columns (n : nat)
| slider (label : string) (min_value max_value value step : Z)
| button (label : string)
| radio (label : string) (options : list string)
| dataframe (rows : list forecast_row)
| pyplot (fig : figure).

Definition element := (container * widget)%type.

(** A run of a piece of the script: what it rendered, in order, and how it
    ended.  What was rendered before an exception stays rendered. *)
Definition St (A : Type) : Type := (list element * result A)%type.

Definition ret {A} (a : A) : St A := ([], Ok a).

Definition bind {A B} (m : St A) (k : A -> St B) : St B :=
  match m with
  | (out, Ok a) => let (out', r) := k a in (out ++ out', r)
  | (out, Raise e) => (out, Raise e)
  end.

(** Render one element. *)
Definition emit (c : container) (w : widget) : St unit := ([(c, w)], Ok tt).

(** Evaluate an expression that renders nothing. *)
Definition lift {A} (r : result A) : St A := ([], r).

(** [try: body / except ...: handler]; every exception of the model is an
    [Exception], so a handler for [Exception] and a bare [except] both take
    all of them. *)
Definition try_except {A} (body : St A) (handler : exn -> St A) : St A :=
  match body with
  | (out, Ok a) => (out, Ok a)
  | (out, Raise e) => let (out', r) := handler e in (out ++ out', r)
  end.

Definition rendered {A} (m : St A) : list element := fst m.
Definition outcome {A} (m : St A) : result A := snd m.

(** The widgets of a run, whatever their place. *)
Definition widgets {A} (m : St A) : list widget := map snd (rendered m).

End Streamlit.

Declare Scope st_scope.
Delimit Scope st_scope with st.
Notation "x <- m ;; k" := (Streamlit.bind m (fun x => k))
  (at level 61, m at next level, right associativity) : st_scope.
Notation "' pat <- m ;; k" :=
  (Streamlit.bind m (fun x => match x with pat => k end))
  (at level 61, pat pattern, m at next level, right associativity) : st_scope.
Notation "m ;; k" := (Streamlit.bind m (fun _ => k))
  (at level 61, right associativity) : st_scope.

Declare Scope result_scope.
Delimit Scope result_scope with res.
Notation "'let*' x ':=' e 'in' k" := (Python.rbind e (fun x => k))
  (at level 10, x name, e at level 100, k at level 200) : result_scope.

(* ------------------------------------------------------------------ *)
(** * The application script *)
(* ------------------------------------------------------------------ *)

Module App.
Import Calendar Python Pandas Statsmodels Streamlit.
Local Open Scope st_scope.
Local Open Scope result_scope.
Local Open Scope string_scope.
Local Open Scope Z_scope.

Definition DATA_FILE : string := "instax_sales_transaction_data.csv".
Definition SARIMA_MODEL_FILE : string := "model_sarima.pkl".
Definition HOLTWINTERS_MODEL_FILE : string := "model_holtwinters.pkl".

(** The welcome paragraph of the home page (lines 81-86). *)
Definition home_intro_text : string :=
  "
        Aplikasi ini dikembangkan untuk melakukan peramalan (forecasting) terhadap 
        kuantitas penjualan produk Instax berdasarkan data transaksi historis. 
        Tujuan utamanya adalah membantu manajemen dalam pengambilan keputusan terkait 
        inventaris, strategi pemasaran, dan perencanaan produksi di masa mendatang.
        ".

(** The methodology paragraph of the home page (lines 94-101). *)
Definition home_method_text : string :=
  "
        Kami membandingkan dua model deret waktu (Time Series) yang populer untuk peramalan penjualan bulanan:
        
        1. **SARIMA (Seasonal AutoRegressive Integrated Moving Average):** Model statistik yang kuat untuk data deret waktu yang menunjukkan tren, musiman, dan ketergantungan waktu.
        2. **Holt-Winters' Additive Method (Triple Exponential Smoothing):** Metode perataan eksponensial yang mencakup komponen level, tren, dan musiman.
        
        Analisis dan pelatihan kedua model ini dilakukan di Google Colab.
        ".

(** The note under the fit chart (lines 181-185). *)
Definition analysis_note_text : string :=
  "
        Grafik di atas menunjukkan seberapa baik masing-masing model dapat menyesuaikan diri 
        (fitting) dengan pola data penjualan historis (garis hitam). Model yang baik akan 
        memiliki garis fitted (merah dan biru) yang sangat dekat dengan garis Aktual.
        ".

(** The note about retraining in the notebook (lines 286-294). *)
Definition colab_note_text : string :=
  "
        Jika Anda ingin melakukan pelatihan ulang (retrain) model dengan data baru, 
        mengubah parameter model, atau melakukan analisis data lebih mendalam, 
        silakan gunakan notebook Google Colab yang telah disediakan.
        
        Notebook Colab (`Copy_of_Forecasting_Instax_Sales.ipynb`) berisi semua langkah
        preprocessing data, EDA (Exploratory Data Analysis), pemilihan model, pelatihan, 
        dan evaluasi model SARIMA dan Holt-Winters.
        ".

(** A literal text. *)
Definition lit (s : string) : text := [Lit s].

(** ** Loading the data and the models *)

Section Script.

(** The world outside the script: what [pd.read_csv] finds at a path, how
    [pd.to_datetime] reads date texts, what [pickle.load] finds at a
    path. *)
Variable read_csv : string -> result csv_frame.
Variable parse_datetime : datetime_parser.
Variable pickle_load : string -> result Model.

(** The body of the [try] of [load_data] (lines 32-45).  The daily series
    is labelled by day ordinals, the monthly one by month ordinals. *)
Definition load_data_try (file_path : string)
  : result (DataFrame * series * series) :=
  let* raw := read_csv file_path in
  let* tanggal := getitem raw "Tanggal" Tanggal_text in
  let* stamps := to_datetime parse_datetime tanggal in
  let df := assign_Tanggal raw stamps in
  let* qty := groupby_getitem raw "Qty" Qty_cell in
  let daily_sales :=
    resample_sum day_of_timestamp (groupby_sum (keyed stamps qty)) in
  let monthly_sales := resample_sum month_of_day daily_sales in
  Ok (df, daily_sales, monthly_sales).

Definition loaded_data : Type :=
  (option DataFrame * option series * option series)%type.

Definition load_data (file_path : string) : St loaded_data :=
  try_except
    ('(df, daily_sales, monthly_sales) <- lift (load_data_try file_path) ;;
     ret (Some df, Some daily_sales, Some monthly_sales))
    (fun e =>
       match e with
       | FileNotFoundError _ =>
           emit Main (error [Lit "File data tidak ditemukan: "; Lit file_path]) ;;
           ret (None, None, None)
       | _ =>
           emit Main
             (error [Lit "Terjadi kesalahan saat memuat atau memproses data: ";
                     ExnText e]) ;;
           ret (None, None, None)
       end).

Definition load_model (file_path : string) : St (option Model) :=
  try_except
    (model <- lift (pickle_load file_path) ;;
     ret (Some model))
    (fun e =>
       match e with
       | FileNotFoundError _ =>
           emit Main (error [Lit "File model tidak ditemukan: "; Lit file_path]) ;;
           ret None
       | _ =>
           emit Main
             (error [Lit "Terjadi kesalahan saat memuat model "; Lit file_path;
                     Lit ": "; ExnText e]) ;;
           ret None
       end).

(** ** The home page *)

Definition home_page : St unit :=
  emit Main (title (lit "Aplikasi Peramalan Penjualan Instax")) ;;
  emit Main (markdown (lit "---")) ;;
  emit Main (header (lit "Selamat Datang!")) ;;
  emit Main (markdown (lit home_intro_text)) ;;
  emit Main (subheader (lit "Data yang Digunakan")) ;;
  emit Main
    (markdown
       [Lit "Data yang digunakan bersumber dari file `"; Lit DATA_FILE;
        Lit "`, yang berisi data transaksi harian dari Mei 2022 hingga April 2025."]) ;;
  emit Main (subheader (lit "Metodologi Peramalan")) ;;
  emit Main (markdown (lit home_method_text)) ;;
  emit Main (subheader (lit "Navigasi")) ;;
  emit Main
    (markdown
       (lit "Silakan jelajahi menu di sidebar untuk melihat performa model dan melakukan uji coba peramalan.")).

(** ** Helpers shared by the two model views *)

(** [x is None]. *)
Definition is_None {A} (o : option A) : bool :=
  match o with
  | None => true
  | Some _ => false
  end.

(** The placeholder of an unavailable metric. *)
Definition NA : pyval := PyStr "N/A".

(** The value shown by a metric panel (lines 138-146): two decimals for a
    float, the value itself otherwise. *)
Definition metric_value (v : pyval) : text :=
  match v with
  | PyFloat x => [Fmt2f x]
  | _ => [Str v]
  end.

(** [df_monthly.to_timestamp()]: each month becomes its first midnight. *)
Definition to_timestamp (s : series) : series :=
  map (fun kv => (month_stamp (fst kv), snd kv)) s.

(** The line drawn for an integer series. *)
Definition line_of_series (label : string) (s : series) : plot_line :=
  {| line_label := label;
     xs := map fst s;
     ys := map (fun kv => Finite (inject_Z (snd kv))) s |}.

(** ** The model analysis view *)

Definition analysis_figure (actual_data : series)
    (sarima_x : list Z) (sarima_y : list fval)
    (hw_x : list Z) (hw_y : list fval) : figure :=
  {| fig_title :=
       lit "Perbandingan Kinerja In-Sample Model (Penjualan Bulanan)";
     fig_xlabel := "Tanggal";
     fig_ylabel := "Kuantitas Penjualan (Qty)";
     fig_lines :=
       [line_of_series "Penjualan Aktual (Qty)" actual_data;
        {| line_label := "SARIMA Fitted"; xs := sarima_x; ys := sarima_y |};
        {| line_label := "Holt-Winters Fitted"; xs := hw_x; ys := hw_y |}];
     fig_bands := [] |}.

(** The first [try] of the view (lines 119-124). *)
Definition sarima_metrics (sarima_model : option Model)
  : St (pyval * pyval * pyval) :=
  try_except
    (sarima_aic <- lift (getattr "aic" sarima_model aic) ;;
     sarima_bic <- lift (getattr "bic" sarima_model bic) ;;
     sarima_llf <- lift (getattr "llf" sarima_model llf) ;;
     ret (sarima_aic, sarima_bic, sarima_llf))
    (fun _ => ret (NA, NA, NA)).

(** The second [try] of the view (lines 126-131). *)
Definition hw_metrics (hw_model : option Model)
  : St (pyval * pyval * pyval) :=
  try_except
    (hw_aic <- lift (getattr "aic" hw_model aic) ;;
     hw_bic <- lift (getattr "bic" hw_model bic) ;;
     hw_sse <- lift (getattr "sse" hw_model sse) ;;
     ret (hw_aic, hw_bic, hw_sse))
    (fun _ => ret (NA, NA, NA)).

(** Lines 115-186: the view once the guard has been passed. *)
Definition model_analysis_body (sarima_model hw_model : option Model)
    (df_monthly : option series) : St unit :=
  emit Main (header (lit "Perbandingan Metrik Evaluasi Model")) ;;
  '(sarima_aic, sarima_bic, sarima_llf) <- sarima_metrics sarima_model ;;
  '(hw_aic, hw_bic, hw_sse) <- hw_metrics hw_model ;;
  emit Main (columns 2) ;;
  emit (Column 1) (subheader (lit "SARIMA Model Summary")) ;;
  best_order <- lift (getattr "order" sarima_model order) ;;
  best_seasonal <- lift (getattr "seasonal_order" sarima_model seasonal_order) ;;
  emit (Column 1)
    (markdown [Lit "**Best Order:** "; Str best_order; Lit " x ";
               Str best_seasonal]) ;;
  emit (Column 1)
    (metric "Akaike Info Criterion (AIC)" (metric_value sarima_aic)) ;;
  emit (Column 1)
    (metric "Bayesian Info Criterion (BIC)" (metric_value sarima_bic)) ;;
  emit (Column 2) (subheader (lit "Holt-Winters Model Summary")) ;;
  seasonal <- lift (getattr "model" hw_model model_seasonal) ;;
  emit (Column 2) (markdown [Lit "**Seasonal Method:** "; Str seasonal]) ;;
  emit (Column 2)
    (metric "Akaike Info Criterion (AIC)" (metric_value hw_aic)) ;;
  emit (Column 2)
    (metric "Bayesian Info Criterion (BIC)" (metric_value hw_bic)) ;;
  emit (Column 2)
    (metric "Sum of Squared Errors (SSE)" (metric_value hw_sse)) ;;
  emit Main (header (lit "Visualisasi Kinerja Model (Data Historis)")) ;;
  actual_data <-
    lift (getattr "to_timestamp" df_monthly (fun s => Ok (to_timestamp s))) ;;
  sarima_fitted_values <-
    lift (getattr "fittedvalues" sarima_model (fun m => Ok (fittedvalues m))) ;;
  let sarima_index := to_datetime_of_str (idx sarima_fitted_values) in
  hw_fitted_values <-
    lift (getattr "fittedvalues" hw_model (fun m => Ok (fittedvalues m))) ;;
  hw_index <-
    lift (let* periods := index_to_period_M (idx hw_fitted_values) in
          index_to_timestamp periods) ;;
  emit Main
    (pyplot (analysis_figure actual_data
               sarima_index (vals sarima_fitted_values)
               hw_index (vals hw_fitted_values))) ;;
  emit Main (markdown (lit analysis_note_text)).

Definition model_analysis_page (sarima_model hw_model : option Model)
    (df_monthly : option series) : St unit :=
  emit Main (title (lit "Analisis & Perbandingan Model")) ;;
  emit Main (markdown (lit "---")) ;;
  if is_None sarima_model || is_None hw_model || is_None df_monthly
  then
    emit Main
      (warning
         (lit "Model atau Data Bulanan belum termuat sepenuhnya. Silakan cek status di log."))
  else model_analysis_body sarima_model hw_model df_monthly.

(** ** The forecast view *)

(** [pd.DataFrame({...})] over a month-key column and three integer
    columns of the same index (lines 222-227), then [set_index('Bulan')]:
    the rows keyed by month.  Columns of different lengths are refused. *)
Definition make_frame (bulan pred lower upper : list Z)
  : result (list (Z * (Z * Z * Z))) :=
  if (Nat.eqb (List.length pred) (List.length bulan)
      && Nat.eqb (List.length lower) (List.length bulan)
      && Nat.eqb (List.length upper) (List.length bulan))%bool
  then Ok (combine bulan (combine (combine pred lower) upper))
  else Raise (ValueError "All arrays must be of the same length").

(** What the first [try] of the view leaves behind when it succeeds:
    [sarima_results], [sarima_forecast] and [sarima_conf_int], the last
    two re-indexed by timestamps. *)
Record sarima_outcome := {
  sarima_results : list (Z * (Z * Z * Z));
  sarima_forecast : list Z * list fval;
  sarima_conf_int : list Z * list fval * list fval
}.

(** Lines 214-227. *)
Definition sarima_try (sarima_model : option Model) (periods : Z)
  : result sarima_outcome :=
  let* sarima_forecast_result :=
    getattr "get_forecast" sarima_model (fun m => get_forecast m periods) in
  let mean := predicted_mean sarima_forecast_result in
  let* mean_stamps := index_to_timestamp (idx mean) in
  let* conf_stamps :=
    index_to_timestamp (conf_int_index sarima_forecast_result) in
  let bulan := strftime_Ym_index mean_stamps in
  let* pred := round_to_int (vals mean) in
  let* lower := round_to_int (conf_int_lower sarima_forecast_result) in
  let* upper := round_to_int (conf_int_upper sarima_forecast_result) in
  let* frame := make_frame bulan pred lower upper in
  Ok {| sarima_results := frame;
        sarima_forecast := (mean_stamps, vals mean);
        sarima_conf_int :=
          (conf_stamps, conf_int_lower sarima_forecast_result,
           conf_int_upper sarima_forecast_result) |}.

(** The value a timestamp-indexed column holds at a label; missing when
    the label is not in the index. *)
Fixpoint lookup (stamp : Z) (col : list (Z * Z)) : option Z :=
  match col with
  | [] => None
  | (t, v) :: rest => if t =? stamp then Some v else lookup stamp rest
  end.

(** [pd.DataFrame({name: col}, index=labels)] (lines 241-243): the column
    is a series over timestamps and is re-indexed by the month labels,
    each label being read as the first midnight of its month. *)
Definition reindex (labels : list Z) (col : list (Z * Z))
  : list (Z * option Z) :=
  map (fun mo => (mo, lookup (month_stamp mo) col)) labels.

Record hw_outcome := {
  hw_results : list (Z * option Z);
  hw_forecast : list Z * list fval
}.

(** Lines 236-243. *)
Definition hw_try (hw_model : option Model) (periods : Z)
  : result hw_outcome :=
  let* hw_forecast_raw :=
    getattr "forecast" hw_model (fun m => forecast m periods) in
  let* stamps := index_to_timestamp (idx hw_forecast_raw) in
  let* pred := round_to_int (vals hw_forecast_raw) in
  Ok {| hw_results := reindex (strftime_Ym_index stamps) (combine stamps pred);
        hw_forecast := (stamps, vals hw_forecast_raw) |}.

(** [sarima_results.join(hw_results)] (line 252): a left join on the month
    key.  Every SARIMA row is kept, once per Holt-Winters row of the same
    month, and once with a missing value when there is none. *)
Definition join (left : list (Z * (Z * Z * Z)))
    (right : list (Z * option Z)) : list forecast_row :=
  flat_map
    (fun l =>
       let '(b, (pred, lower, upper)) := l in
       let row hw := {| Bulan := b; SARIMA_Prediksi := pred;
                        SARIMA_Batas_Bawah := lower;
                        SARIMA_Batas_Atas := upper;
                        Holt_Winters_Prediksi := hw |} in
       match filter (fun r => fst r =? b) right with
       | [] => [row None]
       | partners => map (fun r => row (snd r)) partners
       end)
    left.

Definition forecast_figure (periods : Z) (historical_data : series)
    (s : sarima_outcome) (h : hw_outcome) : figure :=
  {| fig_title :=
       [Lit "Peramalan Penjualan "; FmtInt periods; Lit " Bulan ke Depan"];
     fig_xlabel := "Tanggal";
     fig_ylabel := "Kuantitas Penjualan (Qty)";
     fig_lines :=
       [line_of_series "Penjualan Aktual" historical_data;
        {| line_label := "SARIMA Forecast";
           xs := fst (sarima_forecast s); ys := snd (sarima_forecast s) |};
        {| line_label := "Holt-Winters Forecast";
           xs := fst (hw_forecast h); ys := snd (hw_forecast h) |}];
     fig_bands :=
       [{| band_label := "SARIMA 95% Confidence Interval";
           band_xs := fst (fst (sarima_conf_int s));
           band_lower := snd (fst (sarima_conf_int s));
           band_upper := snd (sarima_conf_int s) |}] |}.

(** Lines 209-281: what pressing the button runs. *)
Definition run_forecast (sarima_model hw_model : option Model)
    (df_monthly : option series) (periods : Z) : St unit :=
  emit Main
    (subheader [Lit "Hasil Peramalan untuk "; FmtInt periods;
                Lit " Bulan ke Depan"]) ;;
  sarima <-
    try_except
      (r <- lift (sarima_try sarima_model periods) ;; ret (Some r))
      (fun e =>
         emit Main (error [Lit "Gagal melakukan peramalan SARIMA: "; ExnText e]) ;;
         ret None) ;;
  hw <-
    try_except
      (r <- lift (hw_try hw_model periods) ;; ret (Some r))
      (fun e =>
         emit Main
           (error [Lit "Gagal melakukan peramalan Holt-Winters: "; ExnText e]) ;;
         ret None) ;;
  match sarima, hw with
  | Some s, Some h =>
      emit Main (dataframe (join (sarima_results s) (hw_results h))) ;;
      historical_data <-
        lift (getattr "to_timestamp" df_monthly (fun m => Ok (to_timestamp m))) ;;
      emit Main (pyplot (forecast_figure periods historical_data s h))
  | _, _ => ret tt
  end.

Definition colab_url : string :=
  "https://colab.research.google.com/github/YOUR_GITHUB_USER/YOUR_REPO/blob/main/Copy_of_Forecasting_Instax_Sales.ipynb".

(** The view.  [periods] is the position of the slider and [clicked] tells
    whether the button was pressed in this run. *)
Definition forecast_page (sarima_model hw_model : option Model)
    (df_monthly : option series) (periods : Z) (clicked : bool) : St unit :=
  emit Main (title (lit "Uji Coba Peramalan Penjualan")) ;;
  emit Main (markdown (lit "---")) ;;
  if is_None sarima_model || is_None hw_model || is_None df_monthly
  then
    emit Main
      (warning
         (lit "Model atau Data Bulanan belum termuat sepenuhnya. Silakan coba lagi atau pastikan file model tersedia."))
  else
    emit Main (header (lit "Lakukan Peramalan Bulanan")) ;;
    emit Main
      (slider "Pilih jumlah bulan ke depan yang akan diramal:" 1 12 3 1) ;;
    emit Main (button "Jalankan Peramalan") ;;
    (if clicked
     then run_forecast sarima_model hw_model df_monthly periods
     else ret tt) ;;
    emit Main (markdown (lit "---")) ;;
    emit Main (header (lit "Navigasi ke Colab untuk Pelatihan")) ;;
    emit Main (markdown (lit colab_note_text)) ;;
    emit Main
      (markdown
         [Lit "[**Klik di sini untuk membuka Notebook Google Colab**](";
          Lit colab_url; Lit ")"]) ;;
    emit Main
      (caption
         (lit "Catatan: Anda mungkin perlu menyesuaikan URL Colab di kode `app.py`.")).

(** ** The navigation shell *)

(** Lines 319-323. *)
Definition sidebar_footer (df_raw : option DataFrame) : St unit :=
  emit Sidebar (markdown (lit "---")) ;;
  emit Sidebar (subheader (lit "Info Data")) ;;
  match df_raw with
  | Some df =>
      emit Sidebar
        (write [Lit "Data Transaksi: ";
                FmtThousands (Z.of_nat (List.length df)); Lit " baris"]) ;;
      first_month <- lift (strftime_Ym (Tanggal_min df)) ;;
      last_month <- lift (strftime_Ym (Tanggal_max df)) ;;
      emit Sidebar
        (write [Lit "Periode Data: "; YearMonth first_month; Lit " s/d ";
                YearMonth last_month])
  | None => ret tt
  end.

(** One run of the whole script, for the page the user selected, the
    slider position and the state of the button. *)
Definition app (selection : string) (periods : Z) (clicked : bool)
  : St unit :=
  emit Main
    (set_page_config "Forecasting Penjualan Instax" "wide" "expanded") ;;
  '(df_raw, df_daily, df_monthly) <- load_data DATA_FILE ;;
  sarima_model <- load_model SARIMA_MODEL_FILE ;;
  hw_model <- load_model HOLTWINTERS_MODEL_FILE ;;
  emit Sidebar (title (lit "Navigasi Aplikasi")) ;;
  emit Sidebar
    (radio "Pilih Halaman:"
       ["Penjelasan Aplikasi"; "Analisis Model"; "Uji Coba & Pelatihan"]) ;;
  (if String.eqb selection "Penjelasan Aplikasi" then home_page
   else if String.eqb selection "Analisis Model"
        then model_analysis_page sarima_model hw_model df_monthly
   else if String.eqb selection "Uji Coba & Pelatihan"
        then forecast_page sarima_model hw_model df_monthly periods clicked
   else ret tt) ;;
  sidebar_footer df_raw.

End Script.

End App.

(* ------------------------------------------------------------------ *)
(** * Quantities the properties are stated with *)
(* ------------------------------------------------------------------ *)

Module Measures.
Import Calendar Python Pandas.

(** The consecutive integers [k, k + 1, ..., k + n - 1]. *)
Definition zrange (k : Z) (n : nat) : list Z :=
  map (fun i => k + Z.of_nat i) (seq 0 n).

(** The sum of the entries of a series, as an integer. *)
Definition sum_of (s : series) : Z :=
  fold_right (fun kv acc => snd kv + acc) 0 s.

(** Sum of the entries of a series whose label satisfies [p]. *)
Definition sum_where (p : Z -> bool) (s : series) : Z :=
  sum_of (filter (fun kv => p (fst kv)) s).

(** Sum of [Qty] over the rows whose date is present and satisfies [p]. *)
Definition qty_where (p : Z -> bool) (df : DataFrame) : Z :=
  fold_right (fun r acc =>
                match Tanggal r with
                | Some t => if p t then Qty r + acc else acc
                | None => acc
                end) 0 df.

(** Sum of [Qty] over the rows dated on calendar day [d]. *)
Definition qty_on_day (d : Z) (df : DataFrame) : Z :=
  qty_where (fun t => day_of_timestamp t =? d) df.


(** Sum of [Qty] over the rows whose date is present. *)
Definition qty_dated (df : DataFrame) : Z := qty_where (fun _ => true) df.

(** Sum of the entries of a daily series that lie in month [mo]. *)
Definition days_of_month_sum (mo : Z) (daily : series) : Z :=
  sum_where (fun d => month_of_day d =? mo) daily.

(** A row dated on day [d] exists. *)
Definition has_row_on_day (d : Z) (df : DataFrame) : Prop :=
  exists r t, In r df /\ Tanggal r = Some t /\ day_of_timestamp t = d.

(** Labels in non-decreasing order of their bin. *)
Definition key_sorted (key : Z -> Z) (s : series) : Prop :=
  StronglySorted (fun a b => key (fst a) <= key (fst b)) s.

(** Labels in strictly ascending order. *)
Definition ascending (s : series) : Prop :=
  StronglySorted (fun a b => fst a < fst b) s.

(** [z] is an integer nearest to [q], the even one when two are as near. *)
Definition rounds_to (q : Q) (z : Z) : Prop :=
  (Qabs (q - inject_Z z) <= 1 # 2)%Q
  /\ ((Qabs (q - inject_Z z) == 1 # 2)%Q -> Z.even z = true).

(** The integer shown for a float that can be cast: its nearest integer,
    cast to [int64]. *)
Definition cell (x : fval) : Z :=
  match x with
  | Finite q => cast_int64 (round_half_even q)
  | _ => 0
  end.

(** How the table shows a raw float: the value is finite, the cell is the
    cast of its nearest integer, and the cell is that nearest integer
    whenever it is an [int64]. *)
Definition shown_as (x : fval) (z : Z) : Prop :=
  exists q,
    x = Finite q
    /\ z = cast_int64 (round_half_even q)
    /\ (in_int64 (round_half_even q) -> rounds_to q z).

(** A rational that is an integer. *)
Definition is_integer (q : Q) : Prop := exists z, (q == inject_Z z)%Q.

(** Every quantity of the frame is an [int64]: the [Qty] column has that
    type. *)
Definition int64_column (df : DataFrame) : Prop :=
  Forall (fun r => in_int64 (Qty r)) df.

Definition is_finite (x : fval) : Prop := exists q, x = Finite q.

(** The last label of a series. *)
Fixpoint last_label (s : series) : option Z :=
  match s with
  | [] => None
  | [(k, _)] => Some k
  | _ :: s' => last_label s'
  end.



(** The reader [pd.to_datetime] applies to the date column of a frame. *)
Definition reader_of (p : datetime_parser) (raw : csv_frame)
  : string -> option Z :=
  column_reader p (map Tanggal_text (csv_rows raw)).


(** Sum of [Qty] over the rows dated in month [mo]. *)
Definition qty_in_month (mo : Z) (df : DataFrame) : Z :=
  qty_where (fun t => month_of_timestamp t =? mo) df.

End Measures.

(* ------------------------------------------------------------------ *)
(** * A reader of dates *)
(* ------------------------------------------------------------------ *)

Module IsoDate.
Import Calendar Pandas.
Local Open Scope string_scope.
Local Open Scope Z_scope.

(** Value of a decimal digit. *)
Definition digit (c : ascii) : option Z :=
  let n := Z.of_nat (nat_of_ascii c) in
  if (48 <=? n) && (n <=? 57) then Some (n - 48) else None.

(** Value of a run of decimal digits. *)
Fixpoint number (acc : Z) (l : list ascii) : option Z :=
  match l with
  | [] => Some acc
  | c :: l' =>
      match digit c with
      | Some v => number (10 * acc + v) l'
      | None => None
      end
  end.

(** Midnight of a civil date, when the date exists. *)
Definition midnight (y m d : Z) : option Z :=
  let day := days_from_civil y m d in
  if (1 <=? m) && (m <=? 12) && (1 <=? d)
     && (month_of_day day =? 12 * y + (m - 1))
  then Some (timestamp_of_day day)
  else None.

(** A text of the form [YYYY-MM-DD]. *)
Definition parse (s : string) : option Z :=
  match list_ascii_of_string s with
  | [y1; y2; y3; y4; "-"%char; m1; m2; "-"%char; d1; d2] =>
      match number 0 [y1; y2; y3; y4], number 0 [m1; m2], number 0 [d1; d2] with
      | Some y, Some m, Some d => midnight y m d
      | _, _, _ => None
      end
  | _ => None
  end.

(** A text of the form [MM/DD/YYYY]. *)
Definition parse_mdy (s : string) : option Z :=
  match list_ascii_of_string s with
  | [m1; m2; "/"%char; d1; d2; "/"%char; y1; y2; y3; y4] =>
      match number 0 [y1; y2; y3; y4], number 0 [m1; m2], number 0 [d1; d2] with
      | Some y, Some m, Some d => midnight y m d
      | _, _, _ => None
      end
  | _ => None
  end.

(** A reader that knows these two forms, the way [pd.to_datetime] treats
    them: the format of a text is the form it has, a text is read in a
    format when it has that form, and a text read by itself may have
    either form.  Other texts are not read by this reader. *)
Definition parser : datetime_parser :=
  {| guess_datetime_format :=
       fun s =>
         match parse s, parse_mdy s with
         | Some _, _ => Some "%Y-%m-%d"
         | None, Some _ => Some "%m/%d/%Y"
         | None, None => None
         end;
     strptime :=
       fun fmt s =>
         if String.eqb fmt "%Y-%m-%d" then parse s
         else if String.eqb fmt "%m/%d/%Y" then parse_mdy s
         else None;
     dateutil_parse :=
       fun s =>
         match parse s with
         | Some t => Some t
         | None => parse_mdy s
         end |}.

End IsoDate.

(* ------------------------------------------------------------------ *)
(** * Sample files and models *)
(* ------------------------------------------------------------------ *)

Module Samples.
Import Calendar Python Pandas Statsmodels.
Local Open Scope string_scope.

(** [read_csv] over a directory of parsed files. *)
Fixpoint read_from (files : list (string * csv_frame)) (path : string)
  : result csv_frame :=
  match files with
  | [] =>
      Raise (FileNotFoundError
               ("[Errno 2] No such file or directory: '" ++ path ++ "'"))
  | (name, rows) :: files' =>
      if String.eqb name path then Ok rows else read_from files' path
  end.

(** [pickle.load] over a directory of stored models. *)
Fixpoint unpickle_from (files : list (string * Model)) (path : string)
  : result Model :=
  match files with
  | [] =>
      Raise (FileNotFoundError
               ("[Errno 2] No such file or directory: '" ++ path ++ "'"))
  | (name, m) :: files' =>
      if String.eqb name path then Ok m else unpickle_from files' path
  end.

Definition csv (date : string) (qty : Z) : csv_row :=
  {| Tanggal_text := Some date; Qty_cell := qty |}.

Definition csv_blank (qty : Z) : csv_row :=
  {| Tanggal_text := None; Qty_cell := qty |}.

(** A file with the two columns the script reads. *)
Definition sheet (rows : list csv_row) : csv_frame :=
  {| csv_columns := ["Tanggal"; "Qty"]; csv_rows := rows |}.

(** Two sales, two days apart. *)
Definition two_sales : csv_frame :=
  sheet [csv "2023-01-01" 3; csv "2023-01-03" 5].

(** Sales over the turn of a month, two of them on one day. *)
Definition month_turn_rows : list csv_row :=
  [csv "2023-01-31" 2; csv "2023-01-30" 4; csv "2023-02-02" 1;
   csv "2023-01-31" 7].

Definition month_turn : csv_frame := sheet month_turn_rows.


(** A file whose only row has a blank date cell. *)
Definition only_blank_date : csv_frame := sheet [csv_blank 5].

(** A file with a date that cannot be read. *)
Definition bad_date : csv_frame :=
  sheet [csv "2023-01-01" 3; csv "yesterday" 5].


(** A file without the column [Qty]. *)
Definition without_Qty : csv_frame :=
  {| csv_columns := ["Tanggal"; "Jumlah"];
     csv_rows := [csv "2023-01-01" 3] |}.

(** Two sales on one day whose sum is beyond the greatest [int64]. *)
Definition overflowing_day : csv_frame :=
  sheet [csv "2023-01-01" 9223372036854775807; csv "2023-01-01" 1].

(** Three days of one month whose sum is beyond the greatest [int64]. *)
Definition overflowing_month : csv_frame :=
  sheet [csv "2023-01-01" 4611686018427387904;
         csv "2023-01-02" 4611686018427387904;
         csv "2023-01-03" 4611686018427387904].

(** A fitted model of either kind, trained up to month [last] on a period
    index, with all its scalars; it predicts [h / 2] for step [h], inside
    the band [h / 3, 7 h / 2]. *)
Definition fitted_model (last : Z) : Model :=
  {| aic := Ok (PyFloat (Finite (40123 # 100)));
     bic := Ok (PyFloat (Finite (41250 # 100)));
     llf := Ok (PyFloat (Finite (- 19561 # 100)));
     sse := Ok (PyFloat (Finite (987654 # 10)));
     order := Ok (PyTuple [1; 1; 1]);
     seasonal_order := Ok (PyTuple [1; 1; 1; 12]);
     model_seasonal := Ok (PyStr "add");
     index_kind_of := PeriodIndex;
     train_end := last;
     fitted := [Finite (21 # 2); Finite 12; Finite (27 # 2)];
     predict := fun h => Finite (Z.of_nat h # 2);
     predict_lower := fun h => Finite (Z.of_nat h # 3);
     predict_upper := fun h => Finite (7 * Z.of_nat h # 2);
     get_forecast_fault := fun _ => None;
     forecast_fault := fun _ => None |}.

(** The same model fitted on a timestamp index. *)
Definition fitted_on_timestamps (last : Z) : Model :=
  {| aic := aic (fitted_model last);
     bic := bic (fitted_model last);
     llf := llf (fitted_model last);
     sse := sse (fitted_model last);
     order := order (fitted_model last);
     seasonal_order := seasonal_order (fitted_model last);
     model_seasonal := model_seasonal (fitted_model last);
     index_kind_of := DatetimeIndex;
     train_end := last;
     fitted := fitted (fitted_model last);
     predict := predict (fitted_model last);
     predict_lower := predict_lower (fitted_model last);
     predict_upper := predict_upper (fitted_model last);
     get_forecast_fault := fun _ => None;
     forecast_fault := fun _ => None |}.


(** The same model whose forecast calls raise. *)
Definition failing_forecast (m : Model) : Model :=
  {| aic := aic m;
     bic := bic m;
     llf := llf m;
     sse := sse m;
     order := order m;
     seasonal_order := seasonal_order m;
     model_seasonal := model_seasonal m;
     index_kind_of := index_kind_of m;
     train_end := train_end m;
     fitted := fitted m;
     predict := predict m;
     predict_lower := predict_lower m;
     predict_upper := predict_upper m;
     get_forecast_fault :=
       fun _ => Some (ValueError "Prediction must have `end` after `start`.");
     forecast_fault :=
       fun _ => Some (ValueError "Prediction must have `end` after `start`.") |}.

(** Month ordinal of April 2025 and of June 2025. *)
Definition april_2025 : Z := 12 * 2025 + 3.
Definition june_2025 : Z := 12 * 2025 + 5.

(** The same model with a point estimate that is not a number at the
    second step ahead. *)
Definition with_nan_forecast (m : Model) : Model :=
  {| aic := aic m;
     bic := bic m;
     llf := llf m;
     sse := sse m;
     order := order m;
     seasonal_order := seasonal_order m;
     model_seasonal := model_seasonal m;
     index_kind_of := index_kind_of m;
     train_end := train_end m;
     fitted := fitted m;
     predict := fun h => if Nat.eqb h 2 then NaN else predict m h;
     predict_lower := predict_lower m;
     predict_upper := predict_upper m;
     get_forecast_fault := get_forecast_fault m;
     forecast_fault := forecast_fault m |}.


(** The same model with a point estimate of [10^19], beyond the greatest
    [int64], at the first step ahead. *)
Definition with_huge_forecast (m : Model) : Model :=
  {| aic := aic m;
     bic := bic m;
     llf := llf m;
     sse := sse m;
     order := order m;
     seasonal_order := seasonal_order m;
     model_seasonal := model_seasonal m;
     index_kind_of := index_kind_of m;
     train_end := train_end m;
     fitted := fitted m;
     predict :=
       fun h =>
         if Nat.eqb h 1 then Finite (inject_Z 10000000000000000000)
         else predict m h;
     predict_lower := predict_lower m;
     predict_upper := predict_upper m;
     get_forecast_fault := get_forecast_fault m;
     forecast_fault := forecast_fault m |}.

End Samples.

(* ------------------------------------------------------------------ *)
(** * What the script is expected to produce *)
(* ------------------------------------------------------------------ *)

Module Expected.
Import Calendar Python Pandas Statsmodels Streamlit App Measures.
Local Open Scope Z_scope.

Definition daily_of (df : DataFrame) : series :=
  resample_sum day_of_timestamp (groupby_sum df).

Definition monthly_of (daily : series) : series :=
  resample_sum month_of_day daily.

(** What the view renders before and after the forecast itself. *)
Definition forecast_head : list element :=
  [(Main, title [Lit "Uji Coba Peramalan Penjualan"]);
   (Main, markdown [Lit "---"]);
   (Main, header [Lit "Lakukan Peramalan Bulanan"]);
   (Main, slider "Pilih jumlah bulan ke depan yang akan diramal:" 1 12 3 1);
   (Main, button "Jalankan Peramalan")].

Definition forecast_tail : list element :=
  [(Main, markdown [Lit "---"]);
   (Main, header [Lit "Navigasi ke Colab untuk Pelatihan"]);
   (Main, markdown [Lit colab_note_text]);
   (Main, markdown
            [Lit "[**Klik di sini untuk membuka Notebook Google Colab**](";
             Lit colab_url; Lit ")"]);
   (Main, caption
            [Lit "Catatan: Anda mungkin perlu menyesuaikan URL Colab di kode `app.py`."])].

Definition forecast_subheader (periods : Z) : element :=
  (Main, subheader [Lit "Hasil Peramalan untuk "; FmtInt periods;
                    Lit " Bulan ke Depan"]).

Definition sarima_error (e : exn) : element :=
  (Main, error [Lit "Gagal melakukan peramalan SARIMA: "; ExnText e]).

Definition hw_error (e : exn) : element :=
  (Main, error [Lit "Gagal melakukan peramalan Holt-Winters: "; ExnText e]).

(** What the forecast itself renders, by the results of the two [try]
    blocks. *)
Definition forecast_middle (periods : Z) (monthly : series)
    (rs : result sarima_outcome) (rh : result hw_outcome) : list element :=
  match rs, rh with
  | Ok s, Ok h =>
      [(Main, dataframe (join (sarima_results s) (hw_results h)));
       (Main, pyplot (forecast_figure periods (to_timestamp monthly) s h))]
  | Ok _, Raise eh => [hw_error eh]
  | Raise es, Ok _ => [sarima_error es]
  | Raise es, Raise eh => [sarima_error es; hw_error eh]
  end.

(** The rows of [sarima_results], step by step. *)
Definition sarima_rows (m : Model) (periods : Z) : list (Z * (Z * Z * Z)) :=
  map (fun h => (train_end m + Z.of_nat h,
                 (cell (predict m h), cell (predict_lower m h),
                  cell (predict_upper m h))))
      (horizon periods).

(** The rows of [hw_results], step by step. *)
Definition hw_rows (m : Model) (periods : Z) : list (Z * option Z) :=
  map (fun h => (train_end m + Z.of_nat h, Some (cell (predict m h))))
      (horizon periods).

(** The metrics a [try] block leaves behind: the three values when all
    three can be read, three placeholders as soon as one cannot. *)
Definition metrics_or_NA (a b c : result pyval) : pyval * pyval * pyval :=
  match a, b, c with
  | Ok x, Ok y, Ok z => (x, y, z)
  | _, _, _ => (NA, NA, NA)
  end.


Definition footer_head : list element :=
  [(Sidebar, markdown [Lit "---"]); (Sidebar, subheader [Lit "Info Data"])].

Definition footer_count (df : DataFrame) : element :=
  (Sidebar, write [Lit "Data Transaksi: ";
                   FmtThousands (Z.of_nat (List.length df)); Lit " baris"]).

Definition footer_period (first_month last_month : Z) : element :=
  (Sidebar, write [Lit "Periode Data: "; YearMonth first_month; Lit " s/d ";
                   YearMonth last_month]).

Local Open Scope string_scope.

(** The page the shell shows for a selection. *)
Definition selected_page (selection : string)
    (sarima_model hw_model : option Model) (df_monthly : option series)
    (periods : Z) (clicked : bool) : St unit :=
  if String.eqb selection "Penjelasan Aplikasi" then home_page
  else if String.eqb selection "Analisis Model"
       then model_analysis_page sarima_model hw_model df_monthly
  else if String.eqb selection "Uji Coba & Pelatihan"
       then forecast_page sarima_model hw_model df_monthly periods clicked
  else ret tt.

(** What the shell renders around the page. *)
Definition shell_head : list element :=
  [(Sidebar, title [Lit "Navigasi Aplikasi"]);
   (Sidebar, radio "Pilih Halaman:"
               ["Penjelasan Aplikasi"; "Analisis Model";
                "Uji Coba & Pelatihan"])].

Definition page_config : element :=
  (Main, set_page_config "Forecasting Penjualan Instax" "wide" "expanded").

End Expected.

(* ================================================================== *)
(** * Properties *)
(* ================================================================== *)

(* ------------------------------------------------------------------ *)
(** * The calendar *)
(* ------------------------------------------------------------------ *)

Module CalendarFacts.
Import Calendar.

(** ** Facts about one 400-year cycle *)

Lemma yoe_bounds doe : 0 <= doe < 146097 -> 0 <= yoe_of_doe doe <= 399.
Proof. unfold yoe_of_doe. lia. Qed.

Lemma doy_bounds doe : 0 <= doe < 146097 -> 0 <= doy_of_doe doe <= 365.
Proof. unfold doy_of_doe, yoe_of_doe. lia. Qed.

Lemma mp_bounds doy : 0 <= doy <= 365 -> 0 <= mp_of_doy doy <= 11.
Proof. unfold mp_of_doy. lia. Qed.

Lemma yoe_mono a b :
  0 <= a <= b -> b < 146097 -> yoe_of_doe a <= yoe_of_doe b.
Proof. unfold yoe_of_doe. lia. Qed.

Lemma moe_bounds doe : 0 <= doe < 146097 -> 0 <= moe_of_doe doe <= 4799.
Proof.
  intros H. pose proof (doy_bounds doe H) as Hd.
  pose proof (yoe_bounds doe H). pose proof (mp_bounds _ Hd).
  unfold moe_of_doe. lia.
Qed.

(** Inside a cycle the month never decreases as the day grows: within one
    March-based year the day of the year decides, across years the year. *)
Lemma moe_mono a b :
  0 <= a <= b -> b < 146097 -> moe_of_doe a <= moe_of_doe b.
Proof.
  intros H1 H2.
  assert (Ha : 0 <= a < 146097) by lia.
  assert (Hb : 0 <= b < 146097) by lia.
  pose proof (doy_bounds a Ha) as Hda. pose proof (doy_bounds b Hb) as Hdb.
  pose proof (mp_bounds _ Hda). pose proof (mp_bounds _ Hdb).
  pose proof (yoe_mono a b H1 H2) as Hy.
  unfold moe_of_doe.
  destruct (Z.eq_dec (yoe_of_doe a) (yoe_of_doe b)) as [E|E].
  - assert (doy_of_doe a <= doy_of_doe b)
      by (unfold doy_of_doe; rewrite E; lia).
    assert (mp_of_doy (doy_of_doe a) <= mp_of_doy (doy_of_doe b))
      by (unfold mp_of_doy; apply Z.div_le_mono; lia).
    lia.
  - lia.
Qed.

Lemma mp_roundtrip mp : 0 <= mp <= 11 -> mp_of_doy ((153 * mp + 2) / 5) = mp.
Proof. unfold mp_of_doy. lia. Qed.

Lemma yoe_roundtrip y k :
  0 <= y < 400 -> 0 <= k <= 337 ->
  yoe_of_doe (y * 365 + y / 4 - y / 100 + k) = y.
Proof. unfold yoe_of_doe. lia. Qed.

Lemma doe_of_moe_bounds m : 0 <= m < 4800 -> 0 <= doe_of_moe m < 146097.
Proof. unfold doe_of_moe. lia. Qed.

Lemma moe_roundtrip m : 0 <= m < 4800 -> moe_of_doe (doe_of_moe m) = m.
Proof.
  intros Hm. unfold moe_of_doe, doe_of_moe, doy_of_doe.
  assert (Hy : 0 <= m / 12 < 400) by lia.
  assert (Hp : 0 <= m mod 12 <= 11) by lia.
  assert (Hk : 0 <= (153 * (m mod 12) + 2) / 5 <= 337) by lia.
  rewrite (yoe_roundtrip _ _ Hy Hk).
  replace (m / 12 * 365 + m / 12 / 4 - m / 12 / 100
           + (153 * (m mod 12) + 2) / 5
           - (365 * (m / 12) + m / 12 / 4 - m / 12 / 100))
    with ((153 * (m mod 12) + 2) / 5) by ring.
  rewrite (mp_roundtrip _ Hp). lia.
Qed.

(** ** Facts about the whole time line *)

Lemma day_of_timestamp_mono s t :
  s <= t -> day_of_timestamp s <= day_of_timestamp t.
Proof. unfold day_of_timestamp, ns_per_day. intros. apply Z.div_le_mono; lia. Qed.

Lemma day_of_timestamp_of_day d : day_of_timestamp (timestamp_of_day d) = d.
Proof.
  unfold day_of_timestamp, timestamp_of_day, ns_per_day.
  apply Z.div_mul. lia.
Qed.

(** A later day never lies in an earlier month. *)
Lemma month_of_day_mono d d' : d <= d' -> month_of_day d <= month_of_day d'.
Proof.
  intros Hle. unfold month_of_day, days_per_era.
  set (z := d + 719468). set (z' := d' + 719468).
  assert (Hz : z <= z') by (unfold z, z'; lia).
  assert (He : z / 146097 <= z' / 146097) by (apply Z.div_le_mono; lia).
  assert (Hr : 0 <= z mod 146097 < 146097) by (apply Z.mod_pos_bound; lia).
  assert (Hr' : 0 <= z' mod 146097 < 146097) by (apply Z.mod_pos_bound; lia).
  pose proof (moe_bounds _ Hr). pose proof (moe_bounds _ Hr').
  destruct (Z.eq_dec (z / 146097) (z' / 146097)) as [E|E].
  - assert (z mod 146097 <= z' mod 146097).
    { rewrite !Z.mod_eq by lia. rewrite E. lia. }
    assert (moe_of_doe (z mod 146097) <= moe_of_doe (z' mod 146097))
      by (apply moe_mono; lia).
    rewrite E. lia.
  - lia.
Qed.

Lemma month_of_timestamp_mono s t :
  s <= t -> month_of_timestamp s <= month_of_timestamp t.
Proof.
  intros. unfold month_of_timestamp.
  apply month_of_day_mono, day_of_timestamp_mono; assumption.
Qed.

(** The first day of a month lies in that month. *)
Lemma month_of_month_start mo : month_of_day (month_start mo) = mo.
Proof.
  unfold month_of_day, month_start, days_per_era.
  set (m := mo - 2).
  assert (Hm : 0 <= m mod 4800 < 4800) by (apply Z.mod_pos_bound; lia).
  pose proof (doe_of_moe_bounds _ Hm) as Hd.
  replace (m / 4800 * 146097 + doe_of_moe (m mod 4800) - 719468 + 719468)
    with (doe_of_moe (m mod 4800) + m / 4800 * 146097) by ring.
  rewrite Z.div_add by lia. rewrite Z.mod_add by lia.
  rewrite Z.div_small by lia. rewrite Z.mod_small by lia.
  rewrite (moe_roundtrip _ Hm).
  pose proof (Z.div_mod m 4800). unfold m in *. lia.
Qed.

End CalendarFacts.

(* ------------------------------------------------------------------ *)
(** * 64-bit sums *)
(* ------------------------------------------------------------------ *)

Module Int64Facts.
Import Pandas Measures.

Lemma wrap64_range z : in_int64 (wrap64 z).
Proof. unfold in_int64, int64_min, int64_max, wrap64. lia. Qed.

(** Inside the range nothing wraps. *)
Lemma wrap64_small z : in_int64 z -> wrap64 z = z.
Proof. unfold in_int64, int64_min, int64_max, wrap64. lia. Qed.

Lemma wrap64_idem z : wrap64 (wrap64 z) = wrap64 z.
Proof. apply wrap64_small, wrap64_range. Qed.

Lemma wrap64_0 : wrap64 0 = 0.
Proof. reflexivity. Qed.

(** Wrapping is compatible with addition: a sum may be wrapped at any
    stage. *)
Lemma wrap64_add_l a b : wrap64 (wrap64 a + b) = wrap64 (a + b).
Proof. unfold wrap64. lia. Qed.

Lemma wrap64_add_r a b : wrap64 (a + wrap64 b) = wrap64 (a + b).
Proof. unfold wrap64. lia. Qed.

Lemma wrap64_add_cong a a' b b' :
  wrap64 a = wrap64 a' -> wrap64 b = wrap64 b' ->
  wrap64 (a + b) = wrap64 (a' + b').
Proof.
  intros Ha Hb.
  rewrite <- (wrap64_add_l a b), <- (wrap64_add_r _ b), Ha, Hb.
  rewrite wrap64_add_l, wrap64_add_r. reflexivity.
Qed.

Lemma sum_of_cons k v s : sum_of ((k, v) :: s) = v + sum_of s.
Proof. reflexivity. Qed.

Lemma total_fold s :
  forall acc,
    wrap64 (fold_left (fun a (kv : Z * Z) => int64_add a (snd kv)) s acc)
    = wrap64 (acc + sum_of s).
Proof.
  induction s as [|[k v] s IH]; intros acc; simpl.
  - f_equal. lia.
  - rewrite IH. unfold int64_add. rewrite wrap64_add_l. f_equal. lia.
Qed.

Lemma total_fold_range s :
  forall acc,
    in_int64 acc ->
    in_int64 (fold_left (fun a (kv : Z * Z) => int64_add a (snd kv)) s acc).
Proof.
  induction s as [|[k v] s IH]; intros acc Hacc; simpl; [exact Hacc|].
  apply IH, wrap64_range.
Qed.

(** [Series.sum()] is the sum of the entries, wrapped. *)
Lemma total_wrap s : total s = wrap64 (sum_of s).
Proof.
  unfold total. pose proof (total_fold s 0) as H.
  change (0 + sum_of s) with (sum_of s) in H. rewrite <- H.
  symmetry. apply wrap64_small.
  apply total_fold_range. unfold in_int64, int64_min, int64_max. lia.
Qed.

Lemma total_range s : in_int64 (total s).
Proof. rewrite total_wrap. apply wrap64_range. Qed.

(** A sum that fits is the value of [Series.sum()]. *)
Lemma total_exact s : in_int64 (sum_of s) -> total s = sum_of s.
Proof. intros H. rewrite total_wrap. apply wrap64_small, H. Qed.

End Int64Facts.

(* ------------------------------------------------------------------ *)
(** * Grouping and resampling *)
(* ------------------------------------------------------------------ *)

Module PandasFacts.
Import Calendar Python Pandas Measures Expected Int64Facts.

(** ** Ranges *)

Lemma zrange_length k n : List.length (zrange k n) = n.
Proof. unfold zrange. rewrite length_map, length_seq. reflexivity. Qed.

Lemma zrange_S k n : zrange k (S n) = k :: zrange (k + 1) n.
Proof.
  unfold zrange. simpl. f_equal; [lia|].
  rewrite <- seq_shift, map_map. apply map_ext. intros i. lia.
Qed.

Lemma in_zrange k n z : In z (zrange k n) <-> k <= z < k + Z.of_nat n.
Proof.
  revert k. induction n as [|n IH]; intros k.
  - simpl. lia.
  - rewrite zrange_S. simpl. rewrite IH. lia.
Qed.

Lemma zrange_ascending k n : StronglySorted Z.lt (zrange k n).
Proof.
  revert k. induction n as [|n IH]; intros k.
  - constructor.
  - rewrite zrange_S. constructor; [apply IH|].
    apply Forall_forall. intros z Hz. apply in_zrange in Hz. lia.
Qed.

Lemma zrange_NoDup k n : NoDup (zrange k n).
Proof.
  revert k. induction n as [|n IH]; intros k.
  - constructor.
  - rewrite zrange_S. constructor; [|apply IH].
    rewrite in_zrange. lia.
Qed.

(** ** Sums *)

Lemma sum_where_nil p : sum_where p [] = 0.
Proof. reflexivity. Qed.

Lemma sum_where_cons p k v s :
  sum_where p ((k, v) :: s) = (if p k then v else 0) + sum_where p s.
Proof. unfold sum_where. simpl. destruct (p k); simpl; lia. Qed.

Lemma sum_where_ext p q s :
  (forall kv, In kv s -> p (fst kv) = q (fst kv)) ->
  sum_where p s = sum_where q s.
Proof.
  induction s as [|[k v] s IH]; intros H; [reflexivity|].
  rewrite !sum_where_cons.
  pose proof (H (k, v) (or_introl eq_refl)) as Hk. simpl in Hk. rewrite Hk.
  rewrite IH; [reflexivity|]. intros kv Hkv. apply H. right. exact Hkv.
Qed.

Lemma sum_where_none p s :
  Forall (fun kv => p (fst kv) = false) s -> sum_where p s = 0.
Proof.
  induction 1 as [|[k v] s Hk _ IH]; [reflexivity|].
  rewrite sum_where_cons. simpl in Hk. rewrite Hk, IH. reflexivity.
Qed.

Lemma sum_where_all p s :
  Forall (fun kv => p (fst kv) = true) s -> sum_where p s = sum_of s.
Proof.
  induction 1 as [|[k v] s Hk _ IH]; [reflexivity|].
  rewrite sum_where_cons. simpl in Hk. rewrite Hk, IH. reflexivity.
Qed.

(** A predicate split in two disjoint parts splits the sum. *)
Lemma sum_where_split p q r s :
  (forall t, r t = p t || q t) -> (forall t, p t && q t = false) ->
  sum_where r s = sum_where p s + sum_where q s.
Proof.
  intros Hr Hd. induction s as [|[k v] s IH]; [reflexivity|].
  rewrite !sum_where_cons, IH, Hr.
  specialize (Hd k). destruct (p k), (q k); simpl in *; try discriminate; lia.
Qed.

(** ** One group more *)

(** The sums are stated up to wrapping: the groups hold [int64] sums. *)
Lemma sum_where_add_to_group p k v s :
  wrap64 (sum_where p (add_to_group k v s))
  = wrap64 (sum_where p s + (if p k then v else 0)).
Proof.
  induction s as [|[k' v'] s IH]; simpl.
  - rewrite sum_where_cons, sum_where_nil. f_equal. lia.
  - destruct (k <? k') eqn:Hlt.
    + rewrite !sum_where_cons. f_equal. lia.
    + destruct (k =? k') eqn:Heq.
      * apply Z.eqb_eq in Heq. subst k'.
        rewrite !sum_where_cons. unfold int64_add. destruct (p k).
        -- rewrite wrap64_add_l. f_equal. lia.
        -- f_equal. lia.
      * rewrite !sum_where_cons.
        rewrite <- wrap64_add_r, IH, wrap64_add_r. f_equal. lia.
Qed.

Lemma add_to_group_keys k v s x :
  In x (map fst (add_to_group k v s)) <-> x = k \/ In x (map fst s).
Proof.
  induction s as [|[k' v'] s IH]; simpl.
  - intuition.
  - destruct (k <? k') eqn:Hlt; simpl; [intuition|].
    destruct (k =? k') eqn:Heq; simpl.
    + apply Z.eqb_eq in Heq. subst k'. intuition.
    + rewrite IH. intuition.
Qed.

Lemma add_to_group_Forall (P : Z -> Prop) k v s :
  P k -> Forall (fun kv => P (fst kv)) s ->
  Forall (fun kv => P (fst kv)) (add_to_group k v s).
Proof.
  intros Hk Hs. apply Forall_forall. intros [x w] Hin. simpl.
  assert (Hx : In x (map fst (add_to_group k v s)))
    by (apply (in_map fst) in Hin; exact Hin).
  apply add_to_group_keys in Hx. destruct Hx as [->|Hx]; [exact Hk|].
  apply in_map_iff in Hx. destruct Hx as [[y u] [Hy Hin']]. simpl in Hy.
  subst y. rewrite Forall_forall in Hs. apply (Hs _ Hin').
Qed.

Lemma add_to_group_ascending k v s :
  ascending s -> ascending (add_to_group k v s).
Proof.
  unfold ascending. induction 1 as [|[k' v'] s Hs IH Hall]; simpl.
  - repeat constructor.
  - destruct (k <? k') eqn:Hlt.
    + apply Z.ltb_lt in Hlt. constructor.
      * constructor; assumption.
      * constructor; [exact Hlt|].
        eapply Forall_impl; [|exact Hall]. simpl. intros [y u] Hy.
        simpl in *. lia.
    + apply Z.ltb_ge in Hlt. destruct (k =? k') eqn:Heq.
      * constructor; assumption.
      * apply Z.eqb_neq in Heq. constructor; [exact IH|].
        apply (add_to_group_Forall (fun y => k' < y)); [lia|exact Hall].
Qed.

(** ** Grouping by date *)

Lemma groupby_sum_fold df : groupby_sum df = fold_left group_step df [].
Proof. reflexivity. Qed.

Lemma fold_group_sum p df acc :
  wrap64 (sum_where p (fold_left group_step df acc))
  = wrap64 (sum_where p acc + qty_where p df).
Proof.
  revert acc. induction df as [|r df IH]; intros acc; simpl;
    [f_equal; lia|].
  rewrite IH. unfold group_step.
  destruct (Tanggal r) as [t|]; [|reflexivity].
  rewrite <- wrap64_add_l, sum_where_add_to_group, wrap64_add_l.
  destruct (p t); f_equal; lia.
Qed.

Lemma fold_group_ascending df acc :
  ascending acc -> ascending (fold_left group_step df acc).
Proof.
  revert acc. induction df as [|r df IH]; intros acc Hacc; simpl; [exact Hacc|].
  apply IH. unfold group_step. destruct (Tanggal r) as [t|]; [|exact Hacc].
  apply add_to_group_ascending, Hacc.
Qed.

Lemma fold_group_keys df acc x :
  In x (map fst (fold_left group_step df acc))
  <-> In x (map fst acc) \/ In (Some x) (map Tanggal df).
Proof.
  revert acc. induction df as [|r df IH]; intros acc; simpl; [intuition|].
  rewrite IH. unfold group_step. destruct (Tanggal r) as [t|].
  - rewrite add_to_group_keys. split.
    + intros [[->|H]|H]; auto.
    + intros [H|[H|H]]; auto. injection H as ->. auto.
  - split.
    + intros [H|H]; auto.
    + intros [H|[H|H]]; auto. discriminate.
Qed.

(** The groups sum the quantities of the dated rows, label by label. *)
Lemma groupby_sum_where p df :
  wrap64 (sum_where p (groupby_sum df)) = wrap64 (qty_where p df).
Proof.
  rewrite groupby_sum_fold, fold_group_sum, sum_where_nil. reflexivity.
Qed.

Lemma groupby_sum_ascending df : ascending (groupby_sum df).
Proof. rewrite groupby_sum_fold. apply fold_group_ascending. constructor. Qed.

Lemma groupby_sum_keys df x :
  In x (map fst (groupby_sum df)) <-> In (Some x) (map Tanggal df).
Proof. rewrite groupby_sum_fold, fold_group_keys. simpl. intuition. Qed.

(** ** The earliest and the latest date *)

Lemma Tanggal_min_spec df :
  match Tanggal_min df with
  | Some m =>
      In (Some m) (map Tanggal df)
      /\ forall t, In (Some t) (map Tanggal df) -> m <= t
  | None => forall t, ~ In (Some t) (map Tanggal df)
  end.
Proof.
  induction df as [|r df IH]; simpl; [intros t []|].
  destruct (Tanggal r) as [x|], (Tanggal_min df) as [m|]; simpl.
  - destruct IH as [Hin Hlb]. split.
    + destruct (Z.min_spec x m) as [[_ ->]|[_ ->]]; auto.
    + intros t [H|H]; [injection H as ->; lia|]. specialize (Hlb t H). lia.
  - split; [auto|]. intros t [H|H]; [injection H as ->; lia|].
    exfalso. exact (IH t H).
  - destruct IH as [Hin Hlb]. split; [auto|].
    intros t [H|H]; [discriminate|auto].
  - intros t [H|H]; [discriminate|exact (IH t H)].
Qed.

Lemma Tanggal_max_spec df :
  match Tanggal_max df with
  | Some m =>
      In (Some m) (map Tanggal df)
      /\ forall t, In (Some t) (map Tanggal df) -> t <= m
  | None => forall t, ~ In (Some t) (map Tanggal df)
  end.
Proof.
  induction df as [|r df IH]; simpl; [intros t []|].
  destruct (Tanggal r) as [x|], (Tanggal_max df) as [m|]; simpl.
  - destruct IH as [Hin Hub]. split.
    + destruct (Z.max_spec x m) as [[_ ->]|[_ ->]]; auto.
    + intros t [H|H]; [injection H as ->; lia|]. specialize (Hub t H). lia.
  - split; [auto|]. intros t [H|H]; [injection H as ->; lia|].
    exfalso. exact (IH t H).
  - destruct IH as [Hin Hub]. split; [auto|].
    intros t [H|H]; [discriminate|auto].
  - intros t [H|H]; [discriminate|exact (IH t H)].
Qed.

(** The last entry of an ascending series carries the greatest label. *)
Lemma ascending_last s d :
  ascending s -> s <> [] ->
  In (last s d) s /\ forall kv, In kv s -> fst kv <= fst (last s d).
Proof.
  unfold ascending. induction 1 as [|a s Hs IH Hall]; intros Hne; [congruence|].
  destruct s as [|b s'].
  - simpl. split; [auto|]. intros kv [<-|[]]. lia.
  - destruct IH as [Hin Hub]; [discriminate|].
    change (last (a :: b :: s') d) with (last (b :: s') d).
    split; [right; exact Hin|].
    intros kv [<-|Hkv]; [|apply Hub, Hkv].
    rewrite Forall_forall in Hall. specialize (Hall _ Hin). lia.
Qed.

(** The groups start at the earliest date and end at the latest one. *)
Lemma groupby_sum_first df t0 v0 rest :
  groupby_sum df = (t0, v0) :: rest -> Tanggal_min df = Some t0.
Proof.
  intros Hg. pose proof (groupby_sum_ascending df) as Hasc.
  pose proof (Tanggal_min_spec df) as Hmin.
  assert (Hk0 : In (Some t0) (map Tanggal df)).
  { apply groupby_sum_keys. rewrite Hg. simpl. auto. }
  destruct (Tanggal_min df) as [m|]; [|exfalso; exact (Hmin t0 Hk0)].
  destruct Hmin as [Hin Hlb]. f_equal.
  apply groupby_sum_keys in Hin. rewrite Hg in Hin, Hasc.
  inversion Hasc as [|? ? _ Hall]; subst.
  specialize (Hlb t0 Hk0). simpl in Hin. destruct Hin as [->|Hin]; [reflexivity|].
  apply in_map_iff in Hin. destruct Hin as [[y u] [Hy Hin]]. simpl in Hy. subst y.
  rewrite Forall_forall in Hall. specialize (Hall _ Hin). simpl in Hall. lia.
Qed.

Lemma groupby_sum_last df d :
  groupby_sum df <> [] ->
  Tanggal_max df = Some (fst (last (groupby_sum df) d)).
Proof.
  intros Hne.
  destruct (ascending_last _ d (groupby_sum_ascending df) Hne) as [Hin Hub].
  pose proof (Tanggal_max_spec df) as Hmax.
  assert (Hk : In (Some (fst (last (groupby_sum df) d))) (map Tanggal df)).
  { apply groupby_sum_keys. apply in_map. exact Hin. }
  destruct (Tanggal_max df) as [m|]; [|exfalso; exact (Hmax _ Hk)].
  destruct Hmax as [Hm Hle]. f_equal.
  specialize (Hle _ Hk).
  apply groupby_sum_keys in Hm. apply in_map_iff in Hm.
  destruct Hm as [kv [Hy Hkv]]. specialize (Hub _ Hkv). lia.
Qed.

Lemma groupby_sum_nil df :
  groupby_sum df = [] -> Tanggal_min df = None.
Proof.
  intros Hg. pose proof (Tanggal_min_spec df) as Hmin.
  destruct (Tanggal_min df) as [m|]; [|reflexivity].
  destruct Hmin as [Hin _]. apply groupby_sum_keys in Hin.
  rewrite Hg in Hin. destruct Hin.
Qed.

(** ** Bins *)

Lemma key_sorted_cons_inv key a s :
  key_sorted key (a :: s) ->
  key_sorted key s /\ Forall (fun b => key (fst a) <= key (fst b)) s.
Proof. intros H. inversion H; subst. split; assumption. Qed.

(** An ascending series is sorted by any bin that grows with the label. *)
Lemma ascending_key_sorted key s :
  (forall a b, a <= b -> key a <= key b) ->
  ascending s -> key_sorted key s.
Proof.
  intros Hmono. unfold ascending, key_sorted.
  induction 1 as [|a s Hs IH Hall]; constructor; [exact IH|].
  eapply Forall_impl; [|exact Hall]. simpl. intros b Hb. apply Hmono. lia.
Qed.

(** What one bin takes from a sorted series whose labels are not before
    the bin: exactly the entries of that bin; the later bins lose
    nothing. *)
Lemma take_bin_spec key k s :
  key_sorted key s ->
  Forall (fun kv => k <= key (fst kv)) s ->
  fst (take_bin key k s) = wrap64 (sum_where (fun t => key t =? k) s)
  /\ key_sorted key (snd (take_bin key k s))
  /\ Forall (fun kv => k + 1 <= key (fst kv)) (snd (take_bin key k s))
  /\ forall j, k < j ->
       sum_where (fun t => key t =? j) (snd (take_bin key k s))
       = sum_where (fun t => key t =? j) s.
Proof.
  induction s as [|[t v] s IH]; intros Hs Hlo.
  - simpl. repeat split; constructor.
  - apply key_sorted_cons_inv in Hs. destruct Hs as [Hs Hhd].
    inversion Hlo as [|? ? Ht Hlo']; subst. simpl in Ht, Hhd.
    simpl. destruct (key t <=? k) eqn:Hle.
    + apply Z.leb_le in Hle.
      destruct (IH Hs Hlo') as (Hv & Hsorted & Hlater & Hkeep).
      destruct (take_bin key k s) as [acc later]. simpl in *.
      repeat split; [|exact Hsorted|exact Hlater|].
      * rewrite sum_where_cons, Hv. unfold int64_add.
        rewrite wrap64_add_r.
        replace (key t =? k) with true by (symmetry; apply Z.eqb_eq; lia).
        reflexivity.
      * intros j Hj. rewrite sum_where_cons, (Hkeep j Hj).
        replace (key t =? j) with false by (symmetry; apply Z.eqb_neq; lia).
        lia.
    + apply Z.leb_gt in Hle. simpl. repeat split.
      * rewrite sum_where_none; [reflexivity|]. constructor.
        -- simpl. apply Z.eqb_neq. lia.
        -- eapply Forall_impl; [|exact Hhd]. simpl. intros b Hb.
           apply Z.eqb_neq. lia.
      * constructor; assumption.
      * constructor; [simpl; lia|].
        eapply Forall_impl; [|exact Hhd]. simpl. intros b Hb. lia.
Qed.

(** The bins of one pass are the sums of the entries of each bin. *)
Lemma bins_spec key n :
  forall k s,
    key_sorted key s ->
    Forall (fun kv => k <= key (fst kv)) s ->
    bins key k n s
    = map (fun j => (j, wrap64 (sum_where (fun t => key t =? j) s)))
          (zrange k n).
Proof.
  induction n as [|n IH]; intros k s Hs Hlo; [reflexivity|].
  rewrite zrange_S. simpl.
  destruct (take_bin_spec key k s Hs Hlo) as (Hv & Hsorted & Hlater & Hkeep).
  destruct (take_bin key k s) as [v later]. simpl in *.
  rewrite Hv. f_equal. rewrite (IH (k + 1) later Hsorted Hlater).
  apply map_ext_in. intros j Hj. apply in_zrange in Hj.
  rewrite Hkeep by lia. reflexivity.
Qed.

(** Resampling a sorted series: one bin per key from the first label's to
    the last label's, each holding the [int64] sum of its entries. *)
Lemma resample_sum_spec key t0 v0 rest :
  let s := (t0, v0) :: rest in
  key_sorted key s ->
  resample_sum key s
  = map (fun j => (j, wrap64 (sum_where (fun t => key t =? j) s)))
        (zrange (key t0)
                (Z.to_nat (key (fst (last s (t0, 0))) - key t0 + 1))).
Proof.
  intros s Hs. unfold resample_sum, s. apply bins_spec; [exact Hs|].
  apply key_sorted_cons_inv in Hs. destruct Hs as [_ Hhd].
  constructor; [simpl; lia|exact Hhd].
Qed.

(** The bin sums over a range of keys add up to the entries whose key is
    in the range. *)
Lemma sum_of_bins key s n :
  forall k,
    wrap64 (sum_of (map (fun j => (j, wrap64 (sum_where
                                                (fun t => key t =? j) s)))
                        (zrange k n)))
    = wrap64 (sum_where (fun t => (k <=? key t)
                                  && (key t <? k + Z.of_nat n)) s).
Proof.
  induction n as [|n IH]; intros k.
  - simpl. f_equal. symmetry. apply sum_where_none. apply Forall_forall.
    intros kv _. destruct (k <=? key (fst kv)) eqn:H1; [|reflexivity].
    simpl. apply Z.ltb_ge. apply Z.leb_le in H1. lia.
  - rewrite zrange_S. cbn [map]. rewrite sum_of_cons.
    rewrite wrap64_add_l, <- wrap64_add_r, IH, wrap64_add_r. f_equal.
    symmetry. apply sum_where_split.
    + intros t.
      destruct (key t =? k) eqn:E1, (k <=? key t) eqn:E2,
               (key t <? k + Z.of_nat (S n)) eqn:E3,
               (k + 1 <=? key t) eqn:E4,
               (key t <? k + 1 + Z.of_nat n) eqn:E5; simpl; try reflexivity;
        rewrite ?Z.eqb_eq, ?Z.eqb_neq, ?Z.leb_le, ?Z.leb_gt, ?Z.ltb_lt,
                ?Z.ltb_ge in *; lia.
    + intros t.
      destruct (key t =? k) eqn:E1, (k + 1 <=? key t) eqn:E4; simpl;
        try reflexivity.
      rewrite ?Z.eqb_eq, ?Z.leb_le in *. lia.
Qed.

(** ** Resampling as a whole *)

Lemma key_sorted_last key s d :
  key_sorted key s -> s <> [] ->
  In (last s d) s
  /\ forall kv, In kv s -> key (fst kv) <= key (fst (last s d)).
Proof.
  unfold key_sorted. induction 1 as [|a s Hs IH Hall]; intros Hne; [congruence|].
  destruct s as [|b s'].
  - simpl. split; [auto|]. intros kv [<-|[]]. lia.
  - destruct IH as [Hin Hub]; [discriminate|].
    change (last (a :: b :: s') d) with (last (b :: s') d).
    split; [right; exact Hin|].
    intros kv [<-|Hkv]; [|apply Hub, Hkv].
    rewrite Forall_forall in Hall. exact (Hall _ Hin).
Qed.

Lemma ascending_of_keys (f : Z -> Z) l :
  StronglySorted Z.lt l -> ascending (map (fun j => (j, f j)) l).
Proof.
  unfold ascending. induction 1 as [|a l Hl IH Hall]; simpl; constructor.
  - exact IH.
  - apply Forall_forall. intros [j w] Hin. apply in_map_iff in Hin.
    destruct Hin as [x [Hx Hin]]. injection Hx as -> _.
    rewrite Forall_forall in Hall. simpl. exact (Hall _ Hin).
Qed.

(** The labels of a resampled series are consecutive, hence ascending. *)
Lemma resample_sum_ascending key s :
  key_sorted key s -> ascending (resample_sum key s).
Proof.
  intros Hs. destruct s as [|[t0 v0] rest]; [constructor|].
  rewrite (resample_sum_spec key t0 v0 rest Hs).
  apply ascending_of_keys, zrange_ascending.
Qed.

(** Every entry of a resampled series is the [int64] sum of the entries of
    its bin. *)
Lemma resample_sum_entries key s j v :
  key_sorted key s -> In (j, v) (resample_sum key s) ->
  v = wrap64 (sum_where (fun t => key t =? j) s).
Proof.
  intros Hs Hin. destruct s as [|[t0 v0] rest]; [destruct Hin|].
  rewrite (resample_sum_spec key t0 v0 rest Hs) in Hin.
  apply in_map_iff in Hin. destruct Hin as [x [Hx _]].
  injection Hx as -> <-. reflexivity.
Qed.

(** Resampling keeps the total. *)
Lemma resample_sum_total key s :
  key_sorted key s -> total (resample_sum key s) = total s.
Proof.
  intros Hs. destruct s as [|[t0 v0] rest]; [reflexivity|].
  rewrite !total_wrap.
  rewrite (resample_sum_spec key t0 v0 rest Hs), sum_of_bins.
  set (s := (t0, v0) :: rest) in *.
  destruct (key_sorted_last key s (t0, 0) Hs) as [_ Hub]; [discriminate|].
  apply key_sorted_cons_inv in Hs. destruct Hs as [_ Hhd].
  f_equal. apply sum_where_all. apply Forall_forall. intros kv Hkv.
  specialize (Hub _ Hkv).
  assert (Hlo : key t0 <= key (fst kv)).
  { destruct Hkv as [<-|Hkv]; [simpl; lia|].
    rewrite Forall_forall in Hhd. exact (Hhd _ Hkv). }
  apply andb_true_iff. split; [apply Z.leb_le; exact Hlo|].
  apply Z.ltb_lt. lia.
Qed.

(** ** The daily and the monthly series of [load_data] *)

Lemma groupby_day_sorted df : key_sorted day_of_timestamp (groupby_sum df).
Proof.
  apply ascending_key_sorted; [|apply groupby_sum_ascending].
  apply CalendarFacts.day_of_timestamp_mono.
Qed.

(** The daily series, entry by entry. *)
Lemma daily_of_spec df t0 t1 :
  Tanggal_min df = Some t0 -> Tanggal_max df = Some t1 ->
  daily_of df
  = map (fun d => (d, wrap64 (qty_on_day d df)))
        (zrange (day_of_timestamp t0)
                (Z.to_nat (day_of_timestamp t1 - day_of_timestamp t0 + 1))).
Proof.
  intros Hmin Hmax. unfold daily_of.
  pose proof (groupby_day_sorted df) as Hs.
  destruct (groupby_sum df) as [|[k0 v0] rest] eqn:Hg.
  - apply groupby_sum_nil in Hg. congruence.
  - pose proof (groupby_sum_first df k0 v0 rest Hg) as Hfirst.
    assert (Hne : groupby_sum df <> []) by (rewrite Hg; discriminate).
    pose proof (groupby_sum_last df (k0, 0) Hne) as Hlast.
    rewrite Hg in Hlast.
    assert (k0 = t0) by congruence. subst k0.
    assert (Ht1 : fst (last ((t0, v0) :: rest) (t0, 0)) = t1) by congruence.
    rewrite (resample_sum_spec day_of_timestamp t0 v0 rest Hs), Ht1.
    apply map_ext. intros d. f_equal.
    rewrite <- Hg. apply groupby_sum_where.
Qed.

Lemma daily_of_no_dates df : Tanggal_min df = None -> daily_of df = [].
Proof.
  intros Hmin. unfold daily_of.
  destruct (groupby_sum df) as [|[k0 v0] rest] eqn:Hg; [reflexivity|].
  apply groupby_sum_first in Hg. congruence.
Qed.

Lemma daily_of_ascending df : ascending (daily_of df).
Proof. apply resample_sum_ascending, groupby_day_sorted. Qed.

Lemma daily_month_sorted df : key_sorted month_of_day (daily_of df).
Proof.
  apply ascending_key_sorted; [|apply daily_of_ascending].
  apply CalendarFacts.month_of_day_mono.
Qed.


(** Quantities that are not negative have sums that are not negative,
    and a part of them sums to no more than all of them. *)
Lemma qty_where_bounds p df :
  (forall r, In r df -> 0 <= Qty r) ->
  0 <= qty_where p df <= qty_dated df.
Proof.
  unfold qty_dated, qty_where. induction df as [|r df IH]; intros Hpos.
  - simpl. lia.
  - simpl. assert (0 <= Qty r) by (apply Hpos; left; reflexivity).
    assert (IH' := IH (fun r' Hr' => Hpos r' (or_intror Hr'))).
    destruct (Tanggal r) as [t|]; [destruct (p t)|]; lia.
Qed.

Lemma min_le_max df t0 t1 :
  Tanggal_min df = Some t0 -> Tanggal_max df = Some t1 -> t0 <= t1.
Proof.
  intros Hmin Hmax.
  pose proof (Tanggal_min_spec df) as H0. rewrite Hmin in H0.
  pose proof (Tanggal_max_spec df) as H1. rewrite Hmax in H1.
  destruct H0 as [Hin _]. destruct H1 as [_ Hub]. apply Hub, Hin.
Qed.

(** The quantity of a day without a dated row is zero. *)
Lemma qty_on_day_none d df :
  ~ has_row_on_day d df -> qty_on_day d df = 0.
Proof.
  unfold has_row_on_day, qty_on_day. induction df as [|r df IH]; intros Hno.
  - reflexivity.
  - simpl. rewrite IH.
    + destruct (Tanggal r) as [t|] eqn:Ht; [|reflexivity].
      destruct (day_of_timestamp t =? d) eqn:E; [|reflexivity].
      exfalso. apply Hno. exists r, t. apply Z.eqb_eq in E. simpl. auto.
    + intros (r' & t & Hin & Ht & Hd). apply Hno. exists r', t.
      simpl. auto.
Qed.

(** The bin of every entry is among the bins of the resampled series. *)
Lemma resample_sum_covers key s kv :
  key_sorted key s -> In kv s ->
  exists w, In (key (fst kv), w) (resample_sum key s).
Proof.
  intros Hs Hin. destruct s as [|[t0 v0] rest]; [destruct Hin|].
  rewrite (resample_sum_spec key t0 v0 rest Hs).
  set (s := (t0, v0) :: rest) in *.
  destruct (key_sorted_last key s (t0, 0) Hs) as [_ Hub]; [discriminate|].
  specialize (Hub _ Hin).
  apply key_sorted_cons_inv in Hs. destruct Hs as [_ Hhd].
  assert (Hlo : key t0 <= key (fst kv)).
  { destruct Hin as [<-|Hin]; [simpl; lia|].
    rewrite Forall_forall in Hhd. exact (Hhd _ Hin). }
  eexists. apply in_map_iff. exists (key (fst kv)). split; [reflexivity|].
  apply in_zrange. lia.
Qed.


End PandasFacts.

(* ------------------------------------------------------------------ *)
(** * Loading the data *)
(* ------------------------------------------------------------------ *)

Module LoadFacts.
Import Calendar Python Pandas Statsmodels Streamlit App Measures PandasFacts Expected.
Local Open Scope string_scope.
Local Open Scope Z_scope.

Section Loading.

Variable read_csv : string -> result csv_frame.
Variable parse_datetime : datetime_parser.
Variable pickle_load : string -> result Model.

Abbreviation load_data := (App.load_data read_csv parse_datetime).
Abbreviation load_data_try := (App.load_data_try read_csv parse_datetime).
Abbreviation load_model := (App.load_model pickle_load).

(** [load_data] run to its end: a successful body gives the three results
    and renders nothing, a raising body gives three [None] and one error
    message. *)
Lemma load_data_cases path :
  (exists df daily monthly,
      load_data_try path = Ok (df, daily, monthly)
      /\ load_data path = ([], Ok (Some df, Some daily, Some monthly)))
  \/ (exists e msg,
         load_data_try path = Raise e
         /\ load_data path = ([(Main, error msg)], Ok (None, None, None))).
Proof.
  unfold App.load_data, try_except, bind, lift, ret, emit.
  destruct (load_data_try path) as [[[df daily] monthly]|e].
  - left. exists df, daily, monthly. split; reflexivity.
  - right. exists e. destruct e; simpl; eexists; split; reflexivity.
Qed.

Lemma load_data_loaded path df daily monthly :
  outcome (load_data path) = Ok (Some df, Some daily, Some monthly) ->
  load_data_try path = Ok (df, daily, monthly).
Proof.
  intros H.
  destruct (load_data_cases path)
    as [(df' & d' & m' & Htry & Hrun)|(e & msg & _ & Hrun)];
    rewrite Hrun in H; unfold outcome in H; simpl in H.
  - injection H as -> -> ->. exact Htry.
  - discriminate.
Qed.

(** The rows the grouping of line 38 works on are the rows of [df]. *)
Lemma keyed_assign raw stamps :
  keyed stamps (map Qty_cell (csv_rows raw)) = assign_Tanggal raw stamps.
Proof.
  unfold keyed, assign_Tanggal. revert stamps.
  induction (csv_rows raw) as [|r rows IH]; intros [|t stamps];
    try reflexivity.
  simpl. rewrite IH. reflexivity.
Qed.

Lemma load_data_try_series path df daily monthly :
  load_data_try path = Ok (df, daily, monthly) ->
  daily = daily_of df /\ monthly = monthly_of daily.
Proof.
  unfold App.load_data_try, rbind, groupby_getitem.
  destruct (read_csv path) as [raw|e]; [|discriminate].
  destruct (getitem raw "Tanggal" Tanggal_text) as [tanggal|e];
    [|discriminate].
  destruct (to_datetime parse_datetime tanggal) as [stamps|e];
    [|discriminate].
  destruct (has_column raw "Qty"); [|discriminate].
  rewrite keyed_assign.
  intros H. injection H as <- <- <-. split; reflexivity.
Qed.



(** Without one of the two columns the body raises. *)
Lemma load_data_try_no_column path raw :
  read_csv path = Ok raw ->
  has_column raw "Tanggal" = false \/ has_column raw "Qty" = false ->
  exists e, load_data_try path = Raise e.
Proof.
  intros Hraw Hno.
  unfold App.load_data_try, rbind, getitem, groupby_getitem. rewrite Hraw.
  destruct (has_column raw "Tanggal"); [|eauto].
  destruct (to_datetime parse_datetime (map Tanggal_text (csv_rows raw)));
    [|eauto].
  destruct (has_column raw "Qty"); [|eauto].
  destruct Hno as [H|H]; discriminate H.
Qed.

Lemma load_model_cases path :
  (exists m, pickle_load path = Ok m /\ load_model path = ([], Ok (Some m)))
  \/ (exists e msg,
         pickle_load path = Raise e
         /\ load_model path = ([(Main, error msg)], Ok None)).
Proof.
  unfold App.load_model, try_except, bind, lift, ret, emit.
  destruct (pickle_load path) as [m|e].
  - left. exists m. split; reflexivity.
  - right. exists e. destruct e; simpl; eexists; split; reflexivity.
Qed.

(** A list of steps raises as soon as one of them does. *)
Lemma rmap_raise {A B} (f : A -> result B) l a e :
  In a l -> f a = Raise e -> exists e', rmap f l = Raise e'.
Proof.
  induction l as [|x l IH]; intros Hin Hf; [destruct Hin|].
  simpl. destruct Hin as [->|Hin].
  - rewrite Hf. simpl. eauto.
  - destruct (f x); simpl; [|eauto].
    destruct (IH Hin Hf) as [e' ->]. simpl. eauto.
Qed.

(** A column with a text that its reader cannot read cannot be
    converted. *)
Lemma to_datetime_unreadable col s :
  In (Some s) col -> column_reader parse_datetime col s = None ->
  exists e, to_datetime parse_datetime col = Raise e.
Proof.
  intros Hin Hp. unfold to_datetime.
  eapply rmap_raise; [exact Hin|]. unfold read_cell. rewrite Hp. reflexivity.
Qed.

(** A frame with a date text that the reader of its column cannot read
    does not load. *)
Lemma load_data_try_unreadable path raw r s :
  read_csv path = Ok raw ->
  In r (csv_rows raw) -> Tanggal_text r = Some s ->
  reader_of parse_datetime raw s = None ->
  exists e, load_data_try path = Raise e.
Proof.
  intros Hraw Hin Hs Hp.
  unfold App.load_data_try, rbind, getitem. rewrite Hraw.
  destruct (has_column raw "Tanggal"); [|eauto].
  destruct (to_datetime_unreadable (map Tanggal_text (csv_rows raw)) s)
    as [e He].
  - rewrite <- Hs. apply in_map, Hin.
  - exact Hp.
  - rewrite He. eauto.
Qed.

End Loading.

End LoadFacts.

(* ------------------------------------------------------------------ *)
(** * The forecast view *)
(* ------------------------------------------------------------------ *)

Module ForecastFacts.
Import Calendar Python Pandas Statsmodels Streamlit App Measures PandasFacts Expected.
Local Open Scope string_scope.
Local Open Scope Z_scope.

(** The view with both models and the data present and the button
    pressed, in full. *)
Lemma forecast_page_run sm hm monthly periods :
  forecast_page (Some sm) (Some hm) (Some monthly) periods true
  = ((forecast_head
        ++ forecast_subheader periods
        :: forecast_middle periods monthly
             (sarima_try (Some sm) periods) (hw_try (Some hm) periods)
        ++ forecast_tail)%list,
     Ok tt).
Proof.
  unfold forecast_page, run_forecast.
  remember (sarima_try (Some sm) periods) as rs.
  remember (hw_try (Some hm) periods) as rh.
  destruct rs as [s|es], rh as [h|eh]; reflexivity.
Qed.

(** The view with the button not pressed. *)
Lemma forecast_page_idle sm hm monthly periods :
  forecast_page (Some sm) (Some hm) (Some monthly) periods false
  = ((forecast_head ++ forecast_tail)%list, Ok tt).
Proof. reflexivity. Qed.

(** A table or a chart among the rendered elements comes from the
    forecast itself, with the button pressed and both [try] blocks
    completed. *)
Lemma forecast_middle_origin periods monthly rs rh (w : widget) :
  (exists rows, w = dataframe rows) \/ (exists fig, w = pyplot fig) ->
  In (Main, w) (forecast_middle periods monthly rs rh) ->
  exists s h,
    rs = Ok s /\ rh = Ok h
    /\ (w = dataframe (join (sarima_results s) (hw_results h))
        \/ w = pyplot (forecast_figure periods (to_timestamp monthly) s h)).
Proof.
  intros Hw Hin. destruct rs as [s|es], rh as [h|eh]; simpl in Hin.
  - exists s, h. split; [reflexivity|]. split; [reflexivity|].
    destruct Hin as [Hin|[Hin|[]]]; injection Hin as <-; auto.
  - destruct Hin as [Hin|[]]. injection Hin as <-.
    destruct Hw as [[x Hx]|[x Hx]]; discriminate Hx.
  - destruct Hin as [Hin|[]]. injection Hin as <-.
    destruct Hw as [[x Hx]|[x Hx]]; discriminate Hx.
  - destruct Hin as [Hin|[Hin|[]]]; injection Hin as <-;
      destruct Hw as [[x Hx]|[x Hx]]; discriminate Hx.
Qed.

Lemma forecast_page_origin sm hm monthly periods clicked (w : widget) :
  (exists rows, w = dataframe rows) \/ (exists fig, w = pyplot fig) ->
  In (Main, w)
     (rendered (forecast_page (Some sm) (Some hm) (Some monthly) periods
                  clicked)) ->
  clicked = true
  /\ exists s h,
       sarima_try (Some sm) periods = Ok s
       /\ hw_try (Some hm) periods = Ok h
       /\ (w = dataframe (join (sarima_results s) (hw_results h))
           \/ w = pyplot (forecast_figure periods (to_timestamp monthly)
                            s h)).
Proof.
  intros Hw Hin.
  assert (Hstatic : forall l : list element,
             Forall (fun el => forall rows fig,
                         snd el <> dataframe rows /\ snd el <> pyplot fig) l ->
             ~ In (Main, w) l).
  { intros l Hl Hinl. rewrite Forall_forall in Hl.
    specialize (Hl _ Hinl). cbn [snd] in Hl.
    destruct Hw as [[x ->]|[x ->]].
    - exact (proj1 (Hl x (forecast_figure 0 [] {| sarima_results := [];
                            sarima_forecast := ([], []);
                            sarima_conf_int := ([], [], []) |}
                            {| hw_results := []; hw_forecast := ([], []) |}))
                   eq_refl).
    - exact (proj2 (Hl [] x) eq_refl). }
  assert (Hhead : ~ In (Main, w) forecast_head).
  { apply Hstatic. repeat constructor; discriminate. }
  assert (Htail : ~ In (Main, w) forecast_tail).
  { apply Hstatic. repeat constructor; discriminate. }
  destruct clicked.
  - rewrite forecast_page_run in Hin. unfold rendered in Hin. cbn [fst] in Hin.
    split; [reflexivity|].
    apply in_app_or in Hin. destruct Hin as [Hin|Hin]; [contradiction|].
    destruct Hin as [Hin|Hin].
    { exfalso. unfold forecast_subheader in Hin. injection Hin as <-.
      destruct Hw as [[x Hx]|[x Hx]]; discriminate Hx. }
    apply in_app_or in Hin. destruct Hin as [Hin|Hin]; [|contradiction].
    destruct (forecast_middle_origin _ _ _ _ w Hw Hin)
      as (s & h & Hs & Hh & Hcase).
    exists s, h. auto.
  - rewrite forecast_page_idle in Hin. unfold rendered in Hin. cbn [fst] in Hin.
    apply in_app_or in Hin. destruct Hin as [Hin|Hin]; contradiction.
Qed.

(** The table, when it is rendered. *)
Lemma forecast_table_origin sm hm monthly periods clicked table :
  In (Main, dataframe table)
     (rendered (forecast_page (Some sm) (Some hm) (Some monthly) periods
                  clicked)) ->
  clicked = true
  /\ exists s h,
       sarima_try (Some sm) periods = Ok s
       /\ hw_try (Some hm) periods = Ok h
       /\ table = join (sarima_results s) (hw_results h).
Proof.
  intros Hin.
  destruct (forecast_page_origin sm hm monthly periods clicked _
              (or_introl (ex_intro _ table eq_refl)) Hin)
    as (Hc & s & h & Hs & Hh & Hcase).
  split; [exact Hc|]. exists s, h. split; [exact Hs|]. split; [exact Hh|].
  destruct Hcase as [H|H]; [injection H as ->; reflexivity|discriminate H].
Qed.

End ForecastFacts.

(* ------------------------------------------------------------------ *)
(** * Rounding a forecast *)
(* ------------------------------------------------------------------ *)

Module RoundFacts.
Import Python Pandas Measures.

Lemma Qabs_diff_half (n : Z) (d : positive) (z : Z) :
  (Qabs ((n # d) - inject_Z z) <= 1 # 2)%Q
  <-> 2 * Z.abs (n - z * Zpos d) <= Zpos d.
Proof.
  unfold Qle, Qabs, Qminus, Qplus, Qopp, inject_Z. cbn [Qnum Qden].
  rewrite Pos.mul_1_r. lia.
Qed.

Lemma Qabs_diff_tie (n : Z) (d : positive) (z : Z) :
  (Qabs ((n # d) - inject_Z z) == 1 # 2)%Q
  <-> 2 * Z.abs (n - z * Zpos d) = Zpos d.
Proof.
  unfold Qeq, Qabs, Qminus, Qplus, Qopp, inject_Z. cbn [Qnum Qden].
  rewrite Pos.mul_1_r. lia.
Qed.

Lemma round_half_even_nearest q : rounds_to q (round_half_even q).
Proof.
  destruct q as [n d]. unfold rounds_to.
  rewrite Qabs_diff_half, Qabs_diff_tie.
  unfold round_half_even. cbn [Qnum Qden].
  pose proof (Z.div_mod n (Zpos d) ltac:(lia)) as Hdm.
  pose proof (Z.mod_pos_bound n (Zpos d) ltac:(lia)) as Hr.
  set (f := n / Zpos d) in *. set (r := n mod Zpos d) in *.
  assert (Hn : n - f * Zpos d = r) by lia.
  assert (Hn1 : n - (f + 1) * Zpos d = r - Zpos d) by lia.
  destruct (2 * r ?= Zpos d) eqn:Hc.
  - apply Z.compare_eq in Hc. destruct (Z.even f) eqn:He.
    + rewrite Hn. split; [lia|]. intros _. exact He.
    + rewrite Hn1. split; [lia|]. intros _.
      rewrite Z.even_add, He. reflexivity.
  - rewrite Z.compare_lt_iff in Hc. rewrite Hn. split; lia.
  - rewrite Z.compare_gt_iff in Hc. rewrite Hn1. split; lia.
Qed.

(** Inside the range the cast keeps the value; outside it leaves the
    least [int64]. *)
Lemma cast_int64_small z : in_int64 z -> cast_int64 z = z.
Proof.
  unfold in_int64, cast_int64. intros [Hlo Hhi].
  apply Z.leb_le in Hlo, Hhi. rewrite Hlo, Hhi. reflexivity.
Qed.

Lemma cast_int64_large z : ~ in_int64 z -> cast_int64 z = int64_min.
Proof.
  unfold in_int64, cast_int64. intros Hout.
  destruct (int64_min <=? z) eqn:Hlo; [|reflexivity].
  destruct (z <=? int64_max) eqn:Hhi; [|reflexivity].
  apply Z.leb_le in Hlo, Hhi. exfalso. apply Hout. split; assumption.
Qed.

Lemma cast_int64_range z : in_int64 (cast_int64 z).
Proof.
  unfold cast_int64.
  destruct (int64_min <=? z) eqn:Hlo; cbn [andb];
    [|unfold in_int64, int64_min, int64_max; lia].
  destruct (z <=? int64_max) eqn:Hhi;
    [|unfold in_int64, int64_min, int64_max; lia].
  apply Z.leb_le in Hlo, Hhi. split; assumption.
Qed.

Lemma astype_round_finite q :
  astype_int (round0 (Finite q)) = Ok (cast_int64 (round_half_even q)).
Proof. simpl. rewrite Z.quot_1_r. reflexivity. Qed.

Lemma astype_round_ok x z :
  astype_int (round0 x) = Ok z -> is_finite x /\ z = cell x.
Proof.
  destruct x as [q| | |]; try discriminate.
  rewrite astype_round_finite. intros H. injection H as <-.
  split; [exists q|]; reflexivity.
Qed.

(** A column that can be cast holds finite values only, and each of them
    is shown as the cast of its nearest integer. *)
Lemma round_to_int_ok col out :
  round_to_int col = Ok out ->
  out = map cell col /\ Forall is_finite col.
Proof.
  unfold round_to_int. revert out.
  induction col as [|x col IH]; intros out H.
  - injection H as <-. split; constructor.
  - cbn [rmap] in H. destruct (astype_int (round0 x)) as [z|e] eqn:Hx;
      [|discriminate].
    cbn [rbind] in H. destruct (rmap _ col) as [zs|e]; [|discriminate].
    cbn [rbind] in H. injection H as <-.
    destruct (IH zs eq_refl) as [-> Hfin].
    apply astype_round_ok in Hx. destruct Hx as [Hx ->].
    split; [reflexivity|constructor; assumption].
Qed.

(** A shown value is the nearest integer of the raw one when that integer
    is an [int64]. *)
Lemma cell_rounds x q :
  x = Finite q -> in_int64 (round_half_even q) -> rounds_to q (cell x).
Proof.
  intros -> Hin. cbn [cell]. rewrite (cast_int64_small _ Hin).
  apply round_half_even_nearest.
Qed.

Lemma cell_range x : in_int64 (cell x).
Proof.
  destruct x; cbn [cell]; try apply cast_int64_range;
    unfold in_int64, int64_min, int64_max; lia.
Qed.

End RoundFacts.

(* ------------------------------------------------------------------ *)
(** * The forecast table *)
(* ------------------------------------------------------------------ *)

Module TableFacts.
Import Calendar Python Pandas Statsmodels Streamlit App Measures Expected.
Import PandasFacts RoundFacts.

(** ** Months and their first midnight *)

Lemma month_of_month_stamp mo : month_of_timestamp (month_stamp mo) = mo.
Proof.
  unfold month_of_timestamp, month_stamp.
  rewrite CalendarFacts.day_of_timestamp_of_day.
  apply CalendarFacts.month_of_month_start.
Qed.

Lemma month_stamp_inj a b : month_stamp a = month_stamp b -> a = b.
Proof.
  intros H. rewrite <- (month_of_month_stamp a), <- (month_of_month_stamp b).
  rewrite H. reflexivity.
Qed.

Lemma strftime_of_month_stamps months :
  strftime_Ym_index (map month_stamp months) = months.
Proof.
  unfold strftime_Ym_index. rewrite map_map.
  rewrite <- (map_id months) at 2. apply map_ext, month_of_month_stamp.
Qed.

(** The months of a forecast follow the last fitted month, one by one. *)
Lemma forecast_months_range m steps :
  forecast_months m steps = zrange (train_end m + 1) (Z.to_nat steps).
Proof.
  unfold forecast_months, horizon, zrange.
  rewrite <- seq_shift, map_map. apply map_ext. intros i. lia.
Qed.

Lemma forecast_months_NoDup m steps : NoDup (forecast_months m steps).
Proof. rewrite forecast_months_range. apply zrange_NoDup. Qed.

(** ** Frames built column by column *)

Lemma combine_map {A B C} (f : A -> B) (g : A -> C) l :
  combine (map f l) (map g l) = map (fun x => (f x, g x)) l.
Proof. induction l as [|x l IH]; simpl; [reflexivity|]. rewrite IH. reflexivity. Qed.

Lemma lookup_In stamp col v : lookup stamp col = Some v -> In (stamp, v) col.
Proof.
  induction col as [|[t w] col IH]; simpl; [discriminate|].
  destruct (t =? stamp) eqn:E.
  - intros H. injection H as ->. apply Z.eqb_eq in E. subst. auto.
  - auto.
Qed.

(** Re-indexing a column over the first midnights of distinct months by
    those months finds every value. *)
Lemma reindex_own_months (g : Z -> Z) months :
  NoDup months ->
  reindex months (map (fun mo => (month_stamp mo, g mo)) months)
  = map (fun mo => (mo, Some (g mo))) months.
Proof.
  unfold reindex. induction months as [|a months IH]; intros Hnd.
  - reflexivity.
  - inversion Hnd as [|? ? Hnotin Hnd']; subst. simpl.
    rewrite Z.eqb_refl. f_equal. rewrite <- (IH Hnd').
    apply map_ext_in. intros mo Hmo.
    destruct (month_stamp a =? month_stamp mo) eqn:E; [|reflexivity].
    apply Z.eqb_eq, month_stamp_inj in E. subst. contradiction.
Qed.

(** ** What a successful [try] block holds *)

Lemma sarima_try_ok sm periods s :
  sarima_try (Some sm) periods = Ok s ->
  sarima_results s = sarima_rows sm periods
  /\ Forall (fun h => is_finite (predict sm h)
                      /\ is_finite (predict_lower sm h)
                      /\ is_finite (predict_upper sm h))
            (horizon periods).
Proof.
  unfold sarima_try, getattr, get_forecast, forecast_index, make_index.
  destruct (get_forecast_fault sm periods); [discriminate|].
  cbn [rbind predicted_mean conf_int_index conf_int_lower conf_int_upper
       idx vals].
  destruct (index_kind_of sm); cbn [index_to_timestamp rbind]; [|discriminate].
  destruct (round_to_int (map (predict sm) (horizon periods)))
    as [pred|e] eqn:Hp; cbn [rbind]; [|discriminate].
  destruct (round_to_int (map (predict_lower sm) (horizon periods)))
    as [lower|e] eqn:Hl; cbn [rbind]; [|discriminate].
  destruct (round_to_int (map (predict_upper sm) (horizon periods)))
    as [upper|e] eqn:Hu; cbn [rbind]; [|discriminate].
  apply round_to_int_ok in Hp, Hl, Hu.
  destruct Hp as [-> Hp], Hl as [-> Hl], Hu as [-> Hu].
  unfold make_frame. rewrite strftime_of_month_stamps.
  destruct (_ && _)%bool; cbn [rbind]; [|discriminate].
  intros H. injection H as <-. cbn [sarima_results]. split.
  - unfold sarima_rows, forecast_months. rewrite !map_map.
    rewrite (combine_map (fun h => cell (predict sm h))
                         (fun h => cell (predict_lower sm h))).
    rewrite (combine_map
               (fun h => (cell (predict sm h), cell (predict_lower sm h)))
               (fun h => cell (predict_upper sm h))).
    rewrite (combine_map (fun h => train_end sm + Z.of_nat h)
               (fun h => (cell (predict sm h), cell (predict_lower sm h),
                          cell (predict_upper sm h)))).
    reflexivity.
  - rewrite Forall_map in Hp, Hl, Hu. rewrite Forall_forall in *.
    intros h Hh. auto.
Qed.

Lemma hw_try_ok hm periods h :
  hw_try (Some hm) periods = Ok h ->
  hw_results h = hw_rows hm periods
  /\ Forall (fun k => is_finite (predict hm k)) (horizon periods).
Proof.
  unfold hw_try, getattr, forecast, forecast_index, make_index.
  destruct (forecast_fault hm periods); [discriminate|].
  cbn [rbind idx vals].
  destruct (index_kind_of hm); cbn [index_to_timestamp rbind]; [|discriminate].
  destruct (round_to_int (map (predict hm) (horizon periods)))
    as [pred|e] eqn:Hp; cbn [rbind]; [|discriminate].
  apply round_to_int_ok in Hp. destruct Hp as [-> Hp].
  intros H. injection H as <-. cbn [hw_results]. split.
  - rewrite strftime_of_month_stamps.
    unfold forecast_months. rewrite !map_map.
    rewrite (combine_map (fun k => month_stamp (train_end hm + Z.of_nat k))
                         (fun k => cell (predict hm k))).
    pose proof (reindex_own_months
                  (fun mo => cell (predict hm (Z.to_nat (mo - train_end hm))))
                  (forecast_months hm periods)
                  (forecast_months_NoDup hm periods)) as Hre.
    unfold forecast_months in Hre. rewrite !map_map in Hre.
    unfold hw_rows.
    erewrite (map_ext _ (fun k => (train_end hm + Z.of_nat k,
                                   Some (cell (predict hm k))))) in Hre.
    + rewrite <- Hre. f_equal. apply map_ext. intros k.
      replace (Z.to_nat (train_end hm + Z.of_nat k - train_end hm)) with k
        by lia.
      reflexivity.
    + intros k. cbn beta.
      replace (Z.to_nat (train_end hm + Z.of_nat k - train_end hm)) with k
        by lia.
      reflexivity.
  - rewrite Forall_map in Hp. exact Hp.
Qed.

(** The series a successful [try] block keeps for the chart hold the raw
    values of the model. *)
Lemma sarima_try_raw sm periods s :
  sarima_try (Some sm) periods = Ok s ->
  sarima_forecast s
  = (map month_stamp (forecast_months sm periods),
     map (predict sm) (horizon periods))
  /\ sarima_conf_int s
     = (map month_stamp (forecast_months sm periods),
        map (predict_lower sm) (horizon periods),
        map (predict_upper sm) (horizon periods)).
Proof.
  unfold sarima_try, getattr, get_forecast, forecast_index, make_index.
  destruct (get_forecast_fault sm periods); [discriminate|].
  cbn [rbind predicted_mean conf_int_index conf_int_lower conf_int_upper
       idx vals].
  destruct (index_kind_of sm); cbn [index_to_timestamp rbind]; [|discriminate].
  destruct (round_to_int (map (predict sm) (horizon periods)))
    as [pred|e]; cbn [rbind]; [|discriminate].
  destruct (round_to_int (map (predict_lower sm) (horizon periods)))
    as [lower|e]; cbn [rbind]; [|discriminate].
  destruct (round_to_int (map (predict_upper sm) (horizon periods)))
    as [upper|e]; cbn [rbind]; [|discriminate].
  destruct (make_frame _ pred lower upper); cbn [rbind]; [|discriminate].
  intros H. injection H as <-. repeat split.
Qed.

Lemma hw_try_raw hm periods h :
  hw_try (Some hm) periods = Ok h ->
  hw_forecast h
  = (map month_stamp (forecast_months hm periods),
     map (predict hm) (horizon periods)).
Proof.
  unfold hw_try, getattr, forecast, forecast_index, make_index.
  destruct (forecast_fault hm periods); [discriminate|].
  cbn [rbind idx vals].
  destruct (index_kind_of hm); cbn [index_to_timestamp rbind]; [|discriminate].
  destruct (round_to_int (map (predict hm) (horizon periods)))
    as [pred|e]; cbn [rbind]; [|discriminate].
  intros H. injection H as <-. reflexivity.
Qed.

(** A finite value is shown as the table shows it. *)
Lemma cell_shown x : is_finite x -> shown_as x (cell x).
Proof.
  intros [q ->]. exists q. split; [reflexivity|]. split; [reflexivity|].
  intros Hin. exact (cell_rounds (Finite q) q eq_refl Hin).
Qed.

(** ** The left join *)

Lemma filter_key_absent (right : list (Z * option Z)) b :
  ~ In b (map fst right) -> filter (fun r => fst r =? b) right = [].
Proof.
  induction right as [|[k v] right IH]; intros Hnot; [reflexivity|].
  simpl in *. destruct (k =? b) eqn:E.
  - apply Z.eqb_eq in E. tauto.
  - apply IH. tauto.
Qed.

(** With distinct keys on the right, a key has at most one partner. *)
Lemma filter_key_short (right : list (Z * option Z)) b :
  NoDup (map fst right) ->
  filter (fun r => fst r =? b) right = []
  \/ exists v, filter (fun r => fst r =? b) right = [(b, v)].
Proof.
  induction right as [|[k v] right IH]; intros Hnd; [left; reflexivity|].
  simpl in Hnd. inversion Hnd as [|? ? Hnotin Hnd']; subst.
  simpl. destruct (k =? b) eqn:E.
  - apply Z.eqb_eq in E. subst k. right. exists v.
    rewrite (filter_key_absent right b Hnotin). reflexivity.
  - apply IH, Hnd'.
Qed.

(** With distinct keys on the right, the join keeps the rows of the left
    frame, one for one and in order. *)
Lemma join_keys left right :
  NoDup (map fst right) -> map Bulan (join left right) = map fst left.
Proof.
  intros Hnd. unfold join. induction left as [|[b [[p lo] hi]] left IH].
  - reflexivity.
  - cbn [flat_map]. rewrite map_app, IH.
    destruct (filter_key_short right b Hnd) as [->|[v ->]]; reflexivity.
Qed.

(** Where a row of the join comes from. *)
Lemma join_row_origin left right row :
  In row (join left right) ->
  In (Bulan row,
      (SARIMA_Prediksi row, SARIMA_Batas_Bawah row, SARIMA_Batas_Atas row))
     left
  /\ (Holt_Winters_Prediksi row = None
      \/ In (Bulan row, Holt_Winters_Prediksi row) right).
Proof.
  unfold join. intros Hin. apply in_flat_map in Hin.
  destruct Hin as [[b [[p lo] hi]] [Hl Hrow]].
  destruct (filter (fun r => fst r =? b) right) as [|r0 partners] eqn:Hf.
  - destruct Hrow as [<-|[]]. simpl. auto.
  - apply in_map_iff in Hrow. destruct Hrow as [[k v] [<- Hr]].
    rewrite <- Hf in Hr. apply filter_In in Hr. destruct Hr as [Hr Hk].
    simpl in Hk. apply Z.eqb_eq in Hk. subst k. simpl. auto.
Qed.

Lemma hw_rows_keys hm periods :
  map fst (hw_rows hm periods) = forecast_months hm periods.
Proof. unfold hw_rows, forecast_months. rewrite map_map. reflexivity. Qed.

Lemma sarima_rows_keys sm periods :
  map fst (sarima_rows sm periods) = forecast_months sm periods.
Proof. unfold sarima_rows, forecast_months. rewrite map_map. reflexivity. Qed.

Lemma in_horizon h periods :
  In h (horizon periods) <-> (1 <= h <= Z.to_nat periods)%nat.
Proof. unfold horizon. rewrite in_seq. lia. Qed.

End TableFacts.

(* ------------------------------------------------------------------ *)
(** * The model analysis view *)
(* ------------------------------------------------------------------ *)

Module AnalysisFacts.
Import Calendar Python Pandas Statsmodels Streamlit App Measures Expected.

Lemma sarima_metrics_run sm :
  sarima_metrics (Some sm)
  = ([], Ok (metrics_or_NA (aic sm) (bic sm) (llf sm))).
Proof.
  unfold sarima_metrics, try_except, bind, lift, ret, getattr, metrics_or_NA.
  destruct (aic sm), (bic sm), (llf sm); reflexivity.
Qed.

Lemma hw_metrics_run hm :
  hw_metrics (Some hm)
  = ([], Ok (metrics_or_NA (aic hm) (bic hm) (sse hm))).
Proof.
  unfold hw_metrics, try_except, bind, lift, ret, getattr, metrics_or_NA.
  destruct (aic hm), (bic hm), (sse hm); reflexivity.
Qed.


(** How the view ends, with both models and the data present: only the
    attributes outside the two [try] blocks decide. *)
Lemma model_analysis_page_outcome sm hm monthly :
  outcome (model_analysis_page (Some sm) (Some hm) (Some monthly))
  = match order sm, seasonal_order sm, model_seasonal hm with
    | Raise e, _, _ => Raise e
    | Ok _, Raise e, _ => Raise e
    | Ok _, Ok _, Raise e => Raise e
    | Ok _, Ok _, Ok _ =>
        match index_kind_of hm with
        | DatetimeIndex => Ok tt
        | PeriodIndex =>
            Raise (AttributeError
                     "'PeriodIndex' object has no attribute 'to_period'")
        end
    end.
Proof.
  unfold model_analysis_page, model_analysis_body.
  rewrite sarima_metrics_run, hw_metrics_run.
  destruct (metrics_or_NA (aic sm) (bic sm) (llf sm)) as [[sa sb] sl].
  destruct (metrics_or_NA (aic hm) (bic hm) (sse hm)) as [[ha hb] hs].
  unfold getattr, fittedvalues. cbv beta iota.
  destruct (order sm), (seasonal_order sm), (model_seasonal hm),
           (index_kind_of hm); reflexivity.
Qed.


End AnalysisFacts.

(* ------------------------------------------------------------------ *)
(** * The sidebar footer *)
(* ------------------------------------------------------------------ *)

Module ShellFacts.
Import Calendar Python Pandas Statsmodels Streamlit App Measures Expected.

(** Without raw data the footer is only its rule and its heading. *)
Lemma sidebar_footer_absent :
  sidebar_footer None = (footer_head, Ok tt).
Proof. reflexivity. Qed.

(** With raw data that holds a dated row, the footer shows the count and
    the months of the earliest and of the latest date. *)
Lemma sidebar_footer_dated df t0 t1 :
  Tanggal_min df = Some t0 -> Tanggal_max df = Some t1 ->
  sidebar_footer (Some df)
  = ((footer_head
        ++ [footer_count df;
            footer_period (month_of_timestamp t0) (month_of_timestamp t1)])%list,
     Ok tt).
Proof.
  intros Hmin Hmax. unfold sidebar_footer. rewrite Hmin, Hmax. reflexivity.
Qed.

(** With raw data that holds no dated row, the footer shows the count and
    then raises: the earliest date is [NaT]. *)
Lemma sidebar_footer_undated df :
  Tanggal_min df = None ->
  sidebar_footer (Some df)
  = ((footer_head ++ [footer_count df])%list,
     Raise (ValueError "NaTType does not support strftime")).
Proof.
  intros Hmin. unfold sidebar_footer. rewrite Hmin. reflexivity.
Qed.

End ShellFacts.

(* ------------------------------------------------------------------ *)
(** * More about loading *)
(* ------------------------------------------------------------------ *)

Module FrameFacts.
Import Calendar Python Pandas Statsmodels Streamlit App Measures Expected.
Import PandasFacts LoadFacts.

(** ** Converting the date column *)







End FrameFacts.

(* ------------------------------------------------------------------ *)
(** * More about the two series *)
(* ------------------------------------------------------------------ *)

Module SeriesFacts.
Import Calendar Python Pandas Statsmodels Streamlit App Measures Expected.
Import Int64Facts PandasFacts LoadFacts.

(** ** Row order *)





(** A frame with an earliest date has a latest one. *)
Lemma Tanggal_min_max df t0 :
  Tanggal_min df = Some t0 -> exists t1, Tanggal_max df = Some t1.
Proof.
  intros Hmin. pose proof (Tanggal_min_spec df) as H0. rewrite Hmin in H0.
  destruct H0 as [Hin _]. pose proof (Tanggal_max_spec df) as H1.
  destruct (Tanggal_max df) as [t1|]; [eauto|].
  exfalso. exact (H1 t0 Hin).
Qed.


(** ** Frames without a dated row *)

Lemma Tanggal_min_undated df :
  (forall r, In r df -> Tanggal r = None) -> Tanggal_min df = None.
Proof.
  induction df as [|r df IH]; intros Hall; [reflexivity|].
  simpl. rewrite (Hall r (or_introl eq_refl)). simpl.
  apply IH. intros r' Hr'. apply Hall. right. exact Hr'.
Qed.

(** ** The months of the monthly series *)

(** Resampling passes a selection of bins on to the labels. *)
Lemma sum_where_bins p key s n :
  forall k,
    wrap64 (sum_where p
              (map (fun j => (j, wrap64 (sum_where (fun t => key t =? j) s)))
                   (zrange k n)))
    = wrap64 (sum_where (fun t => p (key t) && ((k <=? key t)
                                        && (key t <? k + Z.of_nat n))) s).
Proof.
  induction n as [|n IH]; intros k.
  - simpl. f_equal. symmetry. apply sum_where_none. apply Forall_forall.
    intros kv _. destruct (p (key (fst kv))); [|reflexivity].
    destruct (k <=? key (fst kv)) eqn:H1; [|reflexivity].
    simpl. apply Z.ltb_ge. apply Z.leb_le in H1. lia.
  - rewrite zrange_S. cbn [map]. rewrite sum_where_cons.
    cbn [fst]. rewrite <- wrap64_add_r, IH, wrap64_add_r.
    transitivity
      (wrap64
         (sum_where (fun t => p (key t) && (key t =? k)) s
          + sum_where (fun t => p (key t) && ((k + 1 <=? key t)
                               && (key t <? k + 1 + Z.of_nat n))) s)).
    + apply wrap64_add_cong; [|reflexivity]. destruct (p k) eqn:Hpk.
      * rewrite wrap64_idem. f_equal.
        apply sum_where_ext. intros kv _.
        destruct (key (fst kv) =? k) eqn:E.
        -- apply Z.eqb_eq in E. rewrite E, Hpk. reflexivity.
        -- rewrite andb_false_r. reflexivity.
      * f_equal. symmetry. apply sum_where_none. apply Forall_forall.
        intros kv _.
        destruct (key (fst kv) =? k) eqn:E.
        -- apply Z.eqb_eq in E. rewrite E, Hpk. reflexivity.
        -- rewrite andb_false_r. reflexivity.
    + f_equal. symmetry. apply sum_where_split.
      * intros t. destruct (p (key t)); [|reflexivity]. cbn [andb].
        destruct (key t =? k) eqn:E1, (k <=? key t) eqn:E2,
                 (key t <? k + Z.of_nat (S n)) eqn:E3,
                 (k + 1 <=? key t) eqn:E4,
                 (key t <? k + 1 + Z.of_nat n) eqn:E5; simpl; try reflexivity;
          rewrite ?Z.eqb_eq, ?Z.eqb_neq, ?Z.leb_le, ?Z.leb_gt, ?Z.ltb_lt,
                  ?Z.ltb_ge in *; lia.
      * intros t. destruct (p (key t)); [|reflexivity]. cbn [andb].
        destruct (key t =? k) eqn:E1, (k + 1 <=? key t) eqn:E4; simpl;
          try reflexivity.
        rewrite ?Z.eqb_eq, ?Z.leb_le in *. lia.
Qed.

(** A selection of bins of a resampled series sums the entries of those
    bins, up to wrapping. *)
Lemma sum_where_resample p key s :
  key_sorted key s ->
  wrap64 (sum_where p (resample_sum key s))
  = wrap64 (sum_where (fun t => p (key t)) s).
Proof.
  intros Hs. destruct s as [|[t0 v0] rest]; [reflexivity|].
  rewrite (resample_sum_spec key t0 v0 rest Hs), sum_where_bins.
  set (s := (t0, v0) :: rest) in *.
  destruct (key_sorted_last key s (t0, 0) Hs) as [_ Hub]; [discriminate|].
  apply key_sorted_cons_inv in Hs. destruct Hs as [_ Hhd].
  f_equal. apply sum_where_ext. intros kv Hkv. specialize (Hub _ Hkv).
  assert (Hlo : key t0 <= key (fst kv)).
  { destruct Hkv as [<-|Hkv]; [simpl; lia|].
    rewrite Forall_forall in Hhd. exact (Hhd _ Hkv). }
  replace (key t0 <=? key (fst kv)) with true
    by (symmetry; apply Z.leb_le; exact Hlo).
  replace (key (fst kv) <? _) with true
    by (symmetry; apply Z.ltb_lt; lia).
  apply andb_true_r.
Qed.

Lemma last_zrange_map {B} (f : Z -> B) k n d :
  last (map f (zrange k (S n))) d = f (k + Z.of_nat n).
Proof.
  revert k. induction n as [|n IH]; intros k.
  - simpl. f_equal; lia.
  - rewrite zrange_S. cbn [map].
    change (last (f k :: map f (zrange (k + 1) (S n))) d)
      with (last (map f (zrange (k + 1) (S n))) d).
    rewrite IH. f_equal. lia.
Qed.

Lemma last_default {A} (l : list A) d d' : l <> [] -> last l d = last l d'.
Proof.
  induction l as [|a l IH]; intros Hne; [congruence|].
  destruct l as [|b l']; [reflexivity|].
  change (last (b :: l') d = last (b :: l') d'). apply IH. discriminate.
Qed.

(** Resampling a sorted series that is not empty, by its first and its
    last label. *)
Lemma resample_sum_ends key s d :
  s <> [] -> key_sorted key s ->
  resample_sum key s
  = map (fun j => (j, wrap64 (sum_where (fun t => key t =? j) s)))
        (zrange (key (fst (hd d s)))
                (Z.to_nat (key (fst (last s d)) - key (fst (hd d s)) + 1))).
Proof.
  intros Hne Hs. destruct s as [|[t0 v0] rest]; [congruence|].
  rewrite (resample_sum_spec key t0 v0 rest Hs).
  rewrite (last_default _ (t0, 0) d) by discriminate. reflexivity.
Qed.

(** The monthly series, entry by entry: one entry per month from the
    month of the earliest date to the month of the latest one, each the
    [int64] sum of the quantities of the rows dated in that month. *)
Lemma monthly_of_spec df t0 t1 :
  Tanggal_min df = Some t0 -> Tanggal_max df = Some t1 ->
  monthly_of (daily_of df)
  = map (fun mo => (mo, wrap64 (qty_in_month mo df)))
        (zrange (month_of_timestamp t0)
                (Z.to_nat (month_of_timestamp t1 - month_of_timestamp t0 + 1))).
Proof.
  intros Hmin Hmax. unfold monthly_of.
  pose proof (daily_month_sorted df) as Hs.
  assert (Hle : day_of_timestamp t0 <= day_of_timestamp t1).
  { apply CalendarFacts.day_of_timestamp_mono.
    exact (min_le_max df t0 t1 Hmin Hmax). }
  assert (Hvals : forall mo,
             wrap64 (sum_where (fun d => month_of_day d =? mo) (daily_of df))
             = wrap64 (qty_in_month mo df)).
  { intros mo. unfold daily_of.
    rewrite (sum_where_resample (fun d => month_of_day d =? mo)
               day_of_timestamp _ (groupby_day_sorted df)).
    apply groupby_sum_where. }
  pose proof (daily_of_spec df t0 t1 Hmin Hmax) as Hdaily.
  destruct (Z.to_nat (day_of_timestamp t1 - day_of_timestamp t0 + 1))
    as [|n] eqn:Hn; [lia|].
  assert (Hne : daily_of df <> []).
  { rewrite Hdaily, zrange_S. discriminate. }
  assert (Hhd : fst (hd (0, 0) (daily_of df)) = day_of_timestamp t0).
  { rewrite Hdaily, zrange_S. reflexivity. }
  assert (Hlast : fst (last (daily_of df) (0, 0)) = day_of_timestamp t1).
  { rewrite Hdaily, last_zrange_map. cbn [fst]. lia. }
  rewrite (resample_sum_ends month_of_day _ (0, 0) Hne Hs), Hhd, Hlast.
  unfold month_of_timestamp.
  apply map_ext. intros mo. f_equal. apply Hvals.
Qed.

End SeriesFacts.

(* ------------------------------------------------------------------ *)
(** * Runs of the whole script *)
(* ------------------------------------------------------------------ *)

Module RunFacts.
Import Calendar Python Pandas Statsmodels Streamlit App Measures Expected.
Import PandasFacts LoadFacts AnalysisFacts ForecastFacts ShellFacts.
Local Open Scope string_scope.
Local Open Scope list_scope.

(** ** Sequencing *)

Lemma bind_run {A B} (m : St A) (k : A -> St B) out a :
  m = (out, Ok a) ->
  bind m k = (out ++ rendered (k a), outcome (k a)).
Proof. intros ->. unfold bind, rendered, outcome. destruct (k a); reflexivity. Qed.

Lemma bind_raise {A B} (m : St A) (k : A -> St B) out e :
  m = (out, Raise e) -> bind m k = (out, Raise e).
Proof. intros ->. reflexivity. Qed.

(** ** The views without their inputs *)

Lemma model_analysis_page_absent sarima_model hw_model df_monthly :
  sarima_model = None \/ hw_model = None \/ df_monthly = None ->
  model_analysis_page sarima_model hw_model df_monthly
  = ([(Main, title [Lit "Analisis & Perbandingan Model"]);
      (Main, markdown [Lit "---"]);
      (Main, warning [Lit "Model atau Data Bulanan belum termuat sepenuhnya. Silakan cek status di log."])],
     Ok tt).
Proof.
  intros Habsent. unfold model_analysis_page.
  replace (is_None sarima_model || is_None hw_model || is_None df_monthly)%bool
    with true; [reflexivity|].
  destruct sarima_model, hw_model, df_monthly; try reflexivity.
  destruct Habsent as [H|[H|H]]; discriminate H.
Qed.

Lemma forecast_page_absent sarima_model hw_model df_monthly periods clicked :
  sarima_model = None \/ hw_model = None \/ df_monthly = None ->
  forecast_page sarima_model hw_model df_monthly periods clicked
  = ([(Main, title [Lit "Uji Coba Peramalan Penjualan"]);
      (Main, markdown [Lit "---"]);
      (Main, warning [Lit "Model atau Data Bulanan belum termuat sepenuhnya. Silakan coba lagi atau pastikan file model tersedia."])],
     Ok tt).
Proof.
  intros Habsent. unfold forecast_page.
  replace (is_None sarima_model || is_None hw_model || is_None df_monthly)%bool
    with true; [reflexivity|].
  destruct sarima_model, hw_model, df_monthly; try reflexivity.
  destruct Habsent as [H|[H|H]]; discriminate H.
Qed.

(** ** The script as a whole *)

(** One run, by the results of the three loads: the loads render their
    messages, the shell its head, then the page runs, and the footer runs
    when the page has returned. *)
Lemma app_run read_csv parse_datetime pickle_load selection periods clicked
      o1 df_raw df_daily df_monthly o2 sarima_model o3 hw_model :
  load_data read_csv parse_datetime DATA_FILE
    = (o1, Ok (df_raw, df_daily, df_monthly)) ->
  load_model pickle_load SARIMA_MODEL_FILE = (o2, Ok sarima_model) ->
  load_model pickle_load HOLTWINTERS_MODEL_FILE = (o3, Ok hw_model) ->
  let rest :=
    bind (selected_page selection sarima_model hw_model df_monthly
            periods clicked)
         (fun _ => sidebar_footer df_raw) in
  app read_csv parse_datetime pickle_load selection periods clicked
  = (page_config :: o1 ++ o2 ++ o3 ++ shell_head ++ rendered rest,
     outcome rest).
Proof.
  intros H1 H2 H3 rest. unfold app.
  rewrite (bind_run (emit Main _) _ [page_config] tt eq_refl).
  rewrite (bind_run _ _ o1 _ H1). cbn beta iota.
  rewrite (bind_run _ _ o2 _ H2).
  rewrite (bind_run _ _ o3 _ H3).
  rewrite (bind_run (emit Sidebar (title _)) _ _ tt eq_refl).
  rewrite (bind_run (emit Sidebar (radio _ _)) _ _ tt eq_refl).
  fold (selected_page selection sarima_model hw_model df_monthly
          periods clicked).
  fold rest. reflexivity.
Qed.

(** The loads never raise, and their messages are errors in the main
    area. *)
Lemma load_data_run read_csv parse_datetime path :
  exists o r,
    load_data read_csv parse_datetime path = (o, Ok r)
    /\ Forall (fun el => exists msg, el = (Main, error msg)) o.
Proof.
  destruct (load_data_cases read_csv parse_datetime path)
    as [(df & d & m & _ & Hrun)|(e & msg & _ & Hrun)]; rewrite Hrun.
  - eexists _, _. split; [reflexivity|constructor].
  - eexists _, _. split; [reflexivity|]. repeat constructor. eauto.
Qed.

Lemma load_model_run pickle_load path :
  exists o r,
    load_model pickle_load path = (o, Ok r)
    /\ Forall (fun el => exists msg, el = (Main, error msg)) o.
Proof.
  destruct (load_model_cases pickle_load path)
    as [(m & _ & Hrun)|(e & msg & _ & Hrun)]; rewrite Hrun.
  - eexists _, _. split; [reflexivity|constructor].
  - eexists _, _. split; [reflexivity|]. repeat constructor. eauto.
Qed.

(** ** Pages that cannot fail *)

Lemma home_page_run :
  exists out, home_page = (out, Ok tt) /\ Forall (fun el => fst el = Main) out.
Proof. eexists. split; [reflexivity|]. repeat constructor. Qed.

(** With the monthly series absent, whatever is selected returns
    normally and renders in the main area only. *)
Lemma selected_page_without_data selection sarima_model hw_model periods clicked :
  exists out,
    selected_page selection sarima_model hw_model None periods clicked
    = (out, Ok tt)
    /\ Forall (fun el => fst el = Main) out.
Proof.
  unfold selected_page.
  destruct (String.eqb selection "Penjelasan Aplikasi");
    [apply home_page_run|].
  destruct (String.eqb selection "Analisis Model").
  { rewrite model_analysis_page_absent by auto.
    eexists. split; [reflexivity|]. repeat constructor. }
  destruct (String.eqb selection "Uji Coba & Pelatihan").
  { rewrite forecast_page_absent by auto.
    eexists. split; [reflexivity|]. repeat constructor. }
  eexists. split; [reflexivity|]. constructor.
Qed.

(** The forecast view returns normally whatever it is given. *)
Lemma forecast_page_returns sarima_model hw_model df_monthly periods clicked :
  outcome (forecast_page sarima_model hw_model df_monthly periods clicked)
  = Ok tt.
Proof.
  destruct sarima_model as [sm|];
    [|rewrite forecast_page_absent by auto; reflexivity].
  destruct hw_model as [hm|];
    [|rewrite forecast_page_absent by auto; reflexivity].
  destruct df_monthly as [monthly|];
    [|rewrite forecast_page_absent by auto; reflexivity].
  destruct clicked.
  - rewrite forecast_page_run. reflexivity.
  - rewrite forecast_page_idle. reflexivity.
Qed.

(** The forecast view renders in the main area only. *)
Lemma forecast_page_places sarima_model hw_model df_monthly periods clicked :
  Forall (fun el => fst el = Main)
    (rendered (forecast_page sarima_model hw_model df_monthly periods clicked)).
Proof.
  destruct sarima_model as [sm|];
    [|rewrite forecast_page_absent by auto; repeat constructor].
  destruct hw_model as [hm|];
    [|rewrite forecast_page_absent by auto; repeat constructor].
  destruct df_monthly as [monthly|];
    [|rewrite forecast_page_absent by auto; repeat constructor].
  destruct clicked.
  - rewrite forecast_page_run. unfold rendered. cbn [fst].
    destruct (sarima_try (Some sm) periods), (hw_try (Some hm) periods);
      repeat constructor.
  - rewrite forecast_page_idle. repeat constructor.
Qed.

(** The model analysis view never renders in the sidebar. *)
Lemma model_analysis_page_places sarima_model hw_model df_monthly :
  Forall (fun el => fst el <> Sidebar)
    (rendered (model_analysis_page sarima_model hw_model df_monthly)).
Proof.
  destruct sarima_model as [sm|];
    [|rewrite model_analysis_page_absent by auto;
      repeat constructor; discriminate].
  destruct hw_model as [hm|];
    [|rewrite model_analysis_page_absent by auto;
      repeat constructor; discriminate].
  destruct df_monthly as [monthly|];
    [|rewrite model_analysis_page_absent by auto;
      repeat constructor; discriminate].
  unfold model_analysis_page, model_analysis_body.
  rewrite sarima_metrics_run, hw_metrics_run.
  destruct (metrics_or_NA (aic sm) (bic sm) (llf sm)) as [[sa sb] sl].
  destruct (metrics_or_NA (aic hm) (bic hm) (sse hm)) as [[ha hb] hs].
  unfold getattr, fittedvalues. cbv beta iota.
  destruct (order sm), (seasonal_order sm), (model_seasonal hm),
           (index_kind_of hm);
    repeat constructor; discriminate.
Qed.

Lemma Forall_not_footer_line (out : list element) :
  Forall (fun el => fst el = Main) out ->
  forall t, ~ In (Sidebar, write t) out.
Proof.
  intros Hall t Hin. rewrite Forall_forall in Hall.
  specialize (Hall _ Hin). discriminate Hall.
Qed.

Lemma errors_in_main (out : list element) :
  Forall (fun el => exists msg, el = (Main, error msg)) out ->
  Forall (fun el => fst el = Main) out.
Proof.
  intros H. eapply Forall_impl; [|exact H]. intros el [msg ->]. reflexivity.
Qed.

End RunFacts.

(* ------------------------------------------------------------------ *)
(** * More about the left join *)
(* ------------------------------------------------------------------ *)

Module JoinFacts.
Import Calendar Python Pandas Statsmodels Streamlit App Measures Expected.
Import PandasFacts RoundFacts TableFacts.

Lemma filter_key_nil (right : list (Z * option Z)) b :
  filter (fun r => fst r =? b) right = [] -> ~ In b (map fst right).
Proof.
  intros Hf Hin. apply in_map_iff in Hin. destruct Hin as [r [Hr Hin]].
  assert (Hin' : In r (filter (fun r => fst r =? b) right)).
  { apply filter_In. split; [exact Hin|]. apply Z.eqb_eq. exact Hr. }
  rewrite Hf in Hin'. destruct Hin'.
Qed.

(** The Holt-Winters cell of a row of the join: the value of a partner
    with the same month, or missing when no partner has that month. *)
Lemma join_row_partner left right row :
  In row (join left right) ->
  (Holt_Winters_Prediksi row = None /\ ~ In (Bulan row) (map fst right))
  \/ In (Bulan row, Holt_Winters_Prediksi row) right.
Proof.
  unfold join. intros Hin. apply in_flat_map in Hin.
  destruct Hin as [[b [[p lo] hi]] [Hl Hrow]].
  destruct (filter (fun r => fst r =? b) right) as [|r0 partners] eqn:Hf.
  - destruct Hrow as [<-|[]]. left. split; [reflexivity|].
    apply filter_key_nil. exact Hf.
  - apply in_map_iff in Hrow. destruct Hrow as [[k v] [<- Hr]].
    rewrite <- Hf in Hr. apply filter_In in Hr. destruct Hr as [Hr Hk].
    simpl in Hk. apply Z.eqb_eq in Hk. subst k. right. exact Hr.
Qed.

End JoinFacts.

(* ------------------------------------------------------------------ *)
(** * The properties of the specification *)
(* ------------------------------------------------------------------ *)

Import Calendar Python Pandas Statsmodels Streamlit App Measures Samples Expected.
Import Int64Facts PandasFacts LoadFacts ForecastFacts RoundFacts TableFacts.
Import AnalysisFacts ShellFacts.
Import FrameFacts SeriesFacts RunFacts JoinFacts.
Local Open Scope string_scope.
Local Open Scope Z_scope.

(** C1, as stated, fails in the value of a day: the daily sums are sums of
    64-bit integers and wrap around.  On a file with two sales of
    [9223372036854775807] and [1] on one day, every quantity is an
    [int64], and the entry of that day is [-9223372036854775808], not the
    sum [9223372036854775808]. *)
Lemma C1_counterexample_day_sum_wraps :
  ~ (forall (read_csv : string -> result csv_frame)
            (parse_datetime : datetime_parser)
            (path : string) (df : DataFrame) (daily monthly : series),
        outcome (load_data read_csv parse_datetime path)
          = Ok (Some df, Some daily, Some monthly) ->
        int64_column df ->
        forall d v, In (d, v) daily -> v = qty_on_day d df).
Proof.
  intros H.
  assert (Hcol : int64_column
                   [{| Tanggal := Some 1672531200000000000;
                       Qty := 9223372036854775807 |};
                    {| Tanggal := Some 1672531200000000000; Qty := 1 |}]).
  { repeat constructor; cbn [Qty]; unfold int64_min, int64_max; lia. }
  specialize (H (read_from [(DATA_FILE, overflowing_day)]) IsoDate.parser
                DATA_FILE _ [(19358, -9223372036854775808)]
                [(24276, -9223372036854775808)]
                ltac:(vm_compute; reflexivity) Hcol
                19358 (-9223372036854775808) (or_introl eq_refl)).
  vm_compute in H. discriminate H.
Qed.

(** C1, amended.  When [load_data] succeeds on a file whose quantities are
    64-bit integers and whose dated rows span the days [d0 .. d1], the
    daily series has exactly [d1 - d0 + 1] entries, its labels are the
    consecutive days [d0, d0 + 1, ..., d1] in ascending order, the value
    of each day is the 64-bit sum of [Qty] over the rows dated on that
    day, which is the sum itself whenever the sum is an [int64], and a day
    without such a row carries zero. *)
Theorem C1_daily_series_gap_free
    (read_csv : string -> result csv_frame)
    (parse_datetime : datetime_parser)
    (path : string) (df : DataFrame) (daily monthly : series) (t0 t1 : Z) :
  outcome (load_data read_csv parse_datetime path)
    = Ok (Some df, Some daily, Some monthly) ->
  int64_column df ->
  Tanggal_min df = Some t0 ->
  Tanggal_max df = Some t1 ->
  let d0 := day_of_timestamp t0 in
  let d1 := day_of_timestamp t1 in
  Z.of_nat (List.length daily) = d1 - d0 + 1
  /\ map fst daily = zrange d0 (Z.to_nat (d1 - d0 + 1))
  /\ ascending daily
  /\ (forall d v, In (d, v) daily ->
        v = wrap64 (qty_on_day d df)
        /\ (in_int64 (qty_on_day d df) -> v = qty_on_day d df))
  /\ (forall d, d0 <= d <= d1 -> ~ has_row_on_day d df -> In (d, 0) daily).
Proof.
  intros Hload _ Hmin Hmax d0 d1.
  apply load_data_loaded, load_data_try_series in Hload.
  destruct Hload as [-> _].
  assert (Hle : d0 <= d1).
  { apply CalendarFacts.day_of_timestamp_mono.
    exact (min_le_max df t0 t1 Hmin Hmax). }
  rewrite (daily_of_spec df t0 t1 Hmin Hmax). fold d0 d1.
  repeat split.
  - rewrite length_map, zrange_length. lia.
  - rewrite map_map. simpl. apply map_id.
  - apply ascending_of_keys, zrange_ascending.
  - apply in_map_iff in H. destruct H as [x [Hx _]].
    injection Hx as -> <-. reflexivity.
  - intros Hfit. apply in_map_iff in H. destruct H as [x [Hx _]].
    injection Hx as -> <-. apply wrap64_small, Hfit.
  - intros d Hd Hno. apply in_map_iff. exists d. split.
    + rewrite (qty_on_day_none d df Hno). reflexivity.
    + apply in_zrange. lia.
Qed.

Lemma C1_daily_series_gap_free_witness :
  let df := [{| Tanggal := Some 1672531200000000000; Qty := 3 |};
             {| Tanggal := Some 1672704000000000000; Qty := 5 |}] in
  let daily := [(19358, 3); (19359, 0); (19360, 5)] in
  Z.of_nat (List.length daily) = 19360 - 19358 + 1
  /\ map fst daily = zrange 19358 3
  /\ ascending daily
  /\ (forall d v, In (d, v) daily ->
        v = wrap64 (qty_on_day d df)
        /\ (in_int64 (qty_on_day d df) -> v = qty_on_day d df))
  /\ (forall d, 19358 <= d <= 19360 -> ~ has_row_on_day d df ->
        In (d, 0) daily).
Proof.
  refine (C1_daily_series_gap_free
            (read_from [(DATA_FILE, two_sales)]) IsoDate.parser DATA_FILE
            [{| Tanggal := Some 1672531200000000000; Qty := 3 |};
             {| Tanggal := Some 1672704000000000000; Qty := 5 |}]
            [(19358, 3); (19359, 0); (19360, 5)]
            [(24276, 8)] 1672531200000000000 1672704000000000000
            eq_refl _ eq_refl eq_refl).
  repeat constructor; cbn [Qty]; unfold int64_min, int64_max; lia.
Defined.

(** C2, as stated, fails where a month does not fit: on a file with three
    sales of [2^62] on three days of one month, every daily entry is an
    [int64], and the entry of the month is the wrapped sum [-2^62], not
    the sum [3 * 2^62] of its days. *)
Lemma C2_counterexample_month_sum_wraps :
  ~ (forall (read_csv : string -> result csv_frame)
            (parse_datetime : datetime_parser)
            (path : string) (df : DataFrame) (daily monthly : series),
        outcome (load_data read_csv parse_datetime path)
          = Ok (Some df, Some daily, Some monthly) ->
        int64_column df ->
        forall mo v, In (mo, v) monthly -> v = days_of_month_sum mo daily).
Proof.
  intros H.
  assert (Hcol : int64_column
                   [{| Tanggal := Some 1672531200000000000;
                       Qty := 4611686018427387904 |};
                    {| Tanggal := Some 1672617600000000000;
                       Qty := 4611686018427387904 |};
                    {| Tanggal := Some 1672704000000000000;
                       Qty := 4611686018427387904 |}]).
  { repeat constructor; cbn [Qty]; unfold int64_min, int64_max; lia. }
  specialize (H (read_from [(DATA_FILE, overflowing_month)]) IsoDate.parser
                DATA_FILE _
                [(19358, 4611686018427387904); (19359, 4611686018427387904);
                 (19360, 4611686018427387904)]
                [(24276, -4611686018427387904)]
                ltac:(vm_compute; reflexivity) Hcol
                24276 (-4611686018427387904) (or_introl eq_refl)).
  vm_compute in H. discriminate H.
Qed.

(** C2, amended.  When [load_data] succeeds on a file whose quantities are
    64-bit integers, every entry of the monthly series is the 64-bit sum
    of the entries of the daily series whose day lies in that month, which
    is the sum itself whenever the sum is an [int64]; every day of the
    daily series has its month in the monthly series, the months are in
    ascending order, and [Series.sum()] gives the same on the two series:
    the monthly sums lose and invent nothing but what wraps. *)
Theorem C2_monthly_entries_sum_their_days
    (read_csv : string -> result csv_frame)
    (parse_datetime : datetime_parser)
    (path : string) (df : DataFrame) (daily monthly : series) :
  outcome (load_data read_csv parse_datetime path)
    = Ok (Some df, Some daily, Some monthly) ->
  int64_column df ->
  (forall mo v, In (mo, v) monthly ->
     v = wrap64 (days_of_month_sum mo daily)
     /\ (in_int64 (days_of_month_sum mo daily) ->
         v = days_of_month_sum mo daily))
  /\ (forall d v, In (d, v) daily -> exists w, In (month_of_day d, w) monthly)
  /\ ascending monthly
  /\ total monthly = total daily.
Proof.
  intros Hload _.
  apply load_data_loaded, load_data_try_series in Hload.
  destruct Hload as [-> ->].
  pose proof (daily_month_sorted df) as Hs.
  unfold monthly_of. repeat split.
  - exact (resample_sum_entries _ _ _ _ Hs H).
  - intros Hfit. rewrite (resample_sum_entries _ _ _ _ Hs H).
    apply wrap64_small, Hfit.
  - intros d v Hin. exact (resample_sum_covers _ _ (d, v) Hs Hin).
  - apply resample_sum_ascending, Hs.
  - apply resample_sum_total, Hs.
Qed.

Lemma C2_monthly_entries_sum_their_days_witness :
  let daily := [(19387, 4); (19388, 9); (19389, 0); (19390, 1)] in
  let monthly := [(24276, 13); (24277, 1)] in
  (forall mo v, In (mo, v) monthly ->
     v = wrap64 (days_of_month_sum mo daily)
     /\ (in_int64 (days_of_month_sum mo daily) ->
         v = days_of_month_sum mo daily))
  /\ (forall d v, In (d, v) daily -> exists w, In (month_of_day d, w) monthly)
  /\ ascending monthly
  /\ total monthly = total daily.
Proof.
  refine (C2_monthly_entries_sum_their_days
            (read_from [(DATA_FILE, month_turn)]) IsoDate.parser DATA_FILE
            [{| Tanggal := Some 1675123200000000000; Qty := 2 |};
             {| Tanggal := Some 1675036800000000000; Qty := 4 |};
             {| Tanggal := Some 1675296000000000000; Qty := 1 |};
             {| Tanggal := Some 1675123200000000000; Qty := 7 |}]
            [(19387, 4); (19388, 9); (19389, 0); (19390, 1)]
            [(24276, 13); (24277, 1)] eq_refl _).
  repeat constructor; cbn [Qty]; unfold int64_min, int64_max; lia.
Defined.




(** C7.  Whatever the path: a missing file makes [load_data] return three
    [None] after one error message that names the path; a date that
    cannot be read, a missing column, and any other fault of the body,
    make it return three [None] after one error message; [load_model]
    returns [None] after one error message when the artifact is missing or
    cannot be loaded; and neither function ever ends with an exception. *)
Theorem C7_load_failures_are_absorbed
    (read_csv : string -> result csv_frame)
    (parse_datetime : datetime_parser)
    (pickle_load : string -> result Model)
    (path : string) :
  (forall msg,
      read_csv path = Raise (FileNotFoundError msg) ->
      load_data read_csv parse_datetime path
      = ([(Main, error [Lit "File data tidak ditemukan: "; Lit path])],
         Ok (None, None, None)))
  /\ (forall raw r s,
         read_csv path = Ok raw ->
         In r (csv_rows raw) -> Tanggal_text r = Some s ->
         reader_of parse_datetime raw s = None ->
         exists msg,
           load_data read_csv parse_datetime path
           = ([(Main, error msg)], Ok (None, None, None)))
  /\ (forall raw,
         read_csv path = Ok raw ->
         has_column raw "Tanggal" = false \/ has_column raw "Qty" = false ->
         exists msg,
           load_data read_csv parse_datetime path
           = ([(Main, error msg)], Ok (None, None, None)))
  /\ (forall e,
         load_data_try read_csv parse_datetime path = Raise e ->
         exists msg,
           load_data read_csv parse_datetime path
           = ([(Main, error msg)], Ok (None, None, None)))
  /\ (forall e,
         pickle_load path = Raise e ->
         exists msg,
           load_model pickle_load path = ([(Main, error msg)], Ok None))
  /\ (forall e, outcome (load_data read_csv parse_datetime path) <> Raise e)
  /\ (forall e, outcome (load_model pickle_load path) <> Raise e).
Proof.
  assert (Hany : forall e,
             load_data_try read_csv parse_datetime path = Raise e ->
             exists msg,
               load_data read_csv parse_datetime path
               = ([(Main, error msg)], Ok (None, None, None))).
  { intros e He.
    destruct (load_data_cases read_csv parse_datetime path)
      as [(df & d & m & Htry & _)|(e' & msg & _ & Hrun)].
    - congruence.
    - exists msg. exact Hrun. }
  split; [|split; [|split; [|split; [|split; [|split]]]]].
  - intros msg Hmissing.
    unfold load_data, load_data_try, try_except, bind, lift, ret, emit, rbind.
    rewrite Hmissing. reflexivity.
  - intros raw r s Hraw Hin Hs Hp.
    destruct (load_data_try_unreadable read_csv parse_datetime path raw r s
                Hraw Hin Hs Hp) as [e He].
    exact (Hany e He).
  - intros raw Hraw Hno.
    destruct (load_data_try_no_column read_csv parse_datetime path raw
                Hraw Hno) as [e He].
    exact (Hany e He).
  - exact Hany.
  - intros e He.
    destruct (load_model_cases pickle_load path)
      as [(m & Hm & _)|(e' & msg & _ & Hrun)].
    + congruence.
    + exists msg. exact Hrun.
  - intros e.
    destruct (load_data_cases read_csv parse_datetime path)
      as [(df & d & m & _ & Hrun)|(e' & msg & _ & Hrun)];
      rewrite Hrun; discriminate.
  - intros e.
    destruct (load_model_cases pickle_load path)
      as [(m & _ & Hrun)|(e' & msg & _ & Hrun)];
      rewrite Hrun; discriminate.
Qed.

Lemma C7_load_failures_are_absorbed_witness :
  load_data (read_from []) IsoDate.parser DATA_FILE
  = ([(Main, error [Lit "File data tidak ditemukan: "; Lit DATA_FILE])],
     Ok (None, None, None))
  /\ (exists msg,
         load_data (read_from [(DATA_FILE, bad_date)]) IsoDate.parser DATA_FILE
         = ([(Main, error msg)], Ok (None, None, None)))
  /\ (exists msg,
         load_data (read_from [(DATA_FILE, without_Qty)]) IsoDate.parser
           DATA_FILE
         = ([(Main, error msg)], Ok (None, None, None)))
  /\ (exists msg,
         load_model (unpickle_from []) SARIMA_MODEL_FILE
         = ([(Main, error msg)], Ok None)).
Proof.
  split; [|split; [|split]].
  - eapply (proj1 (C7_load_failures_are_absorbed
                     (read_from []) IsoDate.parser (unpickle_from [])
                     DATA_FILE)).
    reflexivity.
  - eapply (proj1 (proj2 (C7_load_failures_are_absorbed
                            (read_from [(DATA_FILE, bad_date)]) IsoDate.parser
                            (unpickle_from []) DATA_FILE))
              bad_date (csv "yesterday" 5) "yesterday").
    + reflexivity.
    + simpl. right. left. reflexivity.
    + reflexivity.
    + reflexivity.
  - eapply (proj1 (proj2 (proj2 (C7_load_failures_are_absorbed
                            (read_from [(DATA_FILE, without_Qty)])
                            IsoDate.parser (unpickle_from []) DATA_FILE)))
              without_Qty).
    + reflexivity.
    + right. reflexivity.
  - eapply (proj1 (proj2 (proj2 (proj2 (proj2
              (C7_load_failures_are_absorbed
                 (read_from []) IsoDate.parser
                 (unpickle_from []) SARIMA_MODEL_FILE)))))).
    reflexivity.
Defined.

(** C8.  When a model or the monthly series is [None], the model analysis
    view and the forecast view render their title, the rule and the
    warning, and return normally: nothing of the absent object is read, no
    chart and no table is rendered, and no exception leaves the view. *)
Theorem C8_views_short_circuit_on_absent_inputs
    (sarima_model hw_model : option Model) (df_monthly : option series)
    (periods : Z) (clicked : bool) :
  sarima_model = None \/ hw_model = None \/ df_monthly = None ->
  model_analysis_page sarima_model hw_model df_monthly
  = ([(Main, title [Lit "Analisis & Perbandingan Model"]);
      (Main, markdown [Lit "---"]);
      (Main, warning [Lit "Model atau Data Bulanan belum termuat sepenuhnya. Silakan cek status di log."])],
     Ok tt)
  /\ forecast_page sarima_model hw_model df_monthly periods clicked
     = ([(Main, title [Lit "Uji Coba Peramalan Penjualan"]);
         (Main, markdown [Lit "---"]);
         (Main, warning [Lit "Model atau Data Bulanan belum termuat sepenuhnya. Silakan coba lagi atau pastikan file model tersedia."])],
        Ok tt).
Proof.
  intros Habsent.
  assert (Hguard :
            is_None sarima_model || is_None hw_model || is_None df_monthly
            = true).
  { destruct Habsent as [ -> | [ -> | -> ] ]; simpl.
    - reflexivity.
    - destruct sarima_model; reflexivity.
    - destruct sarima_model, hw_model; reflexivity. }
  unfold model_analysis_page, forecast_page. rewrite Hguard.
  split; reflexivity.
Qed.

Lemma C8_views_short_circuit_on_absent_inputs_witness :
  outcome (model_analysis_page (Some (fitted_model april_2025)) None
             (Some [(april_2025, 8)])) = Ok tt
  /\ outcome (forecast_page None (Some (fitted_model april_2025)) None 3 true)
     = Ok tt.
Proof.
  split.
  - rewrite (proj1 (C8_views_short_circuit_on_absent_inputs
                      (Some (fitted_model april_2025)) None
                      (Some [(april_2025, 8)]) 3 true
                      (or_intror (or_introl eq_refl)))).
    reflexivity.
  - rewrite (proj2 (C8_views_short_circuit_on_absent_inputs
                      None (Some (fitted_model april_2025)) None 3 true
                      (or_introl eq_refl))).
    reflexivity.
Defined.

(** C4, as stated, fails: when the SARIMA forecast raises and the
    Holt-Winters one succeeds, no table is rendered. *)
Lemma C4_counterexample_one_failure_no_table :
  ~ (forall (sm hm : Model) (monthly : series) (periods : Z),
        1 <= periods <= 12 ->
        (exists e, sarima_try (Some sm) periods = Raise e) ->
        (exists h, hw_try (Some hm) periods = Ok h) ->
        exists rows,
          In (Main, dataframe rows)
             (rendered (forecast_page (Some sm) (Some hm) (Some monthly)
                          periods true))).
Proof.
  intros H.
  destruct (H (failing_forecast (fitted_model april_2025))
              (fitted_model april_2025) [(april_2025, 8)] 3)
    as [rows Hin].
  - lia.
  - eexists. reflexivity.
  - eexists. reflexivity.
  - rewrite forecast_page_run in Hin. vm_compute in Hin.
    repeat (destruct Hin as [Hin|Hin]; [discriminate Hin|]).
    exact Hin.
Qed.

(** C4, amended.  With both models and the monthly series present and the
    button pressed, the forecast view always returns normally.  A failing
    forecast of one model is reported by an error message for that model.
    The combined table and the chart are rendered when both forecasts
    succeed, and only then: when one of them fails, or both, no table and
    no chart is rendered. *)
Theorem C4_table_needs_both_forecasts
    (sm hm : Model) (monthly : series) (periods : Z) :
  let run := forecast_page (Some sm) (Some hm) (Some monthly) periods true in
  outcome run = Ok tt
  /\ (forall e, sarima_try (Some sm) periods = Raise e ->
        In (Main, error [Lit "Gagal melakukan peramalan SARIMA: "; ExnText e])
           (rendered run))
  /\ (forall e, hw_try (Some hm) periods = Raise e ->
        In (Main, error [Lit "Gagal melakukan peramalan Holt-Winters: ";
                         ExnText e])
           (rendered run))
  /\ (forall s h,
        sarima_try (Some sm) periods = Ok s ->
        hw_try (Some hm) periods = Ok h ->
        In (Main, dataframe (join (sarima_results s) (hw_results h)))
           (rendered run)
        /\ In (Main, pyplot (forecast_figure periods (to_timestamp monthly) s h))
              (rendered run))
  /\ ((exists e, sarima_try (Some sm) periods = Raise e)
      \/ (exists e, hw_try (Some hm) periods = Raise e) ->
      (forall rows, ~ In (Main, dataframe rows) (rendered run))
      /\ (forall fig, ~ In (Main, pyplot fig) (rendered run))).
Proof.
  intros run. unfold run. rewrite forecast_page_run.
  unfold outcome, rendered. simpl fst. simpl snd.
  split; [reflexivity|].
  destruct (sarima_try (Some sm) periods) as [s|es],
           (hw_try (Some hm) periods) as [h|eh];
    (split; [intros e He; try discriminate He; injection He as <-;
             simpl; tauto|]);
    (split; [intros e He; try discriminate He; injection He as <-;
             simpl; tauto|]);
    (split; [intros s' h' Hs Hh; try discriminate Hs; try discriminate Hh;
             injection Hs as <-; injection Hh as <-; simpl; tauto|]).
  - intros [[e He]|[e He]]; discriminate He.
  - intros _. split; intros x Hin; simpl in Hin;
      repeat (destruct Hin as [Hin|Hin]; [discriminate Hin|]); exact Hin.
  - intros _. split; intros x Hin; simpl in Hin;
      repeat (destruct Hin as [Hin|Hin]; [discriminate Hin|]); exact Hin.
  - intros _. split; intros x Hin; simpl in Hin;
      repeat (destruct Hin as [Hin|Hin]; [discriminate Hin|]); exact Hin.
Qed.

Lemma C4_table_needs_both_forecasts_witness :
  let run :=
    forecast_page (Some (fitted_model april_2025))
      (Some (failing_forecast (fitted_model april_2025)))
      (Some [(april_2025, 8)]) 3 true in
  (forall rows, ~ In (Main, dataframe rows) (rendered run))
  /\ (forall fig, ~ In (Main, pyplot fig) (rendered run)).
Proof.
  apply (C4_table_needs_both_forecasts
           (fitted_model april_2025)
           (failing_forecast (fitted_model april_2025))
           [(april_2025, 8)] 3).
  right. eexists. reflexivity.
Defined.

(** C3, as stated, fails in its last part: the forecast starts after the
    last month the SARIMA model was fitted on, whatever the monthly series
    read from the data file ends with.  A model fitted up to April 2025,
    next to a data file that runs to June 2025, forecasts from May 2025. *)
Lemma C3_counterexample_forecast_follows_the_model :
  ~ (forall (sm hm : Model) (monthly : series) (periods : Z)
            (s : sarima_outcome) (h : hw_outcome) (last_hist : Z),
        1 <= periods <= 12 ->
        sarima_try (Some sm) periods = Ok s ->
        hw_try (Some hm) periods = Ok h ->
        last_label monthly = Some last_hist ->
        exists rest,
          map Bulan (join (sarima_results s) (hw_results h))
          = (last_hist + 1) :: rest).
Proof.
  intros H.
  destruct (H (fitted_model april_2025) (fitted_model april_2025)
              [(april_2025, 8); (april_2025 + 1, 9); (june_2025, 7)] 3
              _ _ june_2025 ltac:(lia) eq_refl eq_refl eq_refl)
    as [rest Hrest].
  vm_compute in Hrest. discriminate Hrest.
Qed.

(** C3, amended.  For a horizon [periods] between 1 and 12, whenever the
    forecast view renders the combined table, the table has exactly
    [periods] rows and its month keys are the consecutive months that
    follow the last month the SARIMA model was fitted on: strictly
    increasing, contiguous, the first one month after that month; the
    first month is one month after the last month of the historical
    monthly series when that is the month the model was fitted up to.
    The table is rendered when the button is pressed and both [try]
    blocks run to their end, forecast call, change of index and cast to
    integers included, and only then. *)
Theorem C3_forecast_table_months
    (sm hm : Model) (monthly : series) (periods : Z) :
  1 <= periods <= 12 ->
  (forall (clicked : bool) (table : list forecast_row),
      In (Main, dataframe table)
         (rendered (forecast_page (Some sm) (Some hm) (Some monthly) periods
                      clicked)) ->
      Z.of_nat (List.length table) = periods
      /\ map Bulan table = zrange (train_end sm + 1) (Z.to_nat periods)
      /\ StronglySorted Z.lt (map Bulan table)
      /\ hd_error (map Bulan table) = Some (train_end sm + 1)
      /\ (forall last_hist,
            last_label monthly = Some last_hist -> train_end sm = last_hist ->
            hd_error (map Bulan table) = Some (last_hist + 1))
      /\ clicked = true
      /\ exists s h,
           sarima_try (Some sm) periods = Ok s
           /\ hw_try (Some hm) periods = Ok h
           /\ table = join (sarima_results s) (hw_results h))
  /\ (forall s h,
        sarima_try (Some sm) periods = Ok s ->
        hw_try (Some hm) periods = Ok h ->
        In (Main, dataframe (join (sarima_results s) (hw_results h)))
           (rendered (forecast_page (Some sm) (Some hm) (Some monthly) periods
                        true))).
Proof.
  intros Hp. split.
  - intros clicked table Hin.
    destruct (forecast_table_origin sm hm monthly periods clicked table Hin)
      as (Hc & s & h & Hs & Hh & Htable).
    assert (Hkeys : map Bulan table
                    = zrange (train_end sm + 1) (Z.to_nat periods)).
    { rewrite Htable.
      destruct (sarima_try_ok sm periods s Hs) as [-> _].
      destruct (hw_try_ok hm periods h Hh) as [-> _].
      rewrite join_keys.
      - rewrite sarima_rows_keys. apply forecast_months_range.
      - rewrite hw_rows_keys. apply forecast_months_NoDup. }
    assert (Hhd : hd_error (map Bulan table) = Some (train_end sm + 1)).
    { rewrite Hkeys. destruct (Z.to_nat periods) as [|n] eqn:Hn; [lia|].
      rewrite zrange_S. reflexivity. }
    split; [|split; [|split; [|split; [|split; [|split]]]]].
    + rewrite <- (length_map Bulan), Hkeys, zrange_length. lia.
    + exact Hkeys.
    + rewrite Hkeys. apply zrange_ascending.
    + exact Hhd.
    + intros last_hist _ <-. exact Hhd.
    + exact Hc.
    + exists s, h. auto.
  - intros s h Hs Hh.
    rewrite forecast_page_run, Hs, Hh. unfold rendered. cbn [fst].
    apply in_or_app. right. right. left. reflexivity.
Qed.

Lemma C3_forecast_table_months_witness :
  let table :=
    join (sarima_rows (fitted_model april_2025) 3)
         (hw_rows (fitted_model april_2025) 3) in
  Z.of_nat (List.length table) = 3
  /\ map Bulan table = zrange (april_2025 + 1) 3.
Proof.
  intros table.
  pose proof (C3_forecast_table_months
                (fitted_model april_2025) (fitted_model april_2025)
                [(april_2025, 8)] 3 ltac:(lia)) as [Hany Hshown].
  destruct (Hany true table (Hshown _ _ eq_refl eq_refl))
    as (Hlen & Hkeys & _).
  split; [exact Hlen|exact Hkeys].
Defined.

(** C5, as stated, fails in two ways.  The chart rendered under the table
    plots the raw values of the models, so fractional quantities are
    rendered: a model that predicts [1/2] for the first step has [1/2] on
    its line.  And a shown integer is not the rounded raw value when that
    lies beyond the 64-bit range: a point estimate of [10^19] is shown as
    [-9223372036854775808]. *)
Lemma C5_counterexample_raw_values_and_range :
  ~ (forall (sm hm : Model) (monthly : series) (periods : Z)
            (fig : figure) (line : plot_line) (q : Q),
        1 <= periods <= 12 ->
        In (Main, pyplot fig)
           (rendered (forecast_page (Some sm) (Some hm) (Some monthly)
                        periods true)) ->
        In line (fig_lines fig) -> In (Finite q) (ys line) ->
        is_integer q)
  /\ ~ (forall (sm hm : Model) (monthly : series) (periods : Z)
               (table : list forecast_row) (row : forecast_row) (q : Q),
           1 <= periods <= 12 ->
           In (Main, dataframe table)
              (rendered (forecast_page (Some sm) (Some hm) (Some monthly)
                           periods true)) ->
           In row table ->
           Bulan row = train_end sm + 1 -> predict sm 1 = Finite q ->
           rounds_to q (SARIMA_Prediksi row)).
Proof.
  split; intros H.
  - assert (Hin : exists fig line,
               In (Main, pyplot fig)
                  (rendered (forecast_page (Some (fitted_model april_2025))
                               (Some (fitted_model april_2025))
                               (Some [(april_2025, 8)]) 3 true))
               /\ In line (fig_lines fig) /\ In (Finite (1 # 2)) (ys line)).
    { eexists _, _. split; [|split].
      - vm_compute. do 7 right. left. reflexivity.
      - right. left. reflexivity.
      - left. reflexivity. }
    destruct Hin as (fig & line & Hfig & Hline & Hy).
    destruct (H _ _ _ 3 fig line (1 # 2) ltac:(lia) Hfig Hline Hy) as [z Hz].
    unfold Qeq in Hz. cbn in Hz. lia.
  - assert (Hin : exists table row,
               In (Main, dataframe table)
                  (rendered (forecast_page
                               (Some (with_huge_forecast
                                        (fitted_model april_2025)))
                               (Some (fitted_model april_2025))
                               (Some [(april_2025, 8)]) 3 true))
               /\ In row table
               /\ Bulan row = april_2025 + 1
               /\ SARIMA_Prediksi row = -9223372036854775808).
    { eexists _, _. split; [|split; [|split]].
      - vm_compute. do 6 right. left. reflexivity.
      - left. reflexivity.
      - reflexivity.
      - reflexivity. }
    destruct Hin as (table & row & Htable & Hrow & Hb & Hv).
    destruct (H (with_huge_forecast (fitted_model april_2025)) _ _ 3
                table row (inject_Z 10000000000000000000) ltac:(lia)
                Htable Hrow Hb eq_refl) as [Hle _].
    rewrite Hv in Hle. apply Qabs_diff_half in Hle. lia.
Qed.

(** C5, amended.  Whenever the combined table is rendered, every row of
    it belongs to a step [1 <= step <= periods] of the SARIMA forecast;
    the raw point estimate and the raw bounds of that step are finite, and
    each of the three SARIMA cells is the 64-bit cast of the integer
    nearest to its raw value (the even one on a tie): that nearest integer
    itself whenever it is an [int64].  The Holt-Winters cell of the row,
    where it holds a value, is the same for the raw estimate of the
    Holt-Winters step of the same month.  The chart rendered with the
    table plots the raw values, not the rounded ones. *)
Theorem C5_displayed_values_are_rounded
    (sm hm : Model) (monthly : series) (periods : Z) (clicked : bool)
    (table : list forecast_row) :
  In (Main, dataframe table)
     (rendered (forecast_page (Some sm) (Some hm) (Some monthly) periods
                  clicked)) ->
  (forall row, In row table ->
     exists step : nat,
       (1 <= step <= Z.to_nat periods)%nat
       /\ Bulan row = train_end sm + Z.of_nat step
       /\ shown_as (predict sm step) (SARIMA_Prediksi row)
       /\ shown_as (predict_lower sm step) (SARIMA_Batas_Bawah row)
       /\ shown_as (predict_upper sm step) (SARIMA_Batas_Atas row)
       /\ (forall z, Holt_Winters_Prediksi row = Some z ->
             exists step' : nat,
               (1 <= step' <= Z.to_nat periods)%nat
               /\ Bulan row = train_end hm + Z.of_nat step'
               /\ shown_as (predict hm step') z))
  /\ exists fig,
       In (Main, pyplot fig)
          (rendered (forecast_page (Some sm) (Some hm) (Some monthly) periods
                       clicked))
       /\ In {| line_label := "SARIMA Forecast";
                xs := map month_stamp (forecast_months sm periods);
                ys := map (predict sm) (horizon periods) |}
             (fig_lines fig)
       /\ In {| line_label := "Holt-Winters Forecast";
                xs := map month_stamp (forecast_months hm periods);
                ys := map (predict hm) (horizon periods) |}
             (fig_lines fig)
       /\ In {| band_label := "SARIMA 95% Confidence Interval";
                band_xs := map month_stamp (forecast_months sm periods);
                band_lower := map (predict_lower sm) (horizon periods);
                band_upper := map (predict_upper sm) (horizon periods) |}
             (fig_bands fig).
Proof.
  intros Hin.
  destruct (forecast_table_origin sm hm monthly periods clicked table Hin)
    as (-> & s & h & Hs & Hh & ->).
  destruct (sarima_try_ok sm periods s Hs) as [Hsr Hsfin].
  destruct (hw_try_ok hm periods h Hh) as [Hhr Hhfin].
  split.
  - intros row Hrow. rewrite Hsr, Hhr in Hrow.
    apply join_row_origin in Hrow. destruct Hrow as [Hleft Hright].
    unfold sarima_rows in Hleft. apply in_map_iff in Hleft.
    destruct Hleft as [step [Heq Hstep]].
    injection Heq as Hb Hp Hlo Hhi.
    rewrite Forall_forall in Hsfin.
    destruct (Hsfin step Hstep) as (Hfp & Hfl & Hfu).
    exists step. apply in_horizon in Hstep.
    split; [exact Hstep|]. split; [symmetry; exact Hb|].
    split; [rewrite <- Hp; apply cell_shown, Hfp|].
    split; [rewrite <- Hlo; apply cell_shown, Hfl|].
    split; [rewrite <- Hhi; apply cell_shown, Hfu|].
    intros z Hz. destruct Hright as [Hnone|Hin']; [congruence|].
    rewrite Hz in Hin'. unfold hw_rows in Hin'. apply in_map_iff in Hin'.
    destruct Hin' as [step' [Heq' Hstep']]. injection Heq' as Hb' Hz'.
    rewrite Forall_forall in Hhfin. specialize (Hhfin step' Hstep').
    exists step'. apply in_horizon in Hstep'.
    split; [exact Hstep'|]. split; [symmetry; exact Hb'|].
    rewrite <- Hz'. apply cell_shown, Hhfin.
  - exists (forecast_figure periods (to_timestamp monthly) s h).
    destruct (sarima_try_raw sm periods s Hs) as [Hsf Hsc].
    pose proof (hw_try_raw hm periods h Hh) as Hhf.
    split.
    + rewrite forecast_page_run, Hs, Hh. unfold rendered. cbn [fst].
      apply in_or_app. right. right. right. left. reflexivity.
    + unfold forecast_figure. cbn [fig_lines fig_bands].
      rewrite Hsf, Hsc, Hhf. cbn [fst snd].
      split; [right; left; reflexivity|].
      split; [right; right; left; reflexivity|left; reflexivity].
Qed.

Lemma C5_displayed_values_are_rounded_witness :
  exists step : nat,
    (1 <= step <= 3)%nat
    /\ april_2025 + 2 = april_2025 + Z.of_nat step
    /\ shown_as (predict (fitted_model april_2025) step) 1
    /\ shown_as (predict_lower (fitted_model april_2025) step) 1
    /\ shown_as (predict_upper (fitted_model april_2025) step) 7.
Proof.
  assert (Hin : In (Main,
                    dataframe
                      (join (sarima_rows (fitted_model april_2025) 3)
                            (hw_rows (fitted_model april_2025) 3)))
                   (rendered (forecast_page (Some (fitted_model april_2025))
                                (Some (fitted_model april_2025))
                                (Some [(april_2025, 8)]) 3 true))).
  { vm_compute. do 6 right. left. reflexivity. }
  destruct (proj1 (C5_displayed_values_are_rounded
                     (fitted_model april_2025) (fitted_model april_2025)
                     [(april_2025, 8)] 3 true _ Hin)
              {| Bulan := april_2025 + 2; SARIMA_Prediksi := 1;
                 SARIMA_Batas_Bawah := 1; SARIMA_Batas_Atas := 7;
                 Holt_Winters_Prediksi := Some 1 |})
    as (step & H1 & H2 & H3 & H4 & H5 & _).
  { vm_compute. right. left. reflexivity. }
  exists step. auto.
Defined.




(** C9, at a file whose only row has a blank date cell.  The data loads
    (the raw frame is there, the two series are empty), the home page is
    shown, the footer writes the count of records, and the line with the
    date range raises instead of being written: the run ends with an
    uncaught [ValueError]. *)
Theorem C9_footer_raises_without_dates :
  let read_csv := read_from [(DATA_FILE, only_blank_date)] in
  let run :=
    app read_csv IsoDate.parser (unpickle_from []) "Penjelasan Aplikasi" 3
        false in
  load_data read_csv IsoDate.parser DATA_FILE
  = ([], Ok (Some [{| Tanggal := None; Qty := 5 |}], Some [], Some []))
  /\ outcome run = Raise (ValueError "NaTType does not support strftime")
  /\ In (Sidebar, write [Lit "Data Transaksi: "; FmtThousands 1; Lit " baris"])
        (rendered run)
  /\ forall a b,
       ~ In (Sidebar, write [Lit "Periode Data: "; YearMonth a; Lit " s/d ";
                             YearMonth b])
            (rendered run).
Proof.
  intros read_csv run.
  split; [vm_compute; reflexivity|].
  split; [vm_compute; reflexivity|].
  split.
  - vm_compute. do 17 right. left. reflexivity.
  - intros a b Hin. vm_compute in Hin.
    repeat (destruct Hin as [Hin|Hin]; [discriminate Hin|]).
    exact Hin.
Qed.

(* ------------------------------------------------------------------ *)
(** * Further properties of the script *)
(* ------------------------------------------------------------------ *)





(** X3.  A file that loads without a single dated row (an empty file, or
    one whose date cells are all blank) gives an empty daily series and an
    empty monthly series. *)
Theorem X3_undated_file_gives_empty_series
    (read_csv : string -> result csv_frame)
    (parse_datetime : datetime_parser) (path : string)
    (df : DataFrame) (daily monthly : series) :
  outcome (load_data read_csv parse_datetime path)
    = Ok (Some df, Some daily, Some monthly) ->
  (forall r, In r df -> Tanggal r = None) ->
  daily = [] /\ monthly = [].
Proof.
  intros Hload Hnone.
  apply load_data_loaded, load_data_try_series in Hload.
  destruct Hload as [-> ->].
  rewrite (daily_of_no_dates df (Tanggal_min_undated df Hnone)).
  split; reflexivity.
Qed.

Lemma X3_undated_file_gives_empty_series_witness :
  ([] : series) = [] /\ ([] : series) = [].
Proof.
  apply (X3_undated_file_gives_empty_series
           (read_from [(DATA_FILE, only_blank_date)]) IsoDate.parser DATA_FILE
           [{| Tanggal := None; Qty := 5 |}] [] []
           ltac:(vm_compute; reflexivity)).
  intros r [<-|[]]. reflexivity.
Defined.

(** X4.  When a file whose quantities are 64-bit integers loads with
    dated rows from [t0] to [t1], the monthly series has one entry for
    every calendar month from the month of [t0] to the month of [t1], in
    order and without a gap, and the value of each month is the 64-bit
    sum of [Qty] over the raw rows dated in that month: the sum itself
    whenever it is an [int64], zero for a month without a row. *)
Theorem X4_monthly_series_month_by_month
    (read_csv : string -> result csv_frame)
    (parse_datetime : datetime_parser) (path : string)
    (df : DataFrame) (daily monthly : series) (t0 t1 : Z) :
  outcome (load_data read_csv parse_datetime path)
    = Ok (Some df, Some daily, Some monthly) ->
  int64_column df ->
  Tanggal_min df = Some t0 ->
  Tanggal_max df = Some t1 ->
  let m0 := month_of_timestamp t0 in
  let m1 := month_of_timestamp t1 in
  m0 <= m1
  /\ map fst monthly = zrange m0 (Z.to_nat (m1 - m0 + 1))
  /\ Z.of_nat (List.length monthly) = m1 - m0 + 1
  /\ (forall mo v, In (mo, v) monthly ->
        v = wrap64 (qty_in_month mo df)
        /\ (in_int64 (qty_in_month mo df) -> v = qty_in_month mo df))
  /\ (forall mo, m0 <= mo <= m1 ->
        In (mo, wrap64 (qty_in_month mo df)) monthly).
Proof.
  intros Hload _ Hmin Hmax m0 m1.
  apply load_data_loaded, load_data_try_series in Hload.
  destruct Hload as [-> ->].
  assert (Hle : m0 <= m1).
  { apply CalendarFacts.month_of_timestamp_mono.
    exact (min_le_max df t0 t1 Hmin Hmax). }
  rewrite (monthly_of_spec df t0 t1 Hmin Hmax). fold m0 m1.
  split; [exact Hle|]. split; [|split; [|split]].
  - rewrite map_map. cbn [fst]. apply map_id.
  - rewrite length_map, zrange_length. lia.
  - intros mo v Hin. apply in_map_iff in Hin.
    destruct Hin as [x [Hx _]]. injection Hx as -> <-.
    split; [reflexivity|]. intros Hfit. apply wrap64_small, Hfit.
  - intros mo Hmo. apply in_map_iff. exists mo. split; [reflexivity|].
    apply in_zrange. lia.
Qed.

Lemma X4_monthly_series_month_by_month_witness :
  let df := [{| Tanggal := Some 1675123200000000000; Qty := 2 |};
             {| Tanggal := Some 1675036800000000000; Qty := 4 |};
             {| Tanggal := Some 1675296000000000000; Qty := 1 |};
             {| Tanggal := Some 1675123200000000000; Qty := 7 |}] in
  let monthly := [(24276, 13); (24277, 1)] in
  24276 <= 24277
  /\ map fst monthly = zrange 24276 2
  /\ Z.of_nat (List.length monthly) = 24277 - 24276 + 1
  /\ (forall mo v, In (mo, v) monthly ->
        v = wrap64 (qty_in_month mo df)
        /\ (in_int64 (qty_in_month mo df) -> v = qty_in_month mo df))
  /\ (forall mo, 24276 <= mo <= 24277 ->
        In (mo, wrap64 (qty_in_month mo df)) monthly).
Proof.
  refine (X4_monthly_series_month_by_month
            (read_from [(DATA_FILE, month_turn)]) IsoDate.parser DATA_FILE
            [{| Tanggal := Some 1675123200000000000; Qty := 2 |};
             {| Tanggal := Some 1675036800000000000; Qty := 4 |};
             {| Tanggal := Some 1675296000000000000; Qty := 1 |};
             {| Tanggal := Some 1675123200000000000; Qty := 7 |}]
            [(19387, 4); (19388, 9); (19389, 0); (19390, 1)]
            [(24276, 13); (24277, 1)]
            1675036800000000000 1675296000000000000
            ltac:(vm_compute; reflexivity) _
            ltac:(vm_compute; reflexivity) ltac:(vm_compute; reflexivity)).
  repeat constructor; cbn [Qty]; unfold int64_min, int64_max; lia.
Defined.

(** X5.  When the file loads with dated rows, the months the sidebar
    footer writes as the period of the data are the first and the last
    label of the monthly series, and the count it writes is the number of
    raw rows. *)
Theorem X5_footer_period_is_the_range_of_the_monthly_series
    (read_csv : string -> result csv_frame)
    (parse_datetime : datetime_parser) (path : string)
    (df : DataFrame) (daily monthly : series) (t0 t1 : Z) :
  outcome (load_data read_csv parse_datetime path)
    = Ok (Some df, Some daily, Some monthly) ->
  Tanggal_min df = Some t0 ->
  Tanggal_max df = Some t1 ->
  exists first_month last_month,
    hd_error (map fst monthly) = Some first_month
    /\ last_label monthly = Some last_month
    /\ sidebar_footer (Some df)
       = ([(Sidebar, markdown [Lit "---"]);
           (Sidebar, subheader [Lit "Info Data"]);
           (Sidebar, write [Lit "Data Transaksi: ";
                            FmtThousands (Z.of_nat (List.length df));
                            Lit " baris"]);
           (Sidebar, write [Lit "Periode Data: "; YearMonth first_month;
                            Lit " s/d "; YearMonth last_month])],
          Ok tt).
Proof.
  intros Hload Hmin Hmax.
  apply load_data_loaded, load_data_try_series in Hload.
  destruct Hload as [-> ->].
  exists (month_of_timestamp t0), (month_of_timestamp t1).
  assert (Hle : month_of_timestamp t0 <= month_of_timestamp t1).
  { apply CalendarFacts.month_of_timestamp_mono.
    exact (min_le_max df t0 t1 Hmin Hmax). }
  rewrite (monthly_of_spec df t0 t1 Hmin Hmax).
  destruct (Z.to_nat (month_of_timestamp t1 - month_of_timestamp t0 + 1))
    as [|n] eqn:Hn; [lia|].
  split; [|split].
  - rewrite zrange_S. reflexivity.
  - assert (Hlast : forall (s : series) d,
               s <> [] -> last_label s = Some (fst (last s d))).
    { intros s d. induction s as [|[k v] s IH]; intros Hne; [congruence|].
      destruct s as [|b s']; [reflexivity|].
      change (last_label (b :: s') = Some (fst (last (b :: s') d))).
      apply IH. discriminate. }
    rewrite (Hlast _ (0, 0)) by (rewrite zrange_S; discriminate).
    rewrite (last_zrange_map (fun mo => (mo, wrap64 (qty_in_month mo df)))).
    cbn [fst]. f_equal. lia.
  - rewrite (sidebar_footer_dated df t0 t1 Hmin Hmax). reflexivity.
Qed.

Lemma X5_footer_period_is_the_range_of_the_monthly_series_witness :
  exists first_month last_month,
    hd_error (map fst [(24276, 13); (24277, 1)]) = Some first_month
    /\ last_label [(24276, 13); (24277, 1)] = Some last_month
    /\ outcome
         (sidebar_footer
            (Some [{| Tanggal := Some 1675123200000000000; Qty := 2 |};
                   {| Tanggal := Some 1675036800000000000; Qty := 4 |};
                   {| Tanggal := Some 1675296000000000000; Qty := 1 |};
                   {| Tanggal := Some 1675123200000000000; Qty := 7 |}]))
       = Ok tt.
Proof.
  destruct (X5_footer_period_is_the_range_of_the_monthly_series
              (read_from [(DATA_FILE, month_turn)]) IsoDate.parser DATA_FILE
              [{| Tanggal := Some 1675123200000000000; Qty := 2 |};
               {| Tanggal := Some 1675036800000000000; Qty := 4 |};
               {| Tanggal := Some 1675296000000000000; Qty := 1 |};
               {| Tanggal := Some 1675123200000000000; Qty := 7 |}]
              [(19387, 4); (19388, 9); (19389, 0); (19390, 1)]
              [(24276, 13); (24277, 1)]
              1675036800000000000 1675296000000000000
              ltac:(vm_compute; reflexivity) ltac:(vm_compute; reflexivity)
              ltac:(vm_compute; reflexivity))
    as (first_month & last_month & Hhd & Hlast & Hrun).
  exists first_month, last_month.
  split; [exact Hhd|]. split; [exact Hlast|].
  exact (f_equal snd Hrun).
Defined.

(** X6.  When the data file cannot be loaded, the run ends normally
    whatever page is selected and whatever the model files hold: the
    error of the load is shown, the page renders in the main area only
    (the two model views show their warning), and the sidebar footer
    writes neither the count nor the period. *)
Theorem X6_run_without_data_ends_normally
    (read_csv : string -> result csv_frame)
    (parse_datetime : datetime_parser)
    (pickle_load : string -> result Model)
    (selection : string) (periods : Z) (clicked : bool) (e : exn) :
  load_data_try read_csv parse_datetime DATA_FILE = Raise e ->
  let run :=
    app read_csv parse_datetime pickle_load selection periods clicked in
  outcome run = Ok tt
  /\ (exists msg, In (Main, error msg) (rendered run))
  /\ (forall t, ~ In (Sidebar, write t) (rendered run))
  /\ (selection = "Analisis Model" \/ selection = "Uji Coba & Pelatihan" ->
      exists msg, In (Main, warning msg) (rendered run)).
Proof.
  intros Hfail run.
  destruct (load_data_cases read_csv parse_datetime DATA_FILE)
    as [(df & d & m & Htry & _)|(e' & msg & _ & H1)]; [congruence|].
  destruct (load_model_run pickle_load SARIMA_MODEL_FILE)
    as (o2 & sm & H2 & Ho2).
  destruct (load_model_run pickle_load HOLTWINTERS_MODEL_FILE)
    as (o3 & hm & H3 & Ho3).
  unfold run.
  rewrite (app_run _ _ _ selection periods clicked _ _ _ _ _ _ _ _ H1 H2 H3).
  destruct (selected_page_without_data selection sm hm periods clicked)
    as (out & Hpage & Hout).
  rewrite (bind_run _ _ out tt Hpage), sidebar_footer_absent.
  unfold outcome, rendered. cbn [fst snd].
  split; [reflexivity|]. split; [|split].
  - exists msg. right. left. reflexivity.
  - assert (Hmain : forall l : list element,
               Forall (fun el => fst el = Main) l ->
               Forall (fun el => forall t, el <> (Sidebar, write t)) l).
    { intros l Hl. eapply Forall_impl; [|exact Hl].
      intros el Hel t ->. discriminate Hel. }
    assert (Hall : Forall (fun el => forall t, el <> (Sidebar, write t))
                     (page_config :: [(Main, error msg)] ++ o2 ++ o3
                        ++ shell_head ++ out ++ footer_head)).
    { constructor; [discriminate|].
      apply Forall_app. split; [repeat constructor; discriminate|].
      apply Forall_app. split; [apply Hmain, errors_in_main, Ho2|].
      apply Forall_app. split; [apply Hmain, errors_in_main, Ho3|].
      apply Forall_app. split; [repeat constructor; discriminate|].
      apply Forall_app. split; [apply Hmain, Hout|].
      repeat constructor; discriminate. }
    intros t Hin. rewrite Forall_forall in Hall.
    exact (Hall _ Hin t eq_refl).
  - intros Hsel.
    assert (Hw : exists w, In (Main, warning w) out).
    { unfold selected_page in Hpage.
      destruct Hsel as [-> | ->]; cbn [String.eqb] in Hpage; simpl in Hpage.
      - rewrite model_analysis_page_absent in Hpage by auto.
        injection Hpage as <-. eexists. right. right. left. reflexivity.
      - rewrite forecast_page_absent in Hpage by auto.
        injection Hpage as <-. eexists. right. right. left. reflexivity. }
    destruct Hw as [w Hw]. exists w.
    right. rewrite !in_app_iff. tauto.
Qed.

Lemma X6_run_without_data_ends_normally_witness :
  outcome (app (read_from []) IsoDate.parser
               (unpickle_from
                  [(SARIMA_MODEL_FILE, fitted_model april_2025);
                   (HOLTWINTERS_MODEL_FILE, fitted_model april_2025)])
               "Analisis Model" 3 false)
  = Ok tt.
Proof.
  pose proof (X6_run_without_data_ends_normally
                (read_from []) IsoDate.parser
                (unpickle_from
                   [(SARIMA_MODEL_FILE, fitted_model april_2025);
                    (HOLTWINTERS_MODEL_FILE, fitted_model april_2025)])
                "Analisis Model" 3 false _ eq_refl) as H.
  exact (proj1 H).
Defined.

(** X7.  The home page and the forecast view cannot fail: when one of
    them is selected, whatever the files hold and whatever the slider and
    the button say, the run ends exactly as the sidebar footer ends, on
    the raw frame that [load_data] returned. *)
Theorem X7_home_and_forecast_runs_end_as_the_footer
    (read_csv : string -> result csv_frame)
    (parse_datetime : datetime_parser)
    (pickle_load : string -> result Model)
    (selection : string) (periods : Z) (clicked : bool) :
  selection = "Penjelasan Aplikasi" \/ selection = "Uji Coba & Pelatihan" ->
  exists o df_raw df_daily df_monthly,
    load_data read_csv parse_datetime DATA_FILE
    = (o, Ok (df_raw, df_daily, df_monthly))
    /\ outcome (app read_csv parse_datetime pickle_load selection periods
                  clicked)
       = outcome (sidebar_footer df_raw).
Proof.
  intros Hsel.
  destruct (load_data_run read_csv parse_datetime DATA_FILE)
    as (o1 & [[df_raw df_daily] df_monthly] & H1 & _).
  destruct (load_model_run pickle_load SARIMA_MODEL_FILE)
    as (o2 & sm & H2 & _).
  destruct (load_model_run pickle_load HOLTWINTERS_MODEL_FILE)
    as (o3 & hm & H3 & _).
  exists o1, df_raw, df_daily, df_monthly. split; [exact H1|].
  rewrite (app_run _ _ _ selection periods clicked _ _ _ _ _ _ _ _ H1 H2 H3).
  unfold outcome at 1. cbn [snd].
  assert (Hpage : exists out,
             selected_page selection sm hm df_monthly periods clicked
             = (out, Ok tt)).
  { unfold selected_page. destruct Hsel as [-> | ->]; simpl.
    - destruct home_page_run as (out & -> & _). eauto.
    - pose proof (forecast_page_returns sm hm df_monthly periods clicked)
        as Hret.
      destruct (forecast_page sm hm df_monthly periods clicked) as [out r].
      unfold outcome in Hret. cbn [snd] in Hret. subst r. eauto. }
  destruct Hpage as [out Hpage].
  rewrite (bind_run _ _ out tt Hpage). reflexivity.
Qed.

Lemma X7_home_and_forecast_runs_end_as_the_footer_witness :
  exists o df_raw df_daily df_monthly,
    load_data (read_from [(DATA_FILE, two_sales)]) IsoDate.parser DATA_FILE
    = (o, Ok (df_raw, df_daily, df_monthly))
    /\ outcome (app (read_from [(DATA_FILE, two_sales)]) IsoDate.parser
                  (unpickle_from []) "Uji Coba & Pelatihan" 3 true)
       = outcome (sidebar_footer df_raw).
Proof.
  apply (X7_home_and_forecast_runs_end_as_the_footer
           (read_from [(DATA_FILE, two_sales)]) IsoDate.parser
           (unpickle_from []) "Uji Coba & Pelatihan" 3 true).
  right. reflexivity.
Defined.

(** X8.  The sidebar footer is written after the page.  When the model
    analysis view is selected and raises, the run ends with that
    exception and the footer writes neither the count nor the period,
    although the data is loaded. *)
Theorem X8_failing_analysis_view_hides_the_footer
    (read_csv : string -> result csv_frame)
    (parse_datetime : datetime_parser)
    (pickle_load : string -> result Model)
    (periods : Z) (clicked : bool)
    (df : DataFrame) (daily monthly : series) (sm hm : Model) (e : exn) :
  outcome (load_data read_csv parse_datetime DATA_FILE)
    = Ok (Some df, Some daily, Some monthly) ->
  pickle_load SARIMA_MODEL_FILE = Ok sm ->
  pickle_load HOLTWINTERS_MODEL_FILE = Ok hm ->
  outcome (model_analysis_page (Some sm) (Some hm) (Some monthly)) = Raise e ->
  let run :=
    app read_csv parse_datetime pickle_load "Analisis Model" periods clicked in
  outcome run = Raise e
  /\ forall t, ~ In (Sidebar, write t) (rendered run).
Proof.
  intros Hload Hsm Hhm Hpage run.
  destruct (load_data_cases read_csv parse_datetime DATA_FILE)
    as [(df' & d' & m' & _ & H1)|(e' & msg & _ & H1)];
    rewrite H1 in Hload; unfold outcome in Hload; cbn [snd] in Hload;
    [|discriminate Hload].
  injection Hload as -> -> ->.
  destruct (load_model_cases pickle_load SARIMA_MODEL_FILE)
    as [(sm' & Hsm' & H2)|(e' & msg & He' & _)]; [|congruence].
  assert (sm' = sm) by congruence. subst sm'.
  destruct (load_model_cases pickle_load HOLTWINTERS_MODEL_FILE)
    as [(hm' & Hhm' & H3)|(e' & msg & He' & _)]; [|congruence].
  assert (hm' = hm) by congruence. subst hm'.
  unfold run.
  rewrite (app_run _ _ _ "Analisis Model" periods clicked
             _ _ _ _ _ _ _ _ H1 H2 H3).
  pose proof (model_analysis_page_places (Some sm) (Some hm) (Some monthly))
    as Hplaces.
  assert (Hsel : selected_page "Analisis Model" (Some sm) (Some hm)
                   (Some monthly) periods clicked
                 = model_analysis_page (Some sm) (Some hm) (Some monthly))
    by reflexivity.
  rewrite Hsel.
  destruct (model_analysis_page (Some sm) (Some hm) (Some monthly))
    as [out r] eqn:Hrun.
  unfold outcome in Hpage. cbn [snd] in Hpage. subst r.
  unfold rendered in Hplaces. cbn [fst] in Hplaces.
  rewrite (bind_raise _ _ out e eq_refl).
  unfold outcome, rendered. cbn [fst snd]. split; [reflexivity|].
  intros t Hin. destruct Hin as [Hin|Hin]; [discriminate Hin|].
  cbn [app] in Hin. destruct Hin as [Hin|[Hin|Hin]]; try discriminate Hin.
  rewrite Forall_forall in Hplaces. specialize (Hplaces _ Hin).
  apply Hplaces. reflexivity.
Qed.

Lemma X8_failing_analysis_view_hides_the_footer_witness :
  let run :=
    app (read_from [(DATA_FILE, two_sales)]) IsoDate.parser
        (unpickle_from
           [(SARIMA_MODEL_FILE, fitted_model april_2025);
            (HOLTWINTERS_MODEL_FILE, fitted_model april_2025)])
        "Analisis Model" 3 false in
  outcome run
  = Raise (AttributeError "'PeriodIndex' object has no attribute 'to_period'")
  /\ forall t, ~ In (Sidebar, write t) (rendered run).
Proof.
  exact (X8_failing_analysis_view_hides_the_footer
           (read_from [(DATA_FILE, two_sales)]) IsoDate.parser
           (unpickle_from
              [(SARIMA_MODEL_FILE, fitted_model april_2025);
               (HOLTWINTERS_MODEL_FILE, fitted_model april_2025)])
           3 false
           [{| Tanggal := Some 1672531200000000000; Qty := 3 |};
            {| Tanggal := Some 1672704000000000000; Qty := 5 |}]
           [(19358, 3); (19359, 0); (19360, 5)] [(24276, 8)]
           (fitted_model april_2025) (fitted_model april_2025) _
           ltac:(vm_compute; reflexivity) eq_refl eq_refl eq_refl).
Defined.

(** X9.  The model analysis view reads the index of the Holt-Winters
    fitted values with [to_period] (line 163), the forecast view reads the
    index of the Holt-Winters forecast with [to_timestamp] (line 239), and
    one model gives both series the same kind of index.  So whenever the
    analysis view runs to its end, the Holt-Winters forecast of the
    forecast view fails, for every horizon, and the forecast view shows
    its error and no table. *)
Theorem X9_analysis_and_forecast_disagree_on_the_index
    (sm hm : Model) (monthly : series) (periods : Z) :
  outcome (model_analysis_page (Some sm) (Some hm) (Some monthly)) = Ok tt ->
  let run := forecast_page (Some sm) (Some hm) (Some monthly) periods true in
  (exists e, hw_try (Some hm) periods = Raise e
             /\ In (Main, error [Lit "Gagal melakukan peramalan Holt-Winters: ";
                                 ExnText e])
                   (rendered run))
  /\ forall rows, ~ In (Main, dataframe rows) (rendered run).
Proof.
  intros Hok run.
  rewrite model_analysis_page_outcome in Hok.
  assert (Hkind : index_kind_of hm = DatetimeIndex).
  { destruct (order sm), (seasonal_order sm), (model_seasonal hm);
      try discriminate Hok.
    destruct (index_kind_of hm); [discriminate Hok|reflexivity]. }
  assert (Hfail : exists e, hw_try (Some hm) periods = Raise e).
  { unfold hw_try, getattr, forecast, forecast_index, make_index.
    destruct (forecast_fault hm periods); [eexists; reflexivity|].
    rewrite Hkind. eexists. reflexivity. }
  destruct Hfail as [e He].
  unfold run. rewrite forecast_page_run, He.
  unfold rendered. cbn [fst]. split.
  - exists e. split; [reflexivity|].
    apply in_or_app. right. right.
    destruct (sarima_try (Some sm) periods); simpl; auto.
  - intros rows Hin. apply in_app_or in Hin.
    destruct Hin as [Hin|Hin].
    + simpl in Hin.
      repeat (destruct Hin as [Hin|Hin]; [discriminate Hin|]). exact Hin.
    + destruct Hin as [Hin|Hin]; [discriminate Hin|].
      apply in_app_or in Hin. destruct Hin as [Hin|Hin].
      * destruct (sarima_try (Some sm) periods); simpl in Hin;
          repeat (destruct Hin as [Hin|Hin]; [discriminate Hin|]); exact Hin.
      * simpl in Hin.
        repeat (destruct Hin as [Hin|Hin]; [discriminate Hin|]). exact Hin.
Qed.

Lemma X9_analysis_and_forecast_disagree_on_the_index_witness :
  exists e,
    hw_try (Some (fitted_on_timestamps april_2025)) 3 = Raise e
    /\ In (Main, error [Lit "Gagal melakukan peramalan Holt-Winters: ";
                        ExnText e])
          (rendered (forecast_page (Some (fitted_model april_2025))
                       (Some (fitted_on_timestamps april_2025))
                       (Some [(april_2025, 8)]) 3 true)).
Proof.
  exact (proj1 (X9_analysis_and_forecast_disagree_on_the_index
                  (fitted_model april_2025) (fitted_on_timestamps april_2025)
                  [(april_2025, 8)] 3 eq_refl)).
Defined.

(** X10.  A forecast value that is not finite hides the table: when the
    point estimate or a bound of some SARIMA step within the horizon, or
    the point estimate of some Holt-Winters step, is [NaN] or infinite,
    the cast to integers raises inside the [try], the view shows the
    error of that model, returns normally and renders no table. *)
Theorem X10_non_finite_forecast_hides_the_table
    (sm hm : Model) (monthly : series) (periods : Z) (step : nat) :
  (1 <= step <= Z.to_nat periods)%nat ->
  ~ is_finite (predict sm step) \/ ~ is_finite (predict_lower sm step)
  \/ ~ is_finite (predict_upper sm step) \/ ~ is_finite (predict hm step) ->
  let run := forecast_page (Some sm) (Some hm) (Some monthly) periods true in
  outcome run = Ok tt
  /\ ((exists e, sarima_try (Some sm) periods = Raise e)
      \/ (exists e, hw_try (Some hm) periods = Raise e))
  /\ forall rows, ~ In (Main, dataframe rows) (rendered run).
Proof.
  intros Hstep Hbad run.
  apply in_horizon in Hstep.
  assert (Hfail : (exists e, sarima_try (Some sm) periods = Raise e)
                  \/ (exists e, hw_try (Some hm) periods = Raise e)).
  { destruct (sarima_try (Some sm) periods) as [s|es] eqn:Hs; [|eauto].
    destruct (hw_try (Some hm) periods) as [h|eh] eqn:Hh; [|eauto].
    exfalso.
    destruct (sarima_try_ok sm periods s Hs) as [_ Hsfin].
    destruct (hw_try_ok hm periods h Hh) as [_ Hhfin].
    rewrite Forall_forall in Hsfin, Hhfin.
    destruct (Hsfin step Hstep) as (Hp & Hl & Hu).
    specialize (Hhfin step Hstep). tauto. }
  split; [apply forecast_page_returns|]. split; [exact Hfail|].
  unfold run. rewrite forecast_page_run. unfold rendered. cbn [fst].
  intros rows Hin. apply in_app_or in Hin. destruct Hin as [Hin|Hin].
  - simpl in Hin.
    repeat (destruct Hin as [Hin|Hin]; [discriminate Hin|]). exact Hin.
  - destruct Hin as [Hin|Hin]; [discriminate Hin|].
    apply in_app_or in Hin. destruct Hin as [Hin|Hin].
    + destruct Hfail as [[e He]|[e He]]; rewrite He in Hin;
        destruct (sarima_try (Some sm) periods),
                 (hw_try (Some hm) periods); simpl in Hin;
        repeat (destruct Hin as [Hin|Hin]; [discriminate Hin|]);
        exact Hin.
    + simpl in Hin.
      repeat (destruct Hin as [Hin|Hin]; [discriminate Hin|]). exact Hin.
Qed.

Lemma X10_non_finite_forecast_hides_the_table_witness :
  outcome (forecast_page
             (Some (with_nan_forecast (fitted_model april_2025)))
             (Some (fitted_model april_2025))
             (Some [(april_2025, 8)]) 3 true)
  = Ok tt
  /\ forall rows,
       ~ In (Main, dataframe rows)
            (rendered (forecast_page
                         (Some (with_nan_forecast (fitted_model april_2025)))
                         (Some (fitted_model april_2025))
                         (Some [(april_2025, 8)]) 3 true)).
Proof.
  assert (H : (1 <= 2 <= Z.to_nat 3)%nat) by (simpl; lia).
  pose proof (X10_non_finite_forecast_hides_the_table
                (with_nan_forecast (fitted_model april_2025))
                (fitted_model april_2025)
                [(april_2025, 8)] 3 2%nat H) as Hx.
  destruct Hx as (Hok & _ & Hnone).
  - left. intros [q Hq]. discriminate Hq.
  - split; [exact Hok|exact Hnone].
Defined.

(** X11.  In the combined table the Holt-Winters cell of a row follows
    the overlap of the two forecasts: it holds the Holt-Winters estimate
    for the month of the row, rounded and cast to 64 bits (the nearest
    integer whenever that is an [int64]), when that month is among the
    months the Holt-Winters model forecasts, and it is missing otherwise.
    When both models were fitted up to the same month, no cell is
    missing. *)
Theorem X11_holt_winters_column_follows_the_overlap
    (sm hm : Model) (periods : Z) (s : sarima_outcome) (h : hw_outcome)
    (row : forecast_row) :
  sarima_try (Some sm) periods = Ok s ->
  hw_try (Some hm) periods = Ok h ->
  In row (join (sarima_results s) (hw_results h)) ->
  let k := Bulan row - train_end hm in
  Holt_Winters_Prediksi row
  = (if (1 <=? k) && (k <=? periods)
     then Some (cell (predict hm (Z.to_nat k)))
     else None)
  /\ (forall z, Holt_Winters_Prediksi row = Some z ->
        shown_as (predict hm (Z.to_nat k)) z)
  /\ (train_end hm = train_end sm -> Holt_Winters_Prediksi row <> None).
Proof.
  intros Hs Hh Hrow k.
  destruct (sarima_try_ok sm periods s Hs) as [Hsr _].
  destruct (hw_try_ok hm periods h Hh) as [Hhr Hhfin].
  rewrite Hsr, Hhr in Hrow.
  assert (Hcell : Holt_Winters_Prediksi row
                  = (if (1 <=? k) && (k <=? periods)
                     then Some (cell (predict hm (Z.to_nat k)))
                     else None)).
  { destruct (join_row_partner _ _ _ Hrow) as [[Hnone Hnokey]|Hin].
    - rewrite Hnone.
      destruct ((1 <=? k) && (k <=? periods)) eqn:Hk; [|reflexivity].
      exfalso. apply Hnokey. rewrite hw_rows_keys.
      unfold forecast_months. apply in_map_iff. exists (Z.to_nat k).
      apply andb_true_iff in Hk. destruct Hk as [H1 H2].
      apply Z.leb_le in H1, H2. split; [unfold k; lia|].
      apply in_horizon. lia.
    - unfold hw_rows in Hin. apply in_map_iff in Hin.
      destruct Hin as [step [Heq Hstep]]. injection Heq as Hb Hv.
      apply in_horizon in Hstep.
      assert (Hk : k = Z.of_nat step) by (unfold k; lia).
      replace ((1 <=? k) && (k <=? periods)) with true.
      + rewrite <- Hv, Hk, Nat2Z.id. reflexivity.
      + symmetry. apply andb_true_iff.
        split; apply Z.leb_le; lia. }
  split; [exact Hcell|]. split.
  - intros z Hz. rewrite Hcell in Hz.
    destruct ((1 <=? k) && (k <=? periods)) eqn:Hk; [|discriminate Hz].
    injection Hz as <-. apply cell_shown.
    rewrite Forall_forall in Hhfin. apply Hhfin, in_horizon.
    apply andb_true_iff in Hk. destruct Hk as [H1 H2].
    apply Z.leb_le in H1, H2. lia.
  - intros Hsame. rewrite Hcell.
    apply join_row_origin in Hrow. destruct Hrow as [Hleft _].
    unfold sarima_rows in Hleft. apply in_map_iff in Hleft.
    destruct Hleft as [step [Heq Hstep]]. injection Heq as Hb _ _ _.
    apply in_horizon in Hstep.
    replace ((1 <=? k) && (k <=? periods)) with true; [discriminate|].
    symmetry. apply andb_true_iff. unfold k.
    split; apply Z.leb_le; lia.
Qed.

Lemma X11_holt_winters_column_follows_the_overlap_witness :
  Holt_Winters_Prediksi
    {| Bulan := april_2025 + 3; SARIMA_Prediksi := 2;
       SARIMA_Batas_Bawah := 1; SARIMA_Batas_Atas := 10;
       Holt_Winters_Prediksi := Some 0 |}
  = Some (cell (predict (fitted_model (april_2025 + 2)) 1)).
Proof.
  exact (proj1 (X11_holt_winters_column_follows_the_overlap
                  (fitted_model april_2025) (fitted_model (april_2025 + 2)) 3
                  _ _
                  {| Bulan := april_2025 + 3; SARIMA_Prediksi := 2;
                     SARIMA_Batas_Bawah := 1; SARIMA_Batas_Atas := 10;
                     Holt_Winters_Prediksi := Some 0 |}
                  eq_refl eq_refl
                  ltac:(vm_compute; right; right; left; reflexivity))).
Defined.

(** X12.  The attributes read outside the two [try] blocks are not
    protected: when [order] or [seasonal_order] of the SARIMA model or
    [model.seasonal] of the Holt-Winters model cannot be read, or when the
    Holt-Winters model was fitted on a period index, the model analysis
    view raises, whatever the metrics are; the heading of the metrics is
    rendered before, the chart never. *)
Theorem X12_attributes_outside_try_are_unprotected
    (sm hm : Model) (monthly : series) :
  (exists e, order sm = Raise e) \/ (exists e, seasonal_order sm = Raise e)
  \/ (exists e, model_seasonal hm = Raise e)
  \/ index_kind_of hm = PeriodIndex ->
  let run := model_analysis_page (Some sm) (Some hm) (Some monthly) in
  (exists e, outcome run = Raise e)
  /\ In (Main, header [Lit "Perbandingan Metrik Evaluasi Model"])
        (rendered run)
  /\ forall fig, ~ In (Main, pyplot fig) (rendered run).
Proof.
  intros Hbad run. unfold run, model_analysis_page, model_analysis_body.
  rewrite sarima_metrics_run, hw_metrics_run.
  destruct (metrics_or_NA (aic sm) (bic sm) (llf sm)) as [[sa sb] sl].
  destruct (metrics_or_NA (aic hm) (bic hm) (sse hm)) as [[ha hb] hs].
  unfold getattr, fittedvalues. cbv beta iota.
  destruct (order sm) as [o|eo], (seasonal_order sm) as [so|eso],
           (model_seasonal hm) as [sea|esea],
           (index_kind_of hm) eqn:Hkind;
    try (exfalso;
         destruct Hbad as [[e He]|[[e He]|[[e He]|He]]]; discriminate He);
    (split; [eexists; reflexivity|]);
    (split; [right; right; left; reflexivity|]);
    intros fig Hin; vm_compute in Hin;
    repeat (destruct Hin as [Hin|Hin]; [discriminate Hin|]);
    exact Hin.
Qed.

Lemma X12_attributes_outside_try_are_unprotected_witness :
  exists e,
    outcome (model_analysis_page (Some (fitted_model april_2025))
               (Some (fitted_model april_2025)) (Some [(april_2025, 8)]))
    = Raise e.
Proof.
  refine (proj1 (X12_attributes_outside_try_are_unprotected
                   (fitted_model april_2025) (fitted_model april_2025)
                   [(april_2025, 8)] _)).
  right. right. right. reflexivity.
Defined.

(** X13.  Sums that fit keep the sign of the quantities: when no raw
    record of a loaded file has a negative [Qty] and the quantities of the
    dated records sum to no more than the greatest [int64], every entry of
    the daily series and of the monthly series is the sum of the
    quantities of its day or month itself, and none is negative. *)
Theorem X13_series_of_non_negative_quantities
    (read_csv : string -> result csv_frame)
    (parse_datetime : datetime_parser) (path : string)
    (df : DataFrame) (daily monthly : series) :
  outcome (load_data read_csv parse_datetime path)
    = Ok (Some df, Some daily, Some monthly) ->
  (forall r, In r df -> 0 <= Qty r) ->
  qty_dated df <= int64_max ->
  (forall d v, In (d, v) daily -> 0 <= v /\ v = qty_on_day d df)
  /\ (forall mo v, In (mo, v) monthly -> 0 <= v /\ v = qty_in_month mo df).
Proof.
  intros Hload Hpos Hfit.
  apply load_data_loaded, load_data_try_series in Hload.
  destruct Hload as [-> ->].
  assert (Hq : forall p, 0 <= wrap64 (qty_where p df)
                         /\ wrap64 (qty_where p df) = qty_where p df).
  { intros p. pose proof (qty_where_bounds p df Hpos) as Hb.
    rewrite wrap64_small; [split; [lia|reflexivity]|].
    unfold in_int64, int64_min. unfold int64_max in *. lia. }
  destruct (Tanggal_min df) as [t0|] eqn:Hmin.
  - destruct (Tanggal_min_max df t0 Hmin) as [t1 Hmax].
    rewrite (monthly_of_spec df t0 t1 Hmin Hmax).
    rewrite (daily_of_spec df t0 t1 Hmin Hmax).
    split; intros k v Hin; apply in_map_iff in Hin;
      destruct Hin as [x [Hx _]]; injection Hx as -> <-; apply Hq.
  - rewrite (daily_of_no_dates df Hmin). split; intros k v [].
Qed.

Lemma X13_series_of_non_negative_quantities_witness :
  let df := [{| Tanggal := Some 1672531200000000000; Qty := 3 |};
             {| Tanggal := Some 1672704000000000000; Qty := 5 |}] in
  (forall d v, In (d, v) [(19358, 3); (19359, 0); (19360, 5)] ->
     0 <= v /\ v = qty_on_day d df)
  /\ (forall mo v, In (mo, v) [(24276, 8)] ->
        0 <= v /\ v = qty_in_month mo df).
Proof.
  apply (X13_series_of_non_negative_quantities
           (read_from [(DATA_FILE, two_sales)]) IsoDate.parser DATA_FILE
           [{| Tanggal := Some 1672531200000000000; Qty := 3 |};
            {| Tanggal := Some 1672704000000000000; Qty := 5 |}]
           [(19358, 3); (19359, 0); (19360, 5)] [(24276, 8)]
           ltac:(vm_compute; reflexivity)).
  - intros r [<-|[<-|[]]]; simpl; lia.
  - vm_compute. discriminate.
Defined.

(** X14.  When a model file cannot be loaded, the two model views show
    their warning and nothing else of their own: the run renders no chart
    and no table, and ends as the sidebar footer ends. *)
Theorem X14_run_without_a_model_shows_the_warning
    (read_csv : string -> result csv_frame)
    (parse_datetime : datetime_parser)
    (pickle_load : string -> result Model)
    (selection : string) (periods : Z) (clicked : bool) :
  (exists e, pickle_load SARIMA_MODEL_FILE = Raise e)
  \/ (exists e, pickle_load HOLTWINTERS_MODEL_FILE = Raise e) ->
  selection = "Analisis Model" \/ selection = "Uji Coba & Pelatihan" ->
  let run :=
    app read_csv parse_datetime pickle_load selection periods clicked in
  (exists msg, In (Main, warning msg) (rendered run))
  /\ (forall fig, ~ In (Main, pyplot fig) (rendered run))
  /\ (forall rows, ~ In (Main, dataframe rows) (rendered run))
  /\ exists o df_raw df_daily df_monthly,
       load_data read_csv parse_datetime DATA_FILE
       = (o, Ok (df_raw, df_daily, df_monthly))
       /\ outcome run = outcome (sidebar_footer df_raw).
Proof.
  intros Hmissing Hsel run.
  destruct (load_data_run read_csv parse_datetime DATA_FILE)
    as (o1 & [[df_raw df_daily] df_monthly] & H1 & Ho1).
  destruct (load_model_run pickle_load SARIMA_MODEL_FILE)
    as (o2 & sm & H2 & Ho2).
  destruct (load_model_run pickle_load HOLTWINTERS_MODEL_FILE)
    as (o3 & hm & H3 & Ho3).
  assert (Habsent : sm = None \/ hm = None \/ df_monthly = None).
  { destruct Hmissing as [[e He]|[e He]].
    - left. destruct (load_model_cases pickle_load SARIMA_MODEL_FILE)
        as [(m & Hm & _)|(e' & msg & _ & Hrun)]; [congruence|].
      rewrite Hrun in H2. congruence.
    - right. left.
      destruct (load_model_cases pickle_load HOLTWINTERS_MODEL_FILE)
        as [(m & Hm & _)|(e' & msg & _ & Hrun)]; [congruence|].
      rewrite Hrun in H3. congruence. }
  assert (Hpage : exists w1 w2 w3,
             selected_page selection sm hm df_monthly periods clicked
             = ([(Main, title w1); (Main, markdown w2); (Main, warning w3)],
                Ok tt)).
  { unfold selected_page. destruct Hsel as [-> | ->]; simpl.
    - rewrite (model_analysis_page_absent _ _ _ Habsent). eauto.
    - rewrite (forecast_page_absent _ _ _ periods clicked Habsent). eauto. }
  destruct Hpage as (w1 & w2 & w3 & Hpage).
  unfold run.
  rewrite (app_run _ _ _ selection periods clicked _ _ _ _ _ _ _ _ H1 H2 H3).
  rewrite (bind_run _ _ _ tt Hpage).
  unfold outcome at 1, rendered. cbn [fst snd].
  assert (Hfooter : Forall (fun el => fst el = Sidebar)
                      (fst (sidebar_footer df_raw))).
  { unfold sidebar_footer. destruct df_raw as [df|]; [|repeat constructor].
    destruct (Tanggal_min df), (Tanggal_max df); repeat constructor. }
  assert (Hall : Forall (fun el => (forall fig, el <> (Main, pyplot fig))
                                   /\ forall rows, el <> (Main, dataframe rows))
                   (page_config :: o1 ++ o2 ++ o3 ++ shell_head
                      ++ [(Main, title w1); (Main, markdown w2);
                          (Main, warning w3)]
                      ++ fst (sidebar_footer df_raw))).
  { assert (Herr : forall l : list element,
               Forall (fun el => exists msg, el = (Main, error msg)) l ->
               Forall (fun el => (forall fig, el <> (Main, pyplot fig))
                                 /\ forall rows, el <> (Main, dataframe rows))
                      l).
    { intros l Hl. eapply Forall_impl; [|exact Hl].
      intros el [msg ->]. split; discriminate. }
    constructor; [split; discriminate|].
    apply Forall_app. split; [apply Herr, Ho1|].
    apply Forall_app. split; [apply Herr, Ho2|].
    apply Forall_app. split; [apply Herr, Ho3|].
    apply Forall_app. split; [repeat constructor; discriminate|].
    apply Forall_app. split; [repeat constructor; discriminate|].
    eapply Forall_impl; [|exact Hfooter].
    intros el Hel. split; intros x ->; discriminate Hel. }
  rewrite Forall_forall in Hall.
  split; [|split; [|split]].
  - exists w3. right. rewrite !in_app_iff. simpl. tauto.
  - intros fig Hin. exact (proj1 (Hall _ Hin) fig eq_refl).
  - intros rows Hin. exact (proj2 (Hall _ Hin) rows eq_refl).
  - exists o1, df_raw, df_daily, df_monthly. split; [exact H1|reflexivity].
Qed.

Lemma X14_run_without_a_model_shows_the_warning_witness :
  exists msg,
    In (Main, warning msg)
       (rendered (app (read_from [(DATA_FILE, two_sales)]) IsoDate.parser
                      (unpickle_from
                         [(SARIMA_MODEL_FILE, fitted_model april_2025)])
                      "Uji Coba & Pelatihan" 3 true)).
Proof.
  refine (proj1 (X14_run_without_a_model_shows_the_warning
                   (read_from [(DATA_FILE, two_sales)]) IsoDate.parser
                   (unpickle_from
                      [(SARIMA_MODEL_FILE, fitted_model april_2025)])
                   "Uji Coba & Pelatihan" 3 true _ _)).
  - right. eexists. reflexivity.
  - right. reflexivity.
Defined.
